(** * altoro-rpa: retry engines, token freshness, column normalisation and
    reconciliation, embedded from the Python sources.

    Conventions of the embedding.
    - Python [int] is [Z].  Python [float] (money, seconds) is idealised as an
      exact rational [Q]; [None] and [NaN] cells are the single cell [NA].
    - A call that may raise returns an [outcome]; code that touches the
      outside world (the wrapped callable, [time.sleep], [random.random],
      the HTTP transport, the browser pages) threads a world value.
    - Log calls have no effect and are left out, except where building the
      logged text can itself raise. *)

From Stdlib Require Import ZArith QArith Qminmax Qabs Qpower Lia Lqa Ascii.
From stdpp Require Import base option list strings gmap pretty.

Set Default Proof Using "Type".

(* ===================================================================== *)
(** ** Python values shared by every module *)
(* ===================================================================== *)

Module Py.

(** The exception classes the sources raise or catch.  [httpx] classes
    first, then [src/api/exceptions.py], then
    [src/core/session_handler.py]; [Exception_] stands for an instance of
    any other class, with its class name and [str()]. *)
#[warnings="-register-all"]
Inductive exn : Type :=
| HTTPStatusError (message : string) (status_code : Z) (text : string)
| ConnectError (message : string)
| ConnectTimeout (message : string)
| ReadTimeout (message : string)
| WriteTimeout (message : string)
| PoolTimeout (message : string)
| RequestError (message : string)
| APIError (message : string) (status_code : option Z)
           (response_body : option string) (cause : option exn)
| APIAuthenticationError (message : string) (status_code : option Z)
           (response_body : option string) (cause : option exn)
| APIConnectionError (message : string) (status_code : option Z)
           (response_body : option string) (cause : option exn)
| MaxRetriesExceededError (message : string) (attempts : Z)
           (last_error : option exn) (status_code : option Z)
           (cause : option exn)
| SessionExpiredError (message : string) (cause : option exn)
| TypeError (message : string)
| Exception_ (class_name : string) (message : string).

Inductive outcome (A : Type) : Type :=
| Return (v : A)
| Raise (e : exn).
Arguments Return {A} v.
Arguments Raise {A} e.

(** [APIError.__str__]: the status code is appended when it is truthy. *)
Definition api_error_str (message : string) (status_code : option Z) : string :=
  match status_code with
  | Some c => if (c =? 0)%Z then message
              else message +:+ " (HTTP " +:+ pretty c +:+ ")"
  | None => message
  end.

(** [str(e)]. *)
Definition str (e : exn) : string :=
  match e with
  | HTTPStatusError m _ _ => m
  | ConnectError m | ConnectTimeout m | ReadTimeout m
  | WriteTimeout m | PoolTimeout m | RequestError m => m
  | APIError m c _ _ | APIAuthenticationError m c _ _
  | APIConnectionError m c _ _ => api_error_str m c
  | MaxRetriesExceededError m _ _ c _ => api_error_str m c
  | SessionExpiredError m _ => m
  | TypeError m => m
  | Exception_ _ m => m
  end.

(** [s[:n]]. *)
Definition slice_to (n : nat) (s : string) : string := String.substring 0 n s.

(** [c.lower()] on one character: ASCII capitals move down by 32, every
    other byte stays (Python agrees on ASCII text). *)
Definition lower_ascii (c : ascii) : ascii :=
  let n := nat_of_ascii c in
  if (65 <=? n)%nat && (n <=? 90)%nat then ascii_of_nat (n + 32) else c.

(** [s.lower()]. *)
Fixpoint lower (s : string) : string :=
  match s with
  | EmptyString => EmptyString
  | String c s' => String (lower_ascii c) (lower s')
  end.

(** [s.startswith(p)]. *)
Fixpoint startswith (s p : string) : bool :=
  match p, s with
  | EmptyString, _ => true
  | String a p', String b s' => if Ascii.eqb a b then startswith s' p' else false
  | String _ _, EmptyString => false
  end.

(** [p in s] for two strings: [p] starts at some position of [s]. *)
Fixpoint contains (s p : string) : bool :=
  startswith s p ||
  match s with
  | EmptyString => false
  | String _ s' => contains s' p
  end.

(** [p] occurs in [s] as a contiguous run of characters: what [p in s]
    decides (see [contains_spec]). *)
Definition substring_of (p s : string) : Prop :=
  exists pre post, s = pre +:+ p +:+ post.

End Py.
Export Py.

(* ===================================================================== *)
(** ** src/api/retry_handler.py *)
(* ===================================================================== *)

Module RetryHandler.

(** The two module-level sets.  They document the policy; the wrapper
    below compares the status with literals and does not consult them. *)
Definition RETRYABLE_STATUS_CODES : list Z := [500%Z].
Definition HANDLED_STATUS_CODES : list Z := [400%Z; 401%Z; 501%Z].

(** [type(e).__name__]. *)
Definition class_of (e : exn) : string :=
  match e with
  | HTTPStatusError _ _ _ => "HTTPStatusError"
  | ConnectError _ => "ConnectError"
  | ConnectTimeout _ => "ConnectTimeout"
  | ReadTimeout _ => "ReadTimeout"
  | WriteTimeout _ => "WriteTimeout"
  | PoolTimeout _ => "PoolTimeout"
  | RequestError _ => "RequestError"
  | APIError _ _ _ _ => "APIError"
  | APIAuthenticationError _ _ _ _ => "APIAuthenticationError"
  | APIConnectionError _ _ _ _ => "APIConnectionError"
  | MaxRetriesExceededError _ _ _ _ _ => "MaxRetriesExceededError"
  | SessionExpiredError _ _ => "SessionExpiredError"
  | TypeError _ => "TypeError"
  | Exception_ c _ => c
  end.

(** [e.__cause__], set by [raise ... from e]. *)
Definition cause_of (e : exn) : option exn :=
  match e with
  | APIError _ _ _ c | APIAuthenticationError _ _ _ c
  | APIConnectionError _ _ _ c => c
  | MaxRetriesExceededError _ _ _ _ c => c
  | SessionExpiredError _ c => c
  | _ => None
  end.

(** What a decorated call did besides returning: how often it invoked the
    wrapped callable and the arguments of its [time.sleep] calls, oldest
    first. *)
Record stats : Type := { invocations : nat; sleeps : list Q }.

Definition no_stats : stats := {| invocations := 0; sleeps := [] |}.
Definition called (k : stats) : stats :=
  {| invocations := S (invocations k); sleeps := sleeps k |}.
Definition slept (t : Q) (k : stats) : stats :=
  {| invocations := invocations k; sleeps := sleeps k ++ [t] |}.

(** [random.uniform(a, b)] is [a + (b - a) * random.random()]. *)
Definition uniform (a b u : Q) : Q := (a + (b - a) * u)%Q.

Section Engine.
Context {W A : Type}.
(** [time.sleep] and [random.random] on the world. *)
Variable time_sleep : Q -> W -> W.
Variable random_random : W -> Q * W.

Definition _calculate_backoff (attempt : Z) (backoff_factor max_backoff : Q)
           (jitter : bool) (w : W) : Q * W :=
  let backoff := Qmin (backoff_factor ^ (attempt - 1))%Q max_backoff in
  if jitter then
    let '(u, w) := random_random w in
    let jitter_amount := uniform 0 (backoff * (1 # 10))%Q u in
    ((backoff + jitter_amount)%Q, w)
  else (backoff, w).

(** The parameters of the decorator (defaults: 3, 2.0, 32.0, [True]). *)
Variable max_retries : Z.
Variable backoff_factor max_backoff : Q.
Variable jitter : bool.
(** The decorated callable, and its [__name__]. *)
Variable func : W -> outcome A * W.
Variable func_name : string.

(** The [while attempt <= max_retries] loop of [wrapper]; one unit of
    fuel per evaluation of the loop condition. *)
Fixpoint wrapper_loop (fuel : nat) (attempt : Z) (last_exception : option exn)
         (w : W) (k : stats) : option (outcome A * W * stats) :=
  match fuel with
  | O => None
  | S fuel' =>
    if (attempt <=? max_retries)%Z then
      let '(r, w) := func w in
      let k := called k in
      match r with
      | Return result => Some (Return result, w, k)
      | Raise e =>
        let retry attempt :=
          let '(wait_time, w) :=
            _calculate_backoff attempt backoff_factor max_backoff jitter w in
          wrapper_loop fuel' attempt (Some e) (time_sleep wait_time w)
                       (slept wait_time k) in
        match e with
        | HTTPStatusError _ status_code text =>
          let attempt := (attempt + 1)%Z in
          if (status_code =? 401)%Z then
            Some (Raise (APIAuthenticationError
                           ("Authentication failed (401): " +:+ str e)
                           (Some status_code) (Some (slice_to 500 text))
                           (Some e)), w, k)
          else if (status_code =? 400)%Z then
            Some (Raise (APIError ("Bad Request (400): " +:+ str e)
                           (Some status_code) (Some (slice_to 500 text))
                           (Some e)), w, k)
          else if (status_code =? 501)%Z then
            Some (Raise (APIError ("Not Implemented (501): " +:+ str e)
                           (Some status_code) (Some (slice_to 500 text))
                           (Some e)), w, k)
          else if (status_code =? 500)%Z then
            if (attempt >? max_retries)%Z then
              Some (Raise (MaxRetriesExceededError
                             ("Server error (500) persisted after "
                                +:+ pretty max_retries +:+ " retries")
                             attempt (Some e) (Some status_code) (Some e)),
                    w, k)
            else retry attempt
          else
            Some (Raise (APIError
                           ("HTTP error " +:+ pretty status_code +:+ ": "
                              +:+ str e)
                           (Some status_code) (Some (slice_to 500 text))
                           (Some e)), w, k)
        | ConnectError _ | ConnectTimeout _ =>
          let attempt := (attempt + 1)%Z in
          if (attempt >? max_retries)%Z then
            Some (Raise (MaxRetriesExceededError
                           ("Connection failed after " +:+ pretty max_retries
                              +:+ " retries: " +:+ str e)
                           attempt (Some e) None (Some e)), w, k)
          else retry attempt
        | ReadTimeout _ | WriteTimeout _ | PoolTimeout _ =>
          let attempt := (attempt + 1)%Z in
          if (attempt >? max_retries)%Z then
            Some (Raise (MaxRetriesExceededError
                           ("Request timeout after " +:+ pretty max_retries
                              +:+ " retries: " +:+ str e)
                           attempt (Some e) None (Some e)), w, k)
          else retry attempt
        | RequestError _ =>
          let attempt := (attempt + 1)%Z in
          if (attempt >? max_retries)%Z then
            (* [APIConnectionError(..., attempts=..., last_error=...)]:
               [APIError.__init__] takes neither keyword, so building the
               error raises. *)
            Some (Raise (TypeError
              "APIError.__init__() got an unexpected keyword argument 'attempts'"),
                  w, k)
          else retry attempt
        | _ => Some (Raise e, w, k)
        end
      end
    else
      Some (Raise (MaxRetriesExceededError
                     ("Exhausted all " +:+ pretty max_retries
                        +:+ " retries for " +:+ func_name)
                     attempt last_exception None last_exception), w, k)
  end.

(** Enough fuel for every run: the condition is evaluated at most
    [max_retries + 2] times (see [wrapper_loop_total]). *)
Definition wrapper_fuel : nat := S (Z.to_nat (max_retries + 1)).

Definition wrapper (w : W) : option (outcome A * W * stats) :=
  wrapper_loop wrapper_fuel 0 None w no_stats.

(** The decorated callable.  The [None] case is never taken
    ([with_api_retry_wrapper]). *)
Definition with_api_retry (w : W) : outcome A * W * stats :=
  match wrapper w with
  | Some r => r
  | None => (Raise (Exception_ "RecursionError" ""), w, no_stats)
  end.

(** The errors the engine retries. *)
Definition retryable (e : exn) : bool :=
  match e with
  | HTTPStatusError _ status_code _ => (status_code =? 500)%Z
  | ConnectError _ | ConnectTimeout _
  | ReadTimeout _ | WriteTimeout _ | PoolTimeout _
  | RequestError _ => true
  | _ => false
  end.

(** The callable fails with a retried error whenever it is invoked. *)
Definition always_retryable : Prop :=
  forall w, exists e w1, func w = (Raise e, w1) /\ retryable e = true.

End Engine.

End RetryHandler.

(* ===================================================================== *)
(** ** src/core/constants.py (session management) and
       src/core/session_handler.py *)
(* ===================================================================== *)

Module SessionHandler.
Import RetryHandler.

Definition DEFAULT_MAX_RETRIES : Z := 2.

Definition SESSION_ERROR_KEYWORDS : list string :=
  ["target closed"; "session"; "timeout"; "navigation"; "detached"; "not found"].

(** [d[key]] on a dict of strings. *)
Definition getitem (d : gmap string string) (key : string) : outcome string :=
  match d !! key with
  | Some v => Return v
  | None => Raise (Exception_ "KeyError" ("'" +:+ key +:+ "'"))
  end.

(** How the handler of one failed attempt leaves the [try] around the
    logout probe: by [continue] after a successful login, by falling out
    of the [if hasattr(self, "login_page")] block, or by raising. *)
Inductive recovery (W : Type) : Type :=
| Continue (w : W) (k : stats)
| FallThrough (w : W) (k : stats)
| Escalate (e : exn) (w : W) (k : stats).
Arguments Continue {W} w k.
Arguments FallThrough {W} w k.
Arguments Escalate {W} e w k.

Section Decorator.
Context {W A : Type}.
Variable time_sleep : Q -> W -> W.
(** [hasattr(self, "login_page")], [self.credentials] when the attribute
    exists, and the methods of [self.login_page]. *)
Variable has_login_page : bool.
Variable credentials : option (gmap string string).
Variable is_logged_out : W -> outcome bool * W.
Variable goto : string -> W -> outcome unit * W.
Variable login : string -> string -> W -> outcome unit * W.
Variable assert_logged_in : W -> outcome unit * W.

Variable max_retries : Z.
Variable func : W -> outcome A * W.
Variable func_name : string.

(** [min(2**attempt, 8)]. *)
Definition session_backoff (attempt : Z) : Q := inject_Z (Z.min (2 ^ attempt) 8).

(** The re-authentication sequence, up to and including the sleep before
    [continue]; [inl e] is the exception that interrupts it. *)
Definition reauthenticate (creds : gmap string string) (attempt : Z) (w : W)
           (k : stats) : (exn * W) + (W * stats) :=
  match getitem creds "base_url" with
  | Raise x => inl (x, w)
  | Return base_url =>
    match goto base_url w with
    | (Raise x, w) => inl (x, w)
    | (Return _, w) =>
      match getitem creds "username" with
      | Raise x => inl (x, w)
      | Return username =>
        match getitem creds "password" with
        | Raise x => inl (x, w)
        | Return password =>
          match login username password w with
          | (Raise x, w) => inl (x, w)
          | (Return _, w) =>
            match assert_logged_in w with
            | (Raise x, w) => inl (x, w)
            | (Return _, w) =>
              let t := session_backoff attempt in
              inr (time_sleep t w, slept t k)
            end
          end
        end
      end
    end
  end.

(** [except Exception as auth_error] around the logout probe. *)
Definition on_auth_error (attempt : Z) (last_exception : exn) (w : W) (k : stats)
  : recovery W :=
  if (attempt =? max_retries)%Z then
    Escalate (SessionExpiredError
                ("Failed to recover session after " +:+ pretty max_retries
                   +:+ " attempts in " +:+ func_name)
                (Some last_exception)) w k
  else FallThrough w k.

(** [if hasattr(self, "login_page"): try: ... except Exception ...]. *)
Definition probe_and_recover (attempt : Z) (last_exception : exn) (w : W)
           (k : stats) : recovery W :=
  if has_login_page then
    match is_logged_out w with
    | (Raise _, w) => on_auth_error attempt last_exception w k
    | (Return false, w) => FallThrough w k
    | (Return true, w) =>
      match credentials with
      | Some creds =>
        match reauthenticate creds attempt w k with
        | inr (w, k) => Continue w k
        | inl (_, w) => on_auth_error attempt last_exception w k
        end
      | None =>
        (* [raise SessionExpiredError(...)] inside the [try]: caught by
           the handler just below it. *)
        on_auth_error attempt last_exception w k
      end
    end
  else FallThrough w k.

(** [for attempt in range(1, max_retries + 1)] and the statement after
    the loop. *)
Fixpoint for_attempts (attempts : list Z) (last_exception : option exn) (w : W)
         (k : stats) : outcome A * W * stats :=
  match attempts with
  | [] =>
    match last_exception with
    | Some e => (Raise e, w, k)
    | None =>
      (Raise (SessionExpiredError
                ("Unknown error in " +:+ func_name +:+ " after "
                   +:+ pretty max_retries +:+ " retries") None), w, k)
    end
  | attempt :: rest =>
    let '(r, w) := func w in
    let k := called k in
    match r with
    | Return result => (Return result, w, k)
    | Raise e =>
      let error_message := lower (str e) in
      let is_session_error :=
        existsb (fun phrase => contains error_message phrase)
                SESSION_ERROR_KEYWORDS in
      if negb is_session_error then (Raise e, w, k)
      else
        match probe_and_recover attempt e w k with
        | Continue w k => for_attempts rest (Some e) w k
        | Escalate x w k => (Raise x, w, k)
        | FallThrough w k =>
          if (attempt <? max_retries)%Z then
            let t := session_backoff attempt in
            for_attempts rest (Some e) (time_sleep t w) (slept t k)
          else (Raise e, w, k)
        end
    end
  end.

Definition with_session_retry (w : W) : outcome A * W * stats :=
  for_attempts (seqZ 1 max_retries) None w no_stats.

(** [is_session_error] of the handler, on the raised error. *)
Definition session_classified (e : exn) : bool :=
  existsb (fun phrase => contains (lower (str e)) phrase) SESSION_ERROR_KEYWORDS.

End Decorator.

End SessionHandler.

(* ===================================================================== *)
(** ** src/api/client.py *)
(* ===================================================================== *)

Module Client.
Import RetryHandler.

(** What [r.json()] returns. A dict is its list of items; its keys are
    distinct, so the first item with a key is the only one. *)
#[warnings="-register-all"]
Inductive json : Type :=
| JNull
| JBool (b : bool)
| JNum (q : Q)
| JStr (s : string)
| JArr (items : list json)
| JObj (items : list (string * json)).

(** [d.get(key)], with Python's [None] as [JNull]. *)
Fixpoint dict_get (items : list (string * json)) (key : string) : option json :=
  match items with
  | [] => None
  | (k, v) :: rest => if String.eqb k key then Some v else dict_get rest key
  end.

Definition get (items : list (string * json)) (key : string) : json :=
  default JNull (dict_get items key).

(** [d.get(key, fallback)]. *)
Definition get_or (items : list (string * json)) (key : string) (fallback : json)
  : json :=
  default fallback (dict_get items key).

(** [bool(v)]. *)
Definition truthy (v : json) : bool :=
  match v with
  | JNull => false
  | JBool b => b
  | JNum q => negb (Qeq_bool q 0)
  | JStr s => negb (String.eqb s "")
  | JArr items => negb (bool_decide (items = []))
  | JObj items => negb (bool_decide (items = []))
  end.

(** [a or b]. *)
Definition or_else (a b : json) : json := if truthy a then a else b.

(** [len(v)]. *)
Definition len (v : json) : outcome nat :=
  match v with
  | JStr s => Return (String.length s)
  | JArr items => Return (length items)
  | JObj items => Return (length items)
  | JNull => Raise (TypeError "object of type 'NoneType' has no len()")
  | JBool _ => Raise (TypeError "object of type 'bool' has no len()")
  | JNum _ => Raise (TypeError "object of type 'float' has no len()")
  end.

(** The part of [transactions] that picks the value to return from the
    decoded response. *)
Definition extract_transactions (response : json) : json :=
  match response with
  | JObj items =>
    or_else (get items "transactions")
      (or_else (get items "lastTenTransactions")
         (or_else (get items "Transactions") (JArr [])))
  | JArr _ => response
  | _ => JArr []
  end.

(** From [response = r.json()] to the [return]: the extraction, the log
    line (whose text takes [len(transactions)]) and the result. *)
Definition unwrap_transactions (response : json) : outcome json :=
  let transactions := extract_transactions response in
  match len transactions with
  | Raise e => Raise e
  | Return _ => Return transactions
  end.

Definition TOKEN_REFRESH_BUFFER : Q := 300.

Record Token : Type := { value : string; exp : Q }.

Record AltoroAPI : Type := {
  base : string;
  user : string;
  pwd : string;
  timeout : Q;
  _tok : option Token;
  _client : bool  (* whether [self._client] holds an [httpx.Client] *)
}.

Definition set_tok (self : AltoroAPI) (t : Token) : AltoroAPI :=
  {| base := base self; user := user self; pwd := pwd self;
     timeout := timeout self; _tok := Some t; _client := _client self |}.

Definition set_client (self : AltoroAPI) : AltoroAPI :=
  {| base := base self; user := user self; pwd := pwd self;
     timeout := timeout self; _tok := _tok self; _client := true |}.

(** What the transport hands back: status, body text and decoded body
    ([r.json()] raises on a body that is not JSON). *)
Record response : Type := {
  status_code : Z;
  text : string;
  json_body : outcome json
}.

(** [r.raise_for_status()]: every status outside 2xx raises. *)
Definition raise_for_status (r : response) : outcome unit :=
  if ((200 <=? status_code r) && (status_code r <=? 299))%Z then Return tt
  else Raise (HTTPStatusError ("HTTP status " +:+ pretty (status_code r))
                              (status_code r) (text r)).

(** [s.replace(old, new)] for a non-empty [old]; [skip] characters of a
    match just replaced are still to be dropped. *)
Fixpoint replace_from (skip : nat) (old new s : string) : string :=
  match s with
  | EmptyString => EmptyString
  | String c s' =>
    match skip with
    | S n => replace_from n old new s'
    | O =>
      if startswith s old
      then new +:+ replace_from (String.length old - 1) old new s'
      else String c (replace_from 0 old new s')
    end
  end.

Definition replace (s old new : string) : string := replace_from 0 old new s.

Section Methods.
Context {W : Type}.
Variable time_time : W -> Q.
Variable time_sleep : Q -> W -> W.
Variable random_random : W -> Q * W.
(** [client.post(url, json=body, headers=...)] and
    [client.get(url, headers=...)]. *)
Variable client_post :
  string -> json -> list (string * string) -> W -> outcome response * W.
Variable client_get :
  string -> list (string * string) -> W -> outcome response * W.

(** The client object together with the world it runs in. *)
Definition state : Type := AltoroAPI * W.

Definition state_sleep (t : Q) (st : state) : state := (fst st, time_sleep t (snd st)).
Definition state_random (st : state) : Q * state :=
  let '(u, w) := random_random (snd st) in (u, (fst st, w)).

(** [@with_api_retry(max_retries=..., backoff_factor=2.0)] on a method. *)
Definition decorated {A : Type} (max_retries : Z) (method : state -> outcome A * state)
           (name : string) (st : state) : outcome A * state :=
  fst (with_api_retry state_sleep state_random max_retries 2 32 true method name st).

Definition _get_client (st : state) : state := (set_client (fst st), snd st).

Definition _headers (self : AltoroAPI) : list (string * string) :=
  match _tok self with
  | Some t => [("Authorization", value t)]
  | None => []
  end.

Definition _is_token_expired (st : state) : bool :=
  match _tok (fst st) with
  | None => true
  | Some t =>
    let time_until_expiry := (exp t - time_time (snd st))%Q in
    negb (Qle_bool TOKEN_REFRESH_BUFFER time_until_expiry)
  end.

(** The [try] block of [authenticate], after the response has arrived. *)
Definition store_token (r : response) (st : state) : outcome unit * state :=
  match raise_for_status r with
  | Raise e => (Raise e, st)
  | Return _ =>
    match json_body r with
    | Raise e => (Raise e, st)
    | Return (JObj items) =>
      let auth_header := get_or items "Authorization" (JStr "") in
      if negb (truthy auth_header) then
        (Raise (APIAuthenticationError "No Authorization header in login response"
                                       None None None), st)
      else
        match auth_header with
        | JStr h =>
          let token_value :=
            if startswith h "Bearer " then replace h "Bearer " "" else h in
          (Return tt,
           (set_tok (fst st)
                    {| value := token_value;
                       exp := (time_time (snd st) + 3600)%Q |}, snd st))
        | _ =>
          (Raise (Exception_ "AttributeError" "object has no attribute 'startswith'"),
           st)
        end
    | Return _ =>
      (Raise (Exception_ "AttributeError" "object has no attribute 'get'"), st)
    end
  end.

(** The undecorated body of [authenticate]. *)
Definition authenticate_body (st : state) : outcome unit * state :=
  let st := _get_client st in
  let self := fst st in
  let attempt :=
    match client_post (base self +:+ "/api/login")
                      (JObj [("username", JStr (user self));
                             ("password", JStr (pwd self))]) [] (snd st) with
    | (Raise e, w) => (Raise e, (self, w))
    | (Return r, w) => store_token r (self, w)
    end in
  match attempt with
  | (Raise (HTTPStatusError m c t as e), st) =>
    if ((c =? 401) || (c =? 403))%Z then
      (Raise (APIAuthenticationError ("Invalid credentials for user " +:+ user self)
                                     (Some c) (Some (slice_to 500 t)) (Some e)), st)
    else (Raise e, st)
  | other => other
  end.

Definition authenticate : state -> outcome unit * state :=
  decorated 2 authenticate_body "authenticate".

Definition _ensure_valid_token (st : state) : outcome unit * state :=
  if _is_token_expired st then authenticate st else (Return tt, st).

(** What [accounts] does once the token has been ensured. *)
Definition accounts_fetch (st : state) : outcome json * state :=
  let st := _get_client st in
  let self := fst st in
  match client_get (base self +:+ "/api/account") (_headers self) (snd st) with
  | (Raise e, w) => (Raise e, (self, w))
  | (Return r, w) =>
    let st := (self, w) in
    match raise_for_status r with
    | Raise e => (Raise e, st)
    | Return _ =>
      match json_body r with
      | Raise e => (Raise e, st)
      | Return (JObj items) =>
        let accounts_list := get_or items "Accounts" (JArr []) in
        match len accounts_list with
        | Raise e => (Raise e, st)
        | Return _ => (Return accounts_list, st)
        end
      | Return _ =>
        (Raise (Exception_ "AttributeError" "object has no attribute 'get'"), st)
      end
    end
  end.

Definition accounts_body (st : state) : outcome json * state :=
  match _ensure_valid_token st with
  | (Raise e, st) => (Raise e, st)
  | (Return _, st) => accounts_fetch st
  end.

Definition accounts : state -> outcome json * state :=
  decorated 3 accounts_body "accounts".

Definition get_account_details_fetch (account_id : string) (st : state)
  : outcome json * state :=
  let st := _get_client st in
  let self := fst st in
  match client_get (base self +:+ "/api/account/" +:+ account_id)
                   (_headers self) (snd st) with
  | (Raise e, w) => (Raise e, (self, w))
  | (Return r, w) =>
    let st := (self, w) in
    match raise_for_status r with
    | Raise e => (Raise e, st)
    | Return _ =>
      match json_body r with
      | Raise e => (Raise e, st)
      | Return details => (Return details, st)
      end
    end
  end.

Definition get_account_details_body (account_id : string) (st : state)
  : outcome json * state :=
  match _ensure_valid_token st with
  | (Raise e, st) => (Raise e, st)
  | (Return _, st) => get_account_details_fetch account_id st
  end.

Definition get_account_details (account_id : string)
  : state -> outcome json * state :=
  decorated 3 (get_account_details_body account_id) "get_account_details".

(** [start and end]: both given and both non-empty. *)
Definition date_range (start end_ : option string) : option (string * string) :=
  match start, end_ with
  | Some s, Some e =>
    if negb (String.eqb s "") && negb (String.eqb e "") then Some (s, e) else None
  | _, _ => None
  end.

Definition transactions_fetch (account_id : string) (start end_ : option string)
           (st : state) : outcome json * state :=
  let st := _get_client st in
  let self := fst st in
  let url := base self +:+ "/api/account/" +:+ account_id +:+ "/transactions" in
  let sent :=
    match date_range start end_ with
    | Some (s, e) =>
      client_post url (JObj [("startDate", JStr s); ("endDate", JStr e)])
                  (_headers self) (snd st)
    | None => client_get url (_headers self) (snd st)
    end in
  match sent with
  | (Raise e, w) => (Raise e, (self, w))
  | (Return r, w) =>
    let st := (self, w) in
    match raise_for_status r with
    | Raise e => (Raise e, st)
    | Return _ =>
      match json_body r with
      | Raise e => (Raise e, st)
      | Return response => (unwrap_transactions response, st)
      end
    end
  end.

Definition transactions_body (account_id : string) (start end_ : option string)
           (st : state) : outcome json * state :=
  match _ensure_valid_token st with
  | (Raise e, st) => (Raise e, st)
  | (Return _, st) => transactions_fetch account_id start end_ st
  end.

Definition transactions (account_id : string) (start end_ : option string)
  : state -> outcome json * state :=
  decorated 3 (transactions_body account_id start end_) "transactions".

End Methods.

End Client.

(* ===================================================================== *)
(** ** The part of pandas the helpers use *)
(* ===================================================================== *)

Module Pandas.

(** A cell: missing ([None] or [NaN]), a number, or text. *)
Inductive cell : Type :=
| NA
| Num (q : Q)
| Str (s : string).

(** A frame: the length of its index and its labelled columns, left to
    right.  Labels may repeat (a rename can produce that). *)
Record DataFrame : Type := {
  index_length : nat;
  data : list (string * list cell)
}.

(** [df.columns], [len(df)], [df.empty]. *)
Definition columns (df : DataFrame) : list string := map fst (data df).
Definition len (df : DataFrame) : nat := index_length df.
Definition empty (df : DataFrame) : bool :=
  (index_length df =? 0)%nat || (length (data df) =? 0)%nat.

(** [pd.DataFrame()] and [pd.DataFrame([record])]. *)
Definition no_frame : DataFrame := {| index_length := 0; data := [] |}.
Definition one_row (record : list (string * cell)) : DataFrame :=
  {| index_length := 1; data := map (fun p => (fst p, [snd p])) record |}.

(** [col in df.columns]. *)
Definition has_column (df : DataFrame) (col : string) : bool :=
  existsb (String.eqb col) (columns df).

(** The values stored under a label that occurs once, or [None]. *)
Definition column (df : DataFrame) (col : string) : option (list cell) :=
  match List.filter (fun p => String.eqb (fst p) col) (data df) with
  | [p] => Some (snd p)
  | _ => None
  end.

(** Row [i] as the labelled values [df.apply(..., axis=1)] passes on. *)
Definition row (df : DataFrame) (i : nat) : list (string * cell) :=
  map (fun p => (fst p, nth i (snd p) NA)) (data df).

(** [row.get(col)]: nothing under that label, one value, or (repeated
    label) a Series of several. *)
Inductive looked : Type :=
| Absent
| One (v : cell)
| Many.

Definition row_get (r : list (string * cell)) (col : string) : looked :=
  match List.filter (fun p => String.eqb (fst p) col) r with
  | [] => Absent
  | [p] => One (snd p)
  | _ => Many
  end.

(** Results of a loop body run on every element in order; the first
    exception ends the loop. *)
Fixpoint for_each {A B : Type} (f : A -> outcome B) (l : list A) : outcome (list B) :=
  match l with
  | [] => Return []
  | x :: rest =>
    match f x with
    | Raise e => Raise e
    | Return y =>
      match for_each f rest with
      | Raise e => Raise e
      | Return ys => Return (y :: ys)
      end
    end
  end.

(** [df.apply(f, axis=1)]. *)
Definition apply_rows (f : list (string * cell) -> outcome cell) (df : DataFrame)
  : outcome (list cell) :=
  for_each (fun i => f (row df i)) (seq 0 (index_length df)).

(** [df[col] = values]: every column labelled [col] takes the values; a
    new label is appended on the right. *)
Definition setitem (df : DataFrame) (col : string) (values : list cell) : DataFrame :=
  {| index_length := index_length df;
     data := if has_column df col
             then map (fun p => if String.eqb (fst p) col then (fst p, values) else p)
                      (data df)
             else data df ++ [(col, values)] |}.

(** [df[col] = scalar] and [df.assign(col=scalar)] (on a copy). *)
Definition setitem_scalar (df : DataFrame) (col : string) (v : cell) : DataFrame :=
  setitem df col (replicate (index_length df) v).

(** [df.rename(columns=mapping)]. *)
Definition rename (mapping : gmap string string) (df : DataFrame) : DataFrame :=
  {| index_length := index_length df;
     data := map (fun p => (default (fst p) (mapping !! fst p), snd p)) (data df) |}.

(** [df[col] = df[col].astype(str)], with [to_str] for [str] on a cell. *)
Definition astype_str (to_str : cell -> string) (df : DataFrame) (col : string)
  : DataFrame :=
  {| index_length := index_length df;
     data := map (fun p => if String.eqb (fst p) col
                           then (fst p, map (fun v => Str (to_str v)) (snd p))
                           else p) (data df) |}.

(** Objects: frames live in a store and are passed by reference. *)
Abbreviation ref := positive.
Abbreviation store := (gmap positive DataFrame).

(** [df.copy()]: a new object with the same content. *)
Definition copy (f : DataFrame) (h : store) : ref * store :=
  let l := fresh (dom h) in (l, <[l := f]> h).

End Pandas.

(* ===================================================================== *)
(** ** src/core/constants.py and src/core/dataframe_helpers.py *)
(* ===================================================================== *)

Module DataframeHelpers.
Import Pandas.

Definition VARIANCE_TOLERANCE : Q := 1 # 100.

(** [all(keyword in col_lower for keyword in keywords)]. *)
Definition all_present (col_lower : string) (keywords : list string) : bool :=
  forallb (fun keyword => contains col_lower keyword) keywords.

(** The inner loop over the rules, left at the first match. *)
Fixpoint first_rule (col_lower : string) (mapping_rules : list (list string * string))
  : option string :=
  match mapping_rules with
  | [] => None
  | (keywords, target_name) :: rest =>
    if all_present col_lower keywords then Some target_name
    else first_rule col_lower rest
  end.

(** The outer loop: the dict [column_mapping] after the columns seen. *)
Definition build_mapping (mapping_rules : list (list string * string))
           (cols : list string) : gmap string string :=
  fold_left (fun column_mapping col =>
               match first_rule (lower col) mapping_rules with
               | Some target_name => <[col := target_name]> column_mapping
               | None => column_mapping
               end) cols ∅.

Definition normalize_column_names (df : DataFrame)
           (mapping_rules : list (list string * string)) : DataFrame :=
  let column_mapping := build_mapping mapping_rules (columns df) in
  if decide (column_mapping = ∅) then df else rename column_mapping df.

(** The lambda of [calculate_variance] on one row. *)
Definition variance_of_row (col1 col2 : string) (r : list (string * cell))
  : outcome cell :=
  let ambiguous :=
    Raise (Exception_ "ValueError" "The truth value of a Series is ambiguous.") in
  match row_get r col1 with
  | Many => ambiguous
  | Absent | One NA => Return NA
  | One a =>
    match row_get r col2 with
    | Many => ambiguous
    | Absent | One NA => Return NA
    | One b =>
      match a, b with
      | Num x, Num y => Return (Num (x - y))
      | _, _ => Raise (TypeError "unsupported operand type(s) for -")
      end
    end
  end.

(** [determine_status] of [add_match_status]. *)
Definition determine_status (tolerance : Q) (match_label variance_label
           missing_label : string) (variance : cell) : outcome cell :=
  match variance with
  | NA => Return (Str missing_label)
  | Num v =>
    if negb (Qle_bool tolerance (Qabs v)) then Return (Str match_label)
    else Return (Str variance_label)
  | Str _ => Raise (TypeError "bad operand type for abs(): 'str'")
  end.

(** [df[variance_col].apply(determine_status)]. *)
Definition status_series (df : DataFrame) (variance_col : string)
           (status_of : cell -> outcome cell) : outcome (list cell) :=
  match List.filter (fun p => String.eqb (fst p) variance_col) (data df) with
  | [] => Raise (Exception_ "KeyError" ("'" +:+ variance_col +:+ "'"))
  | [p] => for_each status_of (snd p)
  | _ => Raise (Exception_ "ValueError" "The truth value of a Series is ambiguous.")
  end.

(** A reference to no object; Python has none, and no caller passes one. *)
Definition dangling : exn := Exception_ "ReferenceError" "no such object".

(** [calculate_variance(df, col1, col2, result_col)]; its [tolerance]
    parameter is not used by the body and is left out. *)
Definition calculate_variance (df : ref) (col1 col2 result_col : string) (h : store)
  : outcome ref * store :=
  match h !! df with
  | None => (Raise dangling, h)
  | Some f =>
    let '(df, h) := copy f h in
    match h !! df with
    | None => (Raise dangling, h)
    | Some g =>
      match apply_rows (variance_of_row col1 col2) g with
      | Raise e => (Raise e, h)
      | Return values => (Return df, <[df := setitem g result_col values]> h)
      end
    end
  end.

(** [add_match_status], with every keyword argument spelled out (defaults:
    "match_status", [VARIANCE_TOLERANCE], "Match", "Variance",
    "Data Missing"). *)
Definition add_match_status (df : ref) (variance_col status_col : string)
           (tolerance : Q) (match_label variance_label missing_label : string)
           (h : store) : outcome ref * store :=
  match h !! df with
  | None => (Raise dangling, h)
  | Some f =>
    let '(df, h) := copy f h in
    match h !! df with
    | None => (Raise dangling, h)
    | Some g =>
      match status_series g variance_col
              (determine_status tolerance match_label variance_label missing_label)
      with
      | Raise e => (Raise e, h)
      | Return values => (Return df, <[df := setitem g status_col values]> h)
      end
    end
  end.

(** The frame the two helpers return, for callers that use their argument
    nowhere else (see [calculate_variance_frame_eq] and
    [add_match_status_frame_eq]). *)
Definition calculate_variance_frame (f : DataFrame) (col1 col2 result_col : string)
  : outcome DataFrame :=
  match apply_rows (variance_of_row col1 col2) f with
  | Raise e => Raise e
  | Return values => Return (setitem f result_col values)
  end.

Definition add_match_status_frame (f : DataFrame) (variance_col status_col : string)
           (tolerance : Q) (match_label variance_label missing_label : string)
  : outcome DataFrame :=
  match status_series f variance_col
          (determine_status tolerance match_label variance_label missing_label)
  with
  | Raise e => Raise e
  | Return values => Return (setitem f status_col values)
  end.

End DataframeHelpers.

(* ===================================================================== *)
(** ** src/core/dataframe_helpers.py (aggregation) and
       src/orchestration/api_validate.py (transaction reconciliation) *)
(* ===================================================================== *)

Module ApiValidate.
Import Pandas DataframeHelpers.

(** [sep.join(parts)]. *)
Fixpoint join (sep : string) (parts : list string) : string :=
  match parts with
  | [] => ""
  | [p] => p
  | p :: rest => p +:+ sep +:+ join sep rest
  end.

(** [d[key] = v] on a dict kept as its items in insertion order. *)
Fixpoint dict_set (d : list (string * string)) (key v : string)
  : list (string * string) :=
  match d with
  | [] => [(key, v)]
  | (k, old) :: rest =>
    if String.eqb k key then (k, v) :: rest else (k, old) :: dict_set rest key v
  end.

(** [df[a] - df[b]] on two columns: missing values propagate. *)
Definition sub_cells (a b : cell) : outcome cell :=
  match a, b with
  | Num x, Num y => Return (Num (x - y))
  | Str _, _ | _, Str _ => Raise (TypeError "unsupported operand type(s) for -")
  | _, _ => Return NA
  end.

Fixpoint sub_columns (xs ys : list cell) : outcome (list cell) :=
  match xs, ys with
  | x :: xs', y :: ys' =>
    match sub_cells x y with
    | Raise e => Raise e
    | Return v =>
      match sub_columns xs' ys' with
      | Raise e => Raise e
      | Return vs => Return (v :: vs)
      end
    end
  | _, _ => Return []
  end.

(** [df[result_col] = df[a] - df[b]] (in place on a frame nobody else
    holds). *)
Definition set_difference (df : DataFrame) (result_col a b : string)
  : outcome DataFrame :=
  match column df a, column df b with
  | Some xs, Some ys =>
    match sub_columns xs ys with
    | Raise e => Raise e
    | Return vs => Return (setitem df result_col vs)
    end
  | _, _ => Raise (Exception_ "KeyError" "column")
  end.

(** The fixed tables of [_reconcile_transactions]. *)
Definition display_to_programmatic : gmap string string :=
  {[ "Transaction ID" := "transaction_id";
     "Transaction Time" := "transaction_time";
     "Account ID" := "account_id";
     "Action" := "action";
     "Debit" := "debit";
     "Credit" := "credit" ]}.

Definition fuzzy_rules : list (list string * string) :=
  [ (["account"; "id"], "account_id");
    (["account"; "number"], "account_id");
    (["transaction"; "id"], "transaction_id") ].

Section Reconcile.
(** Left to pandas: [str] on a cell, [df.groupby(col).agg(d).reset_index()]
    and [pd.merge(l, r, on=col, how="outer")]. *)
Variable to_str : cell -> string.
Variable groupby_agg : DataFrame -> string -> list (string * string) -> outcome DataFrame.
Variable merge_outer : DataFrame -> DataFrame -> string -> outcome DataFrame.

Definition group_and_sum_by_account (df : DataFrame) (group_col : string)
           (sum_cols : list string) (count_col : string) : outcome DataFrame :=
  let agg_dict :=
    dict_set (fold_left (fun d col => dict_set d col "sum") sum_cols [])
             count_col "count" in
  match groupby_agg df group_col agg_dict with
  | Raise e => Raise e
  | Return result =>
    Return {| index_length := index_length result;
              data := map (fun p => if String.eqb (fst p) count_col
                                    then ("transaction_count", snd p) else p)
                          (data result) |}
  end.

Definition calculate_net_amount (df : DataFrame) (credit_col debit_col result_col : string)
  : outcome DataFrame :=
  set_difference df result_col credit_col debit_col.

(** [try: ... except Exception as e: handler(e)] around a computation
    that yields the value to return. *)
Definition try_except {A : Type} (body : outcome A) (handler : exn -> A) : A :=
  match body with
  | Return v => v
  | Raise e => handler e
  end.

Definition bind {A B : Type} (m : outcome A) (k : A -> outcome B) : outcome B :=
  match m with
  | Return v => k v
  | Raise e => Raise e
  end.

Definition _summarize_api_transactions (api_df : DataFrame) : outcome DataFrame :=
  if empty api_df then Return no_frame
  else
    let required_cols := ["account_id"; "debit"; "credit"; "transaction_id"] in
    let missing_cols := List.filter (fun col => negb (has_column api_df col)) required_cols in
    if negb (length missing_cols =? 0)%nat then
      Return (one_row [("Status", Str "Cannot summarize transactions");
                       ("Missing_Columns", Str (join ", " missing_cols));
                       ("Available_Columns", Str (join ", " (columns api_df)))])
    else
      Return (try_except
        (bind (group_and_sum_by_account api_df "account_id" ["debit"; "credit"]
                                        "transaction_id") (fun summary =>
         let summary := rename {[ "debit" := "total_debits";
                                  "credit" := "total_credits" ]} summary in
         bind (calculate_net_amount summary "total_credits" "total_debits"
                                    "net_amount") (fun summary =>
         Return (setitem_scalar summary "data_source" (Str "Transaction Summary")))))
        (fun e => one_row [("Status", Str "Error summarizing transactions");
                           ("Error", Str (str e))])).

(** The web side after both renaming passes and the key coercion. *)
Definition normalize_web (web_df : DataFrame) : DataFrame :=
  let exact :=
    list_to_map (omap (fun col => pair col <$> display_to_programmatic !! col)
                      (columns web_df)) in
  let web_normalized := rename exact web_df in
  let web_normalized := normalize_column_names web_normalized fuzzy_rules in
  if has_column web_normalized "account_id"
  then astype_str to_str web_normalized "account_id"
  else web_normalized.

(** The API side after the key coercion. *)
Definition coerce_api (api_df : DataFrame) : DataFrame :=
  if has_column api_df "account_id" then astype_str to_str api_df "account_id"
  else api_df.

(** The summaries, their merge, the variances and the status. *)
Definition reconcile_summaries (api_df web_normalized : DataFrame) : outcome DataFrame :=
  let grouped side :=
    group_and_sum_by_account side "account_id" ["debit"; "credit"] "transaction_id" in
  match grouped api_df with
  | Raise e => Return (one_row [("Status", Str "Error grouping API transactions");
                                ("Error", Str (str e))])
  | Return api_summary =>
    let api_summary :=
      rename {[ "debit" := "api_total_debits"; "credit" := "api_total_credits";
                "transaction_count" := "api_txn_count" ]} api_summary in
    match grouped web_normalized with
    | Raise e => Return (one_row [("Status", Str "Error grouping web transactions");
                                  ("Error", Str (str e))])
    | Return web_summary =>
      let web_summary :=
        rename {[ "debit" := "web_total_debits"; "credit" := "web_total_credits";
                  "transaction_count" := "web_txn_count" ]} web_summary in
      bind (merge_outer api_summary web_summary "account_id") (fun merged =>
      bind (calculate_variance_frame merged "api_total_debits" "web_total_debits"
                                     "debit_variance") (fun merged =>
      bind (calculate_variance_frame merged "api_total_credits" "web_total_credits"
                                     "credit_variance") (fun merged =>
      bind (calculate_variance_frame merged "api_txn_count" "web_txn_count"
                                     "txn_count_variance") (fun merged =>
      bind (set_difference merged "api_net" "api_total_credits" "api_total_debits")
           (fun merged =>
      bind (set_difference merged "web_net" "web_total_credits" "web_total_debits")
           (fun merged =>
      bind (calculate_variance_frame merged "api_net" "web_net" "net_variance")
           (fun merged =>
      add_match_status_frame merged "net_variance" "match_status" VARIANCE_TOLERANCE
                             "Match" "Variance" "Data Missing")))))))
    end
  end.

Definition _reconcile_transactions (api_df web_df : DataFrame) : outcome DataFrame :=
  let web_normalized := normalize_web web_df in
  let api_df := coerce_api api_df in
  if empty api_df then
    if negb (empty web_normalized) then
      Return (try_except
        (bind (_summarize_api_transactions web_normalized) (fun summary =>
         Return (setitem_scalar summary "data_source" (Str "Web Only (API Empty)"))))
        (fun e => one_row [("Status", Str "API Empty - Web Data Available");
                           ("API_Transactions", Num 0);
                           ("Web_Transactions",
                            Num (inject_Z (Z.of_nat (len web_normalized))));
                           ("Note", Str "Cannot reconcile - API returned no transactions")]))
    else
      Return (one_row [("Status", Str "No transaction data available from API or Web")])
  else if empty web_normalized then
    Return (try_except
      (bind (_summarize_api_transactions api_df) (fun summary =>
       Return (setitem_scalar summary "data_source" (Str "API Only (Web Empty)"))))
      (fun e => one_row [("Status", Str "Web Empty - API Data Available");
                         ("API_Transactions", Num (inject_Z (Z.of_nat (len api_df))));
                         ("Web_Transactions", Num 0);
                         ("Note", Str "Cannot reconcile - Web returned no transactions")]))
  else if negb (has_column api_df "account_id") then
    Return (one_row [("Status", Str "Error: API data malformed");
                     ("Details", Str "Missing account_id column")])
  else if negb (has_column web_normalized "account_id") then
    Return (one_row [("Status", Str "Error: Web data malformed");
                     ("Details", Str "Missing account_id column")])
  else reconcile_summaries api_df web_normalized.

End Reconcile.

End ApiValidate.

(* ===================================================================== *)
(** ** Predicates used to state what the engines do *)
(* ===================================================================== *)

Module RunPredicates.
Import RetryHandler.

(** The classes of the errors the HTTP engine builds itself, as opposed to
    the errors the callable raised. *)
Definition built_by_engine (e : exn) : Prop :=
  In (class_of e) ["APIAuthenticationError"; "APIError";
                   "MaxRetriesExceededError"; "TypeError"].

(** The errors the HTTP engine hands on unchanged: everything that is not
    an [httpx] status or request error. *)
Definition passed_on (e : exn) : bool :=
  match e with
  | HTTPStatusError _ _ _ | ConnectError _ | ConnectTimeout _ | ReadTimeout _
  | WriteTimeout _ | PoolTimeout _ | RequestError _ => false
  | _ => true
  end.

(** [e.status_code] and [e.response_body] of an [APIError]. *)
Definition status_code_of (e : exn) : option Z :=
  match e with
  | APIError _ c _ _ | APIAuthenticationError _ c _ _
  | APIConnectionError _ c _ _ => c
  | MaxRetriesExceededError _ _ _ c _ => c
  | _ => None
  end.

Definition response_body_of (e : exn) : option string :=
  match e with
  | APIError _ _ b _ | APIAuthenticationError _ _ b _
  | APIConnectionError _ _ b _ => b
  | _ => None
  end.

(** The callable fails with a generic [httpx.RequestError] whenever it is
    invoked. *)
Definition always_request_error {W A : Type} (func : W -> outcome A * W) : Prop :=
  forall w, exists m w1, func w = (Raise (RequestError m), w1).

(** The callable fails on every invocation with an error the engine
    retries and counts as exhausted retries: status 500, a connect error or
    a timeout. *)
Definition always_transient {W A : Type} (func : W -> outcome A * W) : Prop :=
  forall w, exists e w1,
    func w = (Raise e, w1) /\ retryable e = true /\ class_of e <> "RequestError".

End RunPredicates.


(* ===================================================================== *)
(** ** src/core/utils.py *)
(* ===================================================================== *)

Module Utils.
Local Open Scope Q_scope.

(** Text is ASCII, as in [lower]: beyond it Python knows further white
    space, which [strip] and [split] would also remove.

    [c.isspace()] on one character: tab to carriage return, the four
    separators 28 to 31, and the space. *)
Definition isspace (c : ascii) : bool :=
  let n := nat_of_ascii c in
  ((9 <=? n) && (n <=? 13) || (28 <=? n) && (n <=? 32))%nat.

(** [s.lstrip()], [s.rstrip()], [s.strip()]. *)
Fixpoint lstrip (s : string) : string :=
  match s with
  | EmptyString => EmptyString
  | String c s' => if isspace c then lstrip s' else s
  end.

Fixpoint rstrip (s : string) : string :=
  match s with
  | EmptyString => EmptyString
  | String c s' =>
    match rstrip s' with
    | EmptyString => if isspace c then EmptyString else String c EmptyString
    | kept => String c kept
    end
  end.

Definition strip (s : string) : string := rstrip (lstrip s).

(** [s.endswith(suffix)]. *)
Fixpoint endswith (s suffix : string) : bool :=
  String.eqb s suffix ||
  match s with
  | EmptyString => false
  | String _ s' => endswith s' suffix
  end.

(** The characters the class [[^0-9.\-]] does not match. *)
Definition is_digit (c : ascii) : bool :=
  let n := nat_of_ascii c in ((48 <=? n) && (n <=? 57))%nat.

Definition numeric_char (c : ascii) : bool :=
  is_digit c || Ascii.eqb c "." || Ascii.eqb c "-".

(** [re.sub(r"[^...]", "", s)] for a class given by its complement [p]. *)
Fixpoint keep (p : ascii -> bool) (s : string) : string :=
  match s with
  | EmptyString => EmptyString
  | String c s' => if p c then String c (keep p s') else keep p s'
  end.

(** Digits read in base ten, most significant first. *)
Fixpoint digits (acc : Z) (s : string) : option Z :=
  match s with
  | EmptyString => Some acc
  | String c s' =>
    if is_digit c
    then digits (10 * acc + Z.of_nat (nat_of_ascii c - 48)) s'
    else None
  end.

(** The text before the first point and, when there is a point, the text
    after it. *)
Fixpoint at_point (s : string) : string * option string :=
  match s with
  | EmptyString => (EmptyString, None)
  | String c s' =>
    if Ascii.eqb c "." then (EmptyString, Some s')
    else let '(whole, rest) := at_point s' in (String c whole, rest)
  end.

(** [float(s)] on text made of digits, points and minus signs (what the
    filter of [parse_money] leaves): an optional minus sign, then digits
    around at most one point, with at least one digit. *)
Definition unsigned_float (s : string) : option Q :=
  let '(whole, rest) := at_point s in
  let fraction := default EmptyString rest in
  if (String.length whole + String.length fraction =? 0)%nat then None
  else
    match digits 0 whole, digits 0 fraction with
    | Some i, Some f =>
      let scale := (10 ^ Z.of_nat (String.length fraction))%Z in
      Some ((i * scale + f)%Z # Z.to_pos scale)
    | _, _ => None
    end.

Definition float (s : string) : outcome Q :=
  let parsed :=
    match s with
    | String "-" s' => Qopp <$> unsigned_float s'
    | _ => unsigned_float s
    end in
  match parsed with
  | Some q => Return q
  | None =>
    Raise (Exception_ "ValueError"
                      ("could not convert string to float: '" +:+ s +:+ "'"))
  end.

Definition parse_money (amount_str : string) : outcome Q :=
  if String.eqb amount_str "" then Return 0
  else
    let amount_str := strip amount_str in
    let is_negative := startswith amount_str "(" && endswith amount_str ")" in
    let numeric_only := keep numeric_char amount_str in
    match (if String.eqb numeric_only "" then Return 0 else float numeric_only) with
    | Raise e => Raise e
    | Return amount => Return (if is_negative then - amount else amount)
    end.

(** The first run of non-space characters and what follows it. *)
Fixpoint word (s : string) : string * string :=
  match s with
  | EmptyString => (EmptyString, EmptyString)
  | String c s' =>
    if isspace c then (EmptyString, s)
    else let '(w, rest) := word s' in (String c w, rest)
  end.

(** [s.split(maxsplit=1)]: the first word and, if anything but white
    space follows it, the remainder from its first non-space character
    on. *)
Definition split_maxsplit_1 (s : string) : list string :=
  match lstrip s with
  | EmptyString => []
  | t =>
    let '(w, rest) := word t in
    match lstrip rest with
    | EmptyString => [w]
    | remainder => [w; remainder]
    end
  end.

Definition clean_account_name (account_name : string) : string :=
  if String.eqb account_name "" then ""
  else
    match split_maxsplit_1 (strip account_name) with
    | _ :: part :: _ => part
    | _ => account_name
    end.

End Utils.

(* ===================================================================== *)
(** ** Predicates on text, used to state the properties of the parsers *)
(* ===================================================================== *)

Module TextPredicates.
Import Utils.
Local Open Scope Q_scope.

(** A result with the sign of its amount turned. *)
Definition negated (r : outcome Q) : outcome Q :=
  match r with
  | Return a => Return (- a)
  | Raise e => Raise e
  end.

(** How many characters of [s] satisfy [p]. *)
Fixpoint count (p : ascii -> bool) (s : string) : nat :=
  match s with
  | EmptyString => 0
  | String c s' => (if p c then 1 else 0) + count p s'
  end.

(** Text that reads as a decimal number: a minus sign in front at most,
    one point at most, one digit at least. *)
Definition decimal_text (s : string) : bool :=
  let body := match s with String "-" s' => s' | _ => s end in
  (count (Ascii.eqb "-") body =? 0)%nat
  && (count (Ascii.eqb ".") body <=? 1)%nat
  && negb (count is_digit body =? 0)%nat.

(** Every character of [s] satisfies [p]. *)
Fixpoint every (p : ascii -> bool) (s : string) : bool :=
  match s with
  | EmptyString => true
  | String c s' => p c && every p s'
  end.

(** Nothing but white space; no white space at all. *)
Definition all_space (s : string) : bool := every isspace s.
Definition no_space (s : string) : bool := every (fun c => negb (isspace c)) s.

End TextPredicates.

(* ===================================================================== *)
(** ** src/orchestration/api_validate.py (account reconciliation) *)
(* ===================================================================== *)

Module ApiValidateAccounts.
Import Pandas DataframeHelpers ApiValidate.

Section ReconcileAccounts.
(** Left to pandas: [str] on a cell, the text of the [KeyError] for labels
    that are not in the index, and
    [pd.merge(l, r, on=col, how="outer", suffixes=("_api", "_web"))]. *)
Variable to_str : cell -> string.
Variable not_in_index : list string -> string.
Variable merge_outer_suffixes : DataFrame -> DataFrame -> string -> outcome DataFrame.

(** [df[[label, ...]]]: the columns under each label, in the order asked
    for. *)
Definition select (df : DataFrame) (labels : list string) : outcome DataFrame :=
  match List.filter (fun label => negb (has_column df label)) labels with
  | [] =>
    Return {| index_length := index_length df;
              data := flat_map (fun label =>
                                  List.filter (fun p => String.eqb (fst p) label)
                                              (data df)) labels |}
  | missing => Raise (Exception_ "KeyError" (not_in_index missing))
  end.

(** The [mapping_rules] of [_reconcile_accounts]. *)
Definition mapping_rules : list (list string * string) :=
  [ (["account"; "id"], "account_id");
    (["account"; "number"], "account_id");
    (["total"; "balance"], "total");
    (["available"; "balance"], "available") ].

Definition _reconcile_accounts (api_df web_df : DataFrame) : outcome DataFrame :=
  if negb (has_column api_df "account_id") then
    Raise (Exception_ "KeyError" "'account_id'")
  else
    let api_normalized := astype_str to_str api_df "account_id" in
    let web_normalized := normalize_column_names web_df mapping_rules in
    if has_column web_normalized "account_id" then
      let web_normalized := astype_str to_str web_normalized "account_id" in
      bind (select api_normalized
                   ["account_id"; "account_name"; "balance"; "available_balance"])
           (fun api_part =>
      bind (select web_normalized ["account_id"; "total"; "available"])
           (fun web_part =>
      bind (merge_outer_suffixes api_part web_part "account_id") (fun merged =>
      let merged :=
        rename {[ "total" := "balance_web";
                  "available" := "available_balance_web" ]} merged in
      bind (calculate_variance_frame merged "balance" "balance_web"
                                     "balance_variance") (fun merged =>
      bind (calculate_variance_frame merged "available_balance"
                                     "available_balance_web" "available_variance")
           (fun merged =>
      add_match_status_frame merged "balance_variance" "match_status"
                             VARIANCE_TOLERANCE "Match" "Variance" "Data Missing")))))
    else
      Return (setitem_scalar api_normalized "web_match_status"
                             (Str "No web data for comparison")).

End ReconcileAccounts.

End ApiValidateAccounts.

(* ===================================================================== *)
(** ** What a reconciled row should say, used to state the properties *)
(* ===================================================================== *)

Module ReconcilePredicates.
Import Pandas.
Local Open Scope Q_scope.

(** [a - b] on two cells, a missing value on either side giving a missing
    value. *)
Definition difference (a b : cell) : cell :=
  match a, b with
  | Num x, Num y => Num (x - y)
  | _, _ => NA
  end.

(** The status of two figures: missing data unless both are numbers, a
    match when they differ by less than the tolerance. *)
Definition expected_status (tolerance : Q) (a b : cell) : string :=
  match a, b with
  | Num x, Num y =>
    if Qlt_le_dec (Qabs (x - y)) tolerance then "Match" else "Variance"
  | _, _ => "Data Missing"
  end.

(** A column that holds numbers and missing values only. *)
Definition no_text (values : list cell) : Prop :=
  Forall (fun v => forall s, v <> Str s) values.

(** A column label that the account rules turn into [account_id]. *)
Definition names_account (label : string) : Prop :=
  substring_of "account" (lower label)
  /\ (substring_of "id" (lower label) \/ substring_of "number" (lower label)).

End ReconcilePredicates.

(* ===================================================================== *)
(** ** src/orchestration/api_validate.py (account retrieval) *)
(* ===================================================================== *)

Module ApiRetrieve.
Import RetryHandler Client Pandas ApiValidate Utils.
Local Open Scope Q_scope.

Definition API_SOURCE_ACCOUNT_LIST : string := "GET /api/account".
Definition API_SOURCE_ACCOUNT_DETAILS : string := "GET /api/account/{accountNo}".

(** [isinstance(e, APIError)], for the classes of [src/api/exceptions.py]
    that the client raises. *)
Definition is_api_error (e : exn) : bool :=
  match e with
  | APIError _ _ _ _ | APIAuthenticationError _ _ _ _
  | APIConnectionError _ _ _ _ | MaxRetriesExceededError _ _ _ _ _ => true
  | _ => false
  end.

(** A record of [detailed_accounts]: a dict with the six keys below, in
    this order. *)
Definition record : Type := list (string * cell).

Definition record_keys : list string :=
  ["account_id"; "account_name"; "account_type"; "balance"; "available_balance";
   "api_source"].

(** [record[key]]. *)
Definition field (key : string) (r : record) : cell :=
  default NA (snd <$> List.find (fun p => String.eqb (fst p) key) r).

(** [pd.DataFrame(records)] for records that all have the keys of the
    first. *)
Definition frame_of_records (records : list record) : DataFrame :=
  match records with
  | [] => no_frame
  | first :: _ =>
    {| index_length := length records;
       data := map (fun key => (key, map (field key) records)) (map fst first) |}
  end.

(** The characters of a string, each as a string. *)
Fixpoint characters (s : string) : list string :=
  match s with
  | EmptyString => []
  | String c s' => String c EmptyString :: characters s'
  end.

(** What a [for] loop over the account list visits: the items of a list,
    the keys of a dict, the characters of a string. *)
Definition elements (v : json) : list json :=
  match v with
  | JArr items => items
  | JObj items => map (fun p => JStr (fst p)) items
  | JStr s => map JStr (characters s)
  | _ => []
  end.

(** [clean_account_name] and [parse_money] on whatever the details hold:
    a falsy value takes the early return, any other value must be text. *)
Definition clean_account_name_of (v : json) : outcome string :=
  if negb (truthy v) then Return ""
  else match v with
       | JStr s => Return (clean_account_name s)
       | _ => Raise (Exception_ "AttributeError" "object has no attribute 'strip'")
       end.

Definition parse_money_of (v : json) : outcome Q :=
  if negb (truthy v) then Return 0
  else match v with
       | JStr s => parse_money s
       | _ => Raise (Exception_ "AttributeError" "object has no attribute 'strip'")
       end.

Section Retrieve.
Context {W : Type}.
(** The decorated client methods [api.accounts()] and
    [api.get_account_details(account_id)], and, left to Python and pandas,
    [str] on a JSON value that is not text and the cell pandas stores for a
    JSON value. *)
Variable api_accounts : W -> outcome json * W.
Variable api_get_account_details : string -> W -> outcome json * W.
Variable str_of : json -> string.
Variable cell_of : json -> cell.

(** The account id of one listed account, or [None] where the loop
    continues because the item is neither text nor a dict. *)
Definition account_id_of (account : json) : option string :=
  match account with
  | JStr s => Some s
  | JObj items =>
    match or_else (get items "accountId")
                  (or_else (get items "id") (get_or items "account_id" (JStr ""))) with
    | JStr s => Some s
    | other => Some (str_of other)
    end
  | _ => None
  end.

Definition detailed_entry (account_id : string) (details : json) : outcome record :=
  match details with
  | JObj items =>
    bind (clean_account_name_of (get_or items "accountName" (JStr ""))) (fun name =>
    let account_type := cell_of (get_or items "accountType" (JStr "")) in
    bind (parse_money_of (get_or items "balance" (JStr "0"))) (fun balance =>
    bind (parse_money_of (get_or items "availableBalance" (JStr "0")))
         (fun available =>
    Return [("account_id", Str account_id);
            ("account_name", Str name);
            ("account_type", account_type);
            ("balance", Num balance);
            ("available_balance", Num available);
            ("api_source", Str API_SOURCE_ACCOUNT_DETAILS)])))
  | _ => Raise (Exception_ "AttributeError" "object has no attribute 'get'")
  end.

Definition basic_entry (account_id : string) : record :=
  [("account_id", Str account_id);
   ("account_name", Str ("Account " +:+ account_id));
   ("account_type", Str "Unknown");
   ("balance", Num 0);
   ("available_balance", Num 0);
   ("api_source", Str (API_SOURCE_ACCOUNT_LIST +:+ " (basic)"))].

(** Step B: the loop over the listed accounts. *)
Fixpoint details_loop (accounts : list json) (detailed_accounts : list record) (w : W)
  : outcome (list record) * W :=
  match accounts with
  | [] => (Return detailed_accounts, w)
  | account :: rest =>
    match account_id_of account with
    | None => details_loop rest detailed_accounts w
    | Some account_id =>
      if String.eqb account_id "" then details_loop rest detailed_accounts w
      else
        match api_get_account_details account_id w with
        | (Return details, w) =>
          match detailed_entry account_id details with
          | Return entry => details_loop rest (detailed_accounts ++ [entry]) w
          | Raise e => (Raise e, w)
          end
        | (Raise e, w) =>
          if String.eqb (class_of e) "APIAuthenticationError" then (Raise e, w)
          else if is_api_error e
               then details_loop rest (detailed_accounts ++ [basic_entry account_id]) w
               else (Raise e, w)
        end
    end
  end.

Definition _retrieve_api_accounts (w : W) : outcome DataFrame * W :=
  match api_accounts w with
  | (Raise e, w) =>
    if String.eqb (class_of e) "APIAuthenticationError" then (Raise e, w)
    else if is_api_error e then (Return no_frame, w)
         else (Raise e, w)
  | (Return accounts_list, w) =>
    match Client.len accounts_list with
    | Raise e => (Raise e, w)
    | Return _ =>
      match details_loop (elements accounts_list) [] w with
      | (Raise e, w) => (Raise e, w)
      | (Return detailed_accounts, w) =>
        (Return (frame_of_records detailed_accounts), w)
      end
    end
  end.

(** The ids the loop does not skip, in order. *)
Definition listed_ids (accounts : list json) : list string :=
  List.filter (fun account_id => negb (String.eqb account_id ""))
              (omap account_id_of accounts).

End Retrieve.

Definition API_SOURCE_TRANSACTIONS_POST : string :=
  "POST /api/account/{accountNo}/transactions".

Section RetrieveTransactions.
Context {W : Type}.
(** [api.transactions(account_id, start=settings.api_filter_start,
    end=settings.api_filter_end)], and, left to Python and pandas, [str] on
    the cell (or, under a repeated label, the cells) a row holds under
    [account_id], and the cell pandas stores for a JSON value. *)
Variable api_transactions : string -> W -> outcome json * W.
Variable to_str : cell -> string.
Variable series_str : list (string * cell) -> string.
Variable cell_of : json -> cell.

(** One record of [all_transactions]. *)
Definition transaction_entry (account_id : string) (txn : list (string * json))
  : outcome record :=
  let transaction_id := get_or txn "transactionId" (get_or txn "id" (JStr "")) in
  let transaction_date := get_or txn "transactionDate" (get_or txn "date" (JStr "")) in
  let description := get_or txn "description" (JStr "") in
  bind (parse_money_of (get_or txn "debit" (JStr "0"))) (fun debit =>
  bind (parse_money_of (get_or txn "credit" (JStr "0"))) (fun credit =>
  bind (parse_money_of (get_or txn "amount" (JStr "0"))) (fun amount =>
  Return [("account_id", Str account_id);
          ("transaction_id", cell_of transaction_id);
          ("transaction_date", cell_of transaction_date);
          ("description", cell_of description);
          ("debit", Num debit);
          ("credit", Num credit);
          ("amount", Num amount);
          ("api_source",
           Str (replace API_SOURCE_TRANSACTIONS_POST "{accountNo}" account_id))]))).

(** The inner loop: text and other items that are no dict are skipped. *)
Fixpoint transactions_loop (account_id : string) (transactions : list json)
         (all_transactions : list record) : outcome (list record) :=
  match transactions with
  | [] => Return all_transactions
  | JObj txn :: rest =>
    match transaction_entry account_id txn with
    | Raise e => Raise e
    | Return entry => transactions_loop account_id rest (all_transactions ++ [entry])
    end
  | _ :: rest => transactions_loop account_id rest all_transactions
  end.

(** The outer loop over [accounts_df.iterrows()]. *)
Fixpoint accounts_loop (rows : list (list (string * cell)))
         (all_transactions : list record) (w : W) : outcome (list record) * W :=
  match rows with
  | [] => (Return all_transactions, w)
  | account :: rest =>
    match row_get account "account_id" with
    | Absent => (Raise (Exception_ "KeyError" "'account_id'"), w)
    | found =>
      let account_id :=
        match found with One v => to_str v | _ => series_str account end in
      match api_transactions account_id w with
      | (Return transactions, w) =>
        match Client.len transactions with
        | Raise e => (Raise e, w)
        | Return _ =>
          match transactions_loop account_id (elements transactions)
                                  all_transactions with
          | Raise e => (Raise e, w)
          | Return all_transactions => accounts_loop rest all_transactions w
          end
        end
      | (Raise e, w) =>
        if String.eqb (class_of e) "APIAuthenticationError" then (Raise e, w)
        else if is_api_error e then accounts_loop rest all_transactions w
             else (Raise e, w)
      end
    end
  end.

Definition _retrieve_api_transactions (accounts_df : DataFrame) (w : W)
  : outcome DataFrame * W :=
  match accounts_loop (map (row accounts_df) (seq 0 (index_length accounts_df))) [] w
  with
  | (Raise e, w) => (Raise e, w)
  | (Return all_transactions, w) => (Return (frame_of_records all_transactions), w)
  end.

End RetrieveTransactions.

End ApiRetrieve.

(* ===================================================================== *)
(** ** Concrete callables, servers and frames used as instances *)
(* ===================================================================== *)

Section RetryFixtures.
Import RetryHandler SessionHandler.

(** A call that is always refused with status 403, and the engine of
    [AltoroAPI.accounts] around it on a world without state. *)
Definition forbidden_call (w : unit) : outcome unit * unit :=
  (Raise (HTTPStatusError "Client error '403 Forbidden'" 403 "Forbidden"), w).

Definition run_forbidden : outcome unit * unit * stats :=
  with_api_retry (fun _ w => w) (fun w => (0%Q, w)) 3 2 32 true
                 forbidden_call "accounts" tt.

(** A call that always meets a server error. *)
Definition server_down (w : unit) : outcome unit * unit :=
  (Raise (HTTPStatusError "Server error '500 Internal Server Error'" 500 "oops"), w).

(** A read that always times out, and a page operation that always fails
    with a Playwright timeout. *)
Definition read_timeout (w : unit) : outcome unit * unit :=
  (Raise (ReadTimeout "The read operation timed out"), w).

Definition page_timeout (w : unit) : outcome unit * unit :=
  (Raise (Exception_ "TimeoutError" "Timeout 30000ms exceeded."), w).

Definition ok_page (w : unit) : outcome unit * unit := (Return tt, w).

Definition stored_credentials : gmap string string :=
  {[ "base_url" := "http://localhost:8080";
     "username" := "jsmith"; "password" := "demo1234" ]}.

(** A random source that alternates between the draws 1/2 and 0. *)
Definition alternating_draw (b : bool) : Q * bool :=
  ((if b then 1 # 2 else 0)%Q, negb b).

End RetryFixtures.

Section ClientFixtures.
Import RetryHandler Client.
Local Open Scope Q_scope.

(** A world that is only a clock, and a server that answers every login
    with a token and every other request with an empty account list. *)
Definition clock_sleep (t : Q) (now : Q) : Q := now + t.
Definition no_jitter (now : Q) : Q * Q := (0, now).

Definition canned_post (url : string) (body : json) (headers : list (string * string))
           (now : Q) : outcome response * Q :=
  (Return {| status_code := 200; text := "";
             json_body := Return (JObj [("Authorization", JStr "Bearer abc")]) |},
   now).

Definition canned_get (url : string) (headers : list (string * string)) (now : Q)
  : outcome response * Q :=
  (Return {| status_code := 200; text := "";
             json_body := Return (JObj [("Accounts", JArr [])]) |}, now).

(** A client holding a token that expires at second 3600. *)
Definition client_at (now : Q) : AltoroAPI * Q :=
  ({| base := "http://localhost:8080"; user := "jsmith"; pwd := "demo1234";
      timeout := 20; _tok := Some {| value := "abc"; exp := 3600 |};
      _client := true |}, now).

(** A response that carries all three field names. *)
Definition recent_response : json :=
  JObj [("transactions", JArr []);
        ("lastTenTransactions", JArr [JObj [("id", JNum 7)]]);
        ("Transactions", JArr [JObj [("id", JNum 8)]])].

End ClientFixtures.

Section FrameFixtures.
Import Pandas DataframeHelpers.
Local Open Scope Q_scope.

(** Three merged accounts: equal balances, a difference of 10, and no web
    row. *)
Definition merged_accounts : DataFrame :=
  {| index_length := 3;
     data := [("account_id", [Str "1"; Str "2"; Str "3"]);
              ("balance", [Num 100; Num 100; Num 100]);
              ("balance_web", [Num 100; Num 90; NA])] |}.

Definition with_balance_variance : DataFrame :=
  setitem merged_accounts "balance_variance"
          [Num 0; Num 10; NA].

Definition with_match_status : DataFrame :=
  setitem with_balance_variance "match_status"
          [Str "Match"; Str "Variance"; Str "Data Missing"].

Definition store1 : store := {[ 1%positive := merged_accounts ]}.
Definition store2 : store := <[ 2%positive := with_balance_variance ]> store1.
Definition store3 : store := <[ 3%positive := with_match_status ]> store2.

(** A frame that already has a column called "variance". *)
Definition stale_variance : DataFrame :=
  {| index_length := 1;
     data := [("a", [Num 3]); ("variance", [Num 99]); ("b", [Num 1])] |}.

(** Scraped account headers, and the rules of [_reconcile_accounts]. *)
Definition web_accounts : DataFrame :=
  {| index_length := 1;
     data := [("Account ID/Number", [Str "800002"]);
              ("Account Name", [Str "Savings"]);
              ("Total Balance", [Num 100])] |}.

Definition account_rules : list (list string * string) :=
  [ (["account"; "id"], "account_id");
    (["account"; "number"], "account_id");
    (["total"; "balance"], "total");
    (["available"; "balance"], "available") ].

End FrameFixtures.

Section ValidateFixtures.
Import Pandas DataframeHelpers ApiValidate.
Local Open Scope Q_scope.

(** A stand-in for [str] on a cell. *)
Definition plain_str (v : cell) : string :=
  match v with Str s => s | _ => "nan" end.

(** One scraped transaction under its display headers. *)
Definition web_transactions : DataFrame :=
  {| index_length := 1;
     data := [("Transaction ID", [Str "T1"]); ("Account ID", [Str "800002"]);
              ("Debit", [Num 5]); ("Credit", [Num 0])] |}.

(** One API transaction without an account id. *)
Definition api_without_key : DataFrame :=
  {| index_length := 1;
     data := [("transaction_id", [Str "T1"]); ("debit", [Num 5]);
              ("credit", [Num 0])] |}.

End ValidateFixtures.

Section EngineInstances.
Import RetryHandler SessionHandler.

(** A call that fails with a read timeout twice and then returns how often
    it had been invoked before; the world counts the invocations. *)
Definition flaky_call (n : nat) : outcome nat * nat :=
  if (n <? 2)%nat then (Raise (ReadTimeout "The read operation timed out"), S n)
  else (Return n, S n).

(** A call that always fails below the HTTP layer with an error that is
    neither a connect error nor a timeout. *)
Definition broken_pipe (w : unit) : outcome unit * unit :=
  (Raise (RequestError "Server disconnected without sending a response."), w).

(** A call that is always answered with status 503. *)
Definition unavailable_call (w : unit) : outcome unit * unit :=
  (Raise (HTTPStatusError "Server error '503 Service Unavailable'" 503 "busy"), w).

End EngineInstances.

Section SessionInstances.
Import RetryHandler SessionHandler.

(** A page method that fails on a parsing bug, not on the session. *)
Definition parse_bug (w : unit) : outcome unit * unit :=
  (Raise (Exception_ "ValueError" "could not convert string to float: 'n/a'"), w).

(** A logout probe that crashes because the page is gone. *)
Definition probe_crash (w : unit) : outcome bool * unit :=
  (Raise (Exception_ "Error" "Target page, context or browser has been closed"), w).

(** A page method that times out on its first call and then returns the
    number of calls made before; the world counts the calls. *)
Definition times_out_once (n : nat) : outcome nat * nat :=
  match n with
  | O => (Raise (Exception_ "TimeoutError" "Timeout 30000ms exceeded."), 1%nat)
  | S _ => (Return n, S n)
  end.

End SessionInstances.

Section ClientInstances.
Import RetryHandler Client.
Local Open Scope Q_scope.

(** A server that refuses every login with 401, one that answers the
    login without an Authorization field, and one that lists two
    accounts. *)
Definition rejecting_post (url : string) (body : json)
           (headers : list (string * string)) (now : Q) : outcome response * Q :=
  (Return {| status_code := 401; text := "Unauthorized";
             json_body := Return (JObj [("error", JStr "bad credentials")]) |}, now).

Definition headerless_post (url : string) (body : json)
           (headers : list (string * string)) (now : Q) : outcome response * Q :=
  (Return {| status_code := 200; text := "";
             json_body := Return (JObj [("success", JStr "ok")]) |}, now).

Definition listing_get (url : string) (headers : list (string * string)) (now : Q)
  : outcome response * Q :=
  (Return {| status_code := 200; text := "";
             json_body := Return (JObj [("Accounts",
                            JArr [JObj [("Name", JStr "Savings"); ("id", JStr "800002")];
                                  JObj [("Name", JStr "Checking"); ("id", JStr "800003")]])]) |},
   now).

(** A server whose transaction list carries all three field names, and one
    that answers a dated query with a bare array. *)
Definition recent_get (url : string) (headers : list (string * string)) (now : Q)
  : outcome response * Q :=
  (Return {| status_code := 200; text := ""; json_body := Return recent_response |},
   now).

Definition bare_array_post (url : string) (body : json)
           (headers : list (string * string)) (now : Q) : outcome response * Q :=
  (Return {| status_code := 200; text := "";
             json_body := Return (JArr [JObj [("id", JNum 1)]]) |}, now).

(** A client that has not logged in yet. *)
Definition new_client (now : Q) : AltoroAPI * Q :=
  ({| base := "http://localhost:8080"; user := "jsmith"; pwd := "demo1234";
      timeout := 20; _tok := None; _client := false |}, now).

End ClientInstances.

Section ReconcileInstances.
Import Pandas DataframeHelpers ApiValidate ApiValidateAccounts.
Local Open Scope Q_scope.

(** What pandas computes on frames in which every account has one row: the
    sum of a column is the column and every count is 1. *)
Definition groupby_single_rows (df : DataFrame) (col : string)
           (agg : list (string * string)) : outcome DataFrame :=
  match column df col with
  | None => Raise (Exception_ "KeyError" col)
  | Some keys =>
    Return {| index_length := index_length df;
              data := (col, keys)
                      :: map (fun a =>
                                (fst a,
                                 if String.eqb (snd a) "count"
                                 then replicate (index_length df) (Num 1)
                                 else default [] (column df (fst a))))
                             agg |}
  end.

(** The outer merge of two frames that list the same keys in the same
    order: the columns of the left, then those of the right without its
    key. *)
Definition merge_same_keys (l r : DataFrame) (col : string) : outcome DataFrame :=
  Return {| index_length := index_length l;
            data := data l
                    ++ List.filter (fun p => negb (String.eqb (fst p) col)) (data r) |}.

Definition not_in_index (missing : list string) : string :=
  "[" +:+ ApiValidate.join ", " missing +:+ "] not in index".

(** Two accounts as the API and the site report their transactions; the
    second account differs by two in its debits. *)
Definition api_by_account : DataFrame :=
  {| index_length := 2;
     data := [("account_id", [Str "800002"; Str "800003"]);
              ("transaction_id", [Str "T1"; Str "T2"]);
              ("debit", [Num 5; Num 7]);
              ("credit", [Num 0; Num 20])] |}.


(** Two accounts with their balances, from the API and from the site; the
    site has no available balance for the second. *)
Definition api_balances : DataFrame :=
  {| index_length := 2;
     data := [("account_id", [Str "800002"; Str "800003"]);
              ("account_name", [Str "Savings"; Str "Checking"]);
              ("balance", [Num 100; Num (2505 # 10)]);
              ("available_balance", [Num 100; Num 250])] |}.

Definition web_balances : DataFrame :=
  {| index_length := 2;
     data := [("Account ID/Number", [Str "800002"; Str "800003"]);
              ("Total Balance", [Num 100; Num 250]);
              ("Available Balance", [Num 100; NA])] |}.

Definition web_without_key : DataFrame :=
  {| index_length := 1;
     data := [("Name", [Str "Savings"]); ("Total Balance", [Num 100])] |}.

(** A grouped summary and a frame of debits and credits with a gap. *)
Definition ledger : DataFrame :=
  {| index_length := 3;
     data := [("account_id", [Str "800002"; Str "800003"; Str "800004"]);
              ("credit", [Num 20; NA; Num 3]);
              ("debit", [Num 5; Num 7; Num (1 # 2)])] |}.

End ReconcileInstances.

Section RetrieveInstances.
Import RetryHandler Client Pandas ApiRetrieve.
Local Open Scope Q_scope.

(** An account list that answers 500 to every request. *)
Definition list_unavailable (w : unit) : outcome json * unit :=
  (Raise (HTTPStatusError "Server error '500 Internal Server Error'" 500 "oops"), w).

Definition list_broken (w : unit) : outcome json * unit :=
  (Raise (RequestError "Illegal header value"), w).

(** A list of four items (an id, an account object, an object without id,
    a number) and details that exist for the first account only. *)
Definition listed_accounts (w : unit) : outcome json * unit :=
  (Return (JArr [JStr "800002"; JObj [("Name", JStr "Checking"); ("id", JStr "800003")];
                 JObj [("Name", JStr "Closed")]; JNum 5]), w).

Definition details_for (account_id : string) (w : unit) : outcome json * unit :=
  if String.eqb account_id "800002"
  then (Return (JObj [("accountName", JStr "800002 Savings");
                      ("accountType", JStr "Savings");
                      ("balance", JStr "$1,234.56");
                      ("availableBalance", JStr "($5.00)")]), w)
  else (Raise (APIError "API request failed with status 404" (Some 404%Z)
                        (Some "not found") None), w).

Definition plain_json_str (v : json) : string :=
  match v with JStr s => s | JNull => "None" | _ => "?" end.

Definition plain_cell (v : json) : cell :=
  match v with JStr s => Str s | JNum q => Num q | _ => NA end.

(** Transactions that cannot be fetched for any account. *)
Definition transactions_unavailable (account_id : string) (w : unit)
  : outcome json * unit :=
  (Raise (APIError "API request failed with status 404" (Some 404%Z)
                   (Some "not found") None), w).

Definition plain_series (r : list (string * cell)) : string := "Series".

End RetrieveInstances.
Section EngineFacts.
Import RetryHandler.
Context {W A : Type}.
Variable time_sleep : Q -> W -> W.
Variable random_random : W -> Q * W.
Variable max_retries : Z.
Variable backoff_factor max_backoff : Q.
Variable jitter : bool.
Variable func : W -> outcome A * W.
Variable func_name : string.

#[local] Abbreviation loop := (wrapper_loop time_sleep random_random max_retries
                    backoff_factor max_backoff jitter func func_name).
#[local] Abbreviation backoff := (_calculate_backoff random_random).

Lemma wrapper_loop_total fuel attempt last w k :
  (Z.to_nat (max_retries + 1 - attempt) < fuel)%nat ->
  is_Some (loop fuel attempt last w k).
Proof.
  revert attempt last w k.
  induction fuel as [|fuel IH]; intros attempt last w k Hfuel; [lia|].
  cbn [wrapper_loop].
  destruct (Z.leb_spec attempt max_retries) as [Hle|Hgt]; [|eauto].
  destruct (func w) as [[v|e] w1]; [eauto|].
  assert (Hnext : forall l' w' k', is_Some (loop fuel (attempt + 1)%Z l' w' k'))
    by (intros; apply IH; lia).
  destruct e; eauto;
    repeat match goal with
           | |- context [if ?b then _ else _] => destruct b; eauto
           end;
    destruct (backoff _ _ _ _ _); apply Hnext.
Qed.

Lemma with_api_retry_wrapper w :
  wrapper time_sleep random_random max_retries backoff_factor max_backoff
          jitter func func_name w
  = Some (with_api_retry time_sleep random_random max_retries backoff_factor
                         max_backoff jitter func func_name w).
Proof.
  unfold with_api_retry, wrapper.
  destruct (wrapper_loop_total (wrapper_fuel max_retries) 0 None w no_stats)
    as [r Hr]; [unfold wrapper_fuel; lia|].
  now rewrite Hr.
Qed.

(** One pass through the loop body when the callable raises a status the
    engine does not retry. *)
Lemma wrapper_loop_terminal_status fuel attempt last w k msg status text w1 :
  (attempt <= max_retries)%Z ->
  func w = (Raise (HTTPStatusError msg status text), w1) ->
  status <> 500%Z ->
  exists e,
    loop (S fuel) attempt last w k = Some (Raise e, w1, called k)
    /\ cause_of e = Some (HTTPStatusError msg status text)
    /\ class_of e = (if (status =? 401)%Z then "APIAuthenticationError"
                     else "APIError").
Proof.
  intros Hle Hf Hst. cbn [wrapper_loop].
  destruct (Z.leb_spec attempt max_retries); [|lia].
  rewrite Hf.
  destruct (Z.eqb_spec status 401); [eauto|].
  destruct (Z.eqb_spec status 400); [eauto|].
  destruct (Z.eqb_spec status 501); [eauto|].
  destruct (Z.eqb_spec status 500); [lia|eauto].
Qed.

Lemma wrapper_loop_exhausts fuel attempt last w k :
  always_retryable func ->
  (0 <= attempt <= max_retries)%Z ->
  (Z.to_nat (max_retries + 1 - attempt) < fuel)%nat ->
  exists e_final e_last w_prev w' k',
    loop fuel attempt last w k = Some (Raise e_final, w', k')
    /\ func w_prev = (Raise e_last, w')
    /\ retryable e_last = true
    /\ invocations k' = (invocations k + Z.to_nat (max_retries + 1 - attempt))%nat
    /\ length (sleeps k') = (length (sleeps k) + Z.to_nat (max_retries - attempt))%nat
    /\ (class_of e_last <> "RequestError" ->
        exists m c,
          e_final = MaxRetriesExceededError m (max_retries + 1) (Some e_last) c
                                            (Some e_last)
          /\ (class_of e_last = "HTTPStatusError" -> c = Some 500%Z)).
Proof.
  intros Hall. revert attempt last w k.
  induction fuel as [|fuel IH]; intros attempt last w k Hat Hfuel; [lia|].
  cbn [wrapper_loop].
  destruct (Z.leb_spec attempt max_retries) as [_|]; [|lia].
  destruct (Hall w) as (e & w1 & Hf & Hre). rewrite Hf.
  destruct (Z.gtb_spec (attempt + 1) max_retries) as [Hlast|Hmore].
  - assert (attempt = max_retries) as -> by lia.
    replace (Z.to_nat (max_retries + 1 - max_retries)) with 1%nat by lia.
    replace (Z.to_nat (max_retries - max_retries)) with 0%nat by lia.
    destruct e; try discriminate Hre; cbn [retryable] in Hre;
      try (apply Z.eqb_eq in Hre; subst; cbn [Z.eqb Pos.eqb]);
      do 5 eexists; (split; [reflexivity|]);
      (split; [exact Hf|]); (split; [try reflexivity; now apply Z.eqb_eq|]);
      (split; [cbn; lia|]); (split; [cbn; lia|]);
      cbn [class_of]; intros Hc; try congruence;
      do 2 eexists; (split; [reflexivity|]);
      intros Heq; first [reflexivity | discriminate Heq].
  - assert (Hstep : forall wait w2,
      exists e_final e_last w_prev w' k',
        loop fuel (attempt + 1)%Z (Some e) (time_sleep wait w2) (slept wait (called k))
        = Some (Raise e_final, w', k')
        /\ func w_prev = (Raise e_last, w')
        /\ retryable e_last = true
        /\ invocations k' = (invocations k + Z.to_nat (max_retries + 1 - attempt))%nat
        /\ length (sleeps k') = (length (sleeps k) + Z.to_nat (max_retries - attempt))%nat
        /\ (class_of e_last <> "RequestError" ->
            exists m c,
              e_final = MaxRetriesExceededError m (max_retries + 1) (Some e_last) c
                                                (Some e_last)
              /\ (class_of e_last = "HTTPStatusError" -> c = Some 500%Z))).
    { intros wait w2.
      destruct (IH (attempt + 1)%Z (Some e) (time_sleep wait w2)
                   (slept wait (called k)))
        as (ef & el & wp & w' & k' & Hl & Hfp & Hr & Hi & Hs & Hc); [lia|lia|].
      exists ef, el, wp, w', k'. repeat split; try assumption.
      - rewrite Hi. cbn. lia.
      - rewrite Hs. cbn. rewrite length_app. cbn. lia. }
    destruct e; try discriminate Hre; cbn [retryable] in Hre;
      try (apply Z.eqb_eq in Hre; subst; cbn [Z.eqb Pos.eqb]);
      destruct (backoff _ _ _ _ _) as [wait w2]; apply Hstep.
Qed.
(** A callable that always fails with a retried error is invoked
    [max_retries + 1] times. *)
Lemma with_api_retry_persistent_invocations w :
  always_retryable func -> (0 <= max_retries)%Z ->
  invocations (snd (with_api_retry time_sleep random_random max_retries
                      backoff_factor max_backoff jitter func func_name w))
  = Z.to_nat (max_retries + 1).
Proof.
  intros Hall Hmax.
  destruct (wrapper_loop_exhausts (wrapper_fuel max_retries) 0%Z None w no_stats
              Hall) as (ef & el & wp & w' & k & Hrun & _ & _ & Hinv & _);
    [lia | unfold wrapper_fuel; lia |].
  unfold with_api_retry, wrapper. rewrite Hrun. cbn in *. rewrite Hinv.
  f_equal. lia.
Qed.
(** With a negative [max_retries] the loop body never runs: the callable is
    not invoked and the statement after the loop raises. *)
Lemma with_api_retry_negative_budget w :
  (max_retries < 0)%Z ->
  with_api_retry time_sleep random_random max_retries backoff_factor max_backoff
                 jitter func func_name w
  = (Raise (MaxRetriesExceededError
              ("Exhausted all " +:+ pretty max_retries +:+ " retries for "
                 +:+ func_name) 0 None None None), w, no_stats).
Proof.
  intros Hneg. unfold with_api_retry, wrapper, wrapper_fuel. cbn [wrapper_loop].
  destruct (Z.leb_spec 0 max_retries); [lia | reflexivity].
Qed.
End EngineFacts.

Section BackoffFacts.
Import RetryHandler.
Context {W : Type}.
Variable random_random : W -> Q * W.
Variable backoff_factor max_backoff : Q.
Local Open Scope Q_scope.

#[local] Abbreviation wait attempt jitter w :=
  (fst (_calculate_backoff random_random attempt backoff_factor max_backoff jitter w)).
#[local] Abbreviation capped attempt :=
  (Qmin (backoff_factor ^ (attempt - 1)) max_backoff).

Lemma wait_no_jitter attempt w : wait attempt false w = capped attempt.
Proof. reflexivity. Qed.

Lemma wait_jitter attempt w :
  wait attempt true w
  = capped attempt + uniform 0 (capped attempt * (1 # 10)) (fst (random_random w)).
Proof.
  unfold _calculate_backoff. destruct (random_random w). reflexivity.
Qed.

Lemma capped_mono n m :
  1 <= backoff_factor -> (n <= m)%Z -> capped n <= capped m.
Proof.
  intros Hbf Hnm. apply Q.min_le_compat_r.
  apply Qpower_le_compat_l; [lia | exact Hbf].
Qed.

Lemma jittered_range b u :
  0 <= b -> 0 <= u <= 1 ->
  b <= b + uniform 0 (b * (1 # 10)) u <= b * (11 # 10).
Proof.
  intros Hb [Hu0 Hu1]. unfold uniform.
  assert (0 <= u * b) by (apply Qmult_le_0_compat; assumption).
  assert (u * b <= 1 * b) by (apply Qmult_le_compat_r; assumption).
  split; lra.
Qed.
End BackoffFacts.

Section SessionFacts.
Import RetryHandler SessionHandler.
Context {W A : Type}.
Variable time_sleep : Q -> W -> W.
Variable has_login_page : bool.
Variable credentials : option (gmap string string).
Variable is_logged_out : W -> outcome bool * W.
Variable goto : string -> W -> outcome unit * W.
Variable login : string -> string -> W -> outcome unit * W.
Variable assert_logged_in : W -> outcome unit * W.
Variable max_retries : Z.
Variable func : W -> outcome A * W.
Variable func_name : string.

#[local] Abbreviation attempts_loop :=
  (for_attempts time_sleep has_login_page credentials is_logged_out goto login
                assert_logged_in max_retries func func_name).
#[local] Abbreviation recover :=
  (probe_and_recover time_sleep has_login_page credentials is_logged_out goto
                     login assert_logged_in max_retries func_name).

Lemma reauthenticate_invocations creds attempt w k :
  match reauthenticate time_sleep goto login assert_logged_in creds attempt w k with
  | inr (_, k') => invocations k' = invocations k
  | inl _ => True
  end.
Proof.
  unfold reauthenticate.
  destruct (getitem creds "base_url"); [|exact I].
  destruct (goto v w) as [[[]|] w1]; [|exact I].
  destruct (getitem creds "username"); [|exact I].
  destruct (getitem creds "password"); [|exact I].
  destruct (login v0 v1 w1) as [[[]|] w2]; [|exact I].
  destruct (assert_logged_in w2) as [[[]|] w3]; [|exact I].
  reflexivity.
Qed.

(** Recovery never invokes the wrapped callable. *)
Lemma probe_and_recover_invocations attempt e w k :
  match recover attempt e w k with
  | Continue _ k' | FallThrough _ k' | Escalate _ _ k' =>
    invocations k' = invocations k
  end.
Proof.
  assert (Herr : forall w0 : W,
    match on_auth_error max_retries func_name attempt e w0 k with
    | Continue _ k' | FallThrough _ k' | Escalate _ _ k' =>
      invocations k' = invocations k
    end).
  { intros w0. unfold on_auth_error. destruct (attempt =? max_retries)%Z; reflexivity. }
  unfold probe_and_recover.
  destruct has_login_page; [|reflexivity].
  destruct (is_logged_out w) as [[[|]|x] w1]; [|reflexivity|apply Herr].
  destruct credentials as [creds|]; [|apply Herr].
  pose proof (reauthenticate_invocations creds attempt w1 k) as Hre.
  destruct (reauthenticate _ _ _ _ creds attempt w1 k) as [[x w2]|[w2 k2]];
    [apply Herr | exact Hre].
Qed.

(** The callable is invoked at most once per element of the range. *)
Lemma for_attempts_invocations_le attempts last w k :
  (invocations (snd (attempts_loop attempts last w k))
   <= invocations k + length attempts)%nat.
Proof.
  revert last w k.
  induction attempts as [|attempt rest IH]; intros last w k; cbn [for_attempts].
  - destruct last; cbn; lia.
  - destruct (func w) as [[v|e] w1]; [cbn; lia|].
    destruct (negb _); [cbn; lia|].
    pose proof (probe_and_recover_invocations attempt e w1 (called k)) as Hrec.
    destruct (recover attempt e w1 (called k)) as [w2 k2|w2 k2|x w2 k2].
    + specialize (IH (Some e) w2 k2). cbn in *. lia.
    + destruct (Z.ltb_spec attempt max_retries); [|cbn in *; lia].
      specialize (IH (Some e) (time_sleep (session_backoff attempt) w2)
                     (slept (session_backoff attempt) k2)).
      cbn in *. lia.
    + cbn in *. lia.
Qed.

Lemma with_session_retry_invocations_le w :
  (invocations (snd (with_session_retry time_sleep has_login_page credentials
                       is_logged_out goto login assert_logged_in max_retries
                       func func_name w))
   <= Z.to_nat max_retries)%nat.
Proof.
  unfold with_session_retry.
  pose proof (for_attempts_invocations_le (seqZ 1 max_retries) None w no_stats) as H.
  rewrite length_seqZ in H. exact H.
Qed.
End SessionFacts.

Section StringFacts.

Lemma startswith_spec s p :
  startswith s p = true <-> exists post, s = p +:+ post.
Proof.
  revert s. induction p as [|a p IH]; intros s; cbn.
  - split; [intros _; now exists s | now destruct s].
  - destruct s as [|b s]; cbn.
    + split; [discriminate | intros [post H]; discriminate H].
    + destruct (Ascii.eqb_spec a b) as [->|Hne].
      * rewrite IH. split; intros [post H]; exists post.
        -- now rewrite H.
        -- now injection H.
      * split; [discriminate | intros [post H]; injection H; congruence].
Qed.

Lemma contains_spec s p : contains s p = true <-> substring_of p s.
Proof.
  unfold substring_of. induction s as [|c s IH].
  - cbn [contains]. rewrite orb_false_r, startswith_spec. split.
    + intros [post H]. exists "", post. exact H.
    + intros (pre & post & H). destruct pre; [now exists post|discriminate H].
  - cbn [contains]. rewrite orb_true_iff, startswith_spec, IH. split.
    + intros [[post H]|(pre & post & H)].
      * exists "", post. exact H.
      * exists (String c pre), post. cbn. now rewrite H.
    + intros (pre & post & H). destruct pre as [|c' pre].
      * left. now exists post.
      * right. injection H as _ H. now exists pre, post.
Qed.
End StringFacts.

Section NormalizeFacts.
Import Pandas DataframeHelpers.
Variable mapping_rules : list (list string * string).

Lemma all_present_spec col_lower keywords :
  all_present col_lower keywords = true
  <-> forall keyword, In keyword keywords -> substring_of keyword col_lower.
Proof.
  unfold all_present. rewrite forallb_forall.
  split; intros H k Hk; apply contains_spec, H, Hk.
Qed.

Lemma first_rule_first col_lower before keywords target after :
  (forall kws t, In (kws, t) before -> all_present col_lower kws = false) ->
  all_present col_lower keywords = true ->
  first_rule col_lower (before ++ (keywords, target) :: after) = Some target.
Proof.
  intros Hbefore Hhit. induction before as [|[kws t] before IH]; cbn.
  - now rewrite Hhit.
  - rewrite (Hbefore kws t) by now left.
    apply IH. intros kws' t' Hin. apply (Hbefore kws' t'). now right.
Qed.

Lemma first_rule_none col_lower rules :
  (forall kws t, In (kws, t) rules -> all_present col_lower kws = false) ->
  first_rule col_lower rules = None.
Proof.
  induction rules as [|[kws t] rules IH]; intros Hall; cbn; [reflexivity|].
  rewrite (Hall kws t) by now left.
  apply IH. intros kws' t' Hin. apply (Hall kws' t'). now right.
Qed.

#[local] Abbreviation step :=
  (fun (column_mapping : gmap string string) col =>
     match first_rule (lower col) mapping_rules with
     | Some target_name => <[col := target_name]> column_mapping
     | None => column_mapping
     end).

Lemma fold_mapping_lookup cols (m : gmap string string) c :
  fold_left step cols m !! c
  = match (if bool_decide (c ∈ cols) then first_rule (lower c) mapping_rules
           else None) with
    | Some t => Some t
    | None => m !! c
    end.
Proof.
  revert m. induction cols as [|col cols IH]; intros m; cbn [fold_left].
  - reflexivity.
  - rewrite IH.
    destruct (decide (c ∈ cols)) as [Hin|Hnin].
    + rewrite !bool_decide_eq_true_2 by (try right; assumption).
      destruct (first_rule (lower c) mapping_rules) eqn:Hc; [reflexivity|].
      destruct (decide (col = c)) as [->|Hne].
      * now rewrite Hc.
      * destruct (first_rule (lower col) mapping_rules);
          [now rewrite lookup_insert_ne | reflexivity].
    + rewrite (bool_decide_eq_false_2 (c ∈ cols)) by assumption.
      destruct (decide (col = c)) as [->|Hne].
      * rewrite bool_decide_eq_true_2 by left.
        destruct (first_rule (lower c) mapping_rules);
          [now rewrite lookup_insert_eq | reflexivity].
      * rewrite bool_decide_eq_false_2
          by (intros [?|?]%elem_of_cons; congruence).
        destruct (first_rule (lower col) mapping_rules);
          [now rewrite lookup_insert_ne | reflexivity].
Qed.

Lemma build_mapping_lookup cols c :
  c ∈ cols ->
  build_mapping mapping_rules cols !! c = first_rule (lower c) mapping_rules.
Proof.
  intros Hin. unfold build_mapping. rewrite fold_mapping_lookup.
  rewrite bool_decide_eq_true_2 by assumption.
  now destruct (first_rule (lower c) mapping_rules).
Qed.

(** The labels after normalisation, column by column. *)
Lemma normalize_column_names_data df :
  data (normalize_column_names df mapping_rules)
  = map (fun p => (default (fst p) (first_rule (lower (fst p)) mapping_rules), snd p))
        (data df).
Proof.
  unfold normalize_column_names.
  assert (Hlook : forall p, In p (data df) ->
            build_mapping mapping_rules (columns df) !! fst p
            = first_rule (lower (fst p)) mapping_rules).
  { intros p Hp. apply build_mapping_lookup. unfold columns.
    apply list_elem_of_In, in_map, Hp. }
  destruct (decide (build_mapping mapping_rules (columns df) = ∅)) as [He|_].
  - rewrite <- (map_id (data df)) at 1. apply map_ext_in.
    intros [c vs] Hp. specialize (Hlook _ Hp). rewrite He, lookup_empty in Hlook.
    cbn in *. now rewrite <- Hlook.
  - cbn. apply map_ext_in. intros p Hp. now rewrite (Hlook _ Hp).
Qed.

Lemma normalize_column_names_index df :
  index_length (normalize_column_names df mapping_rules) = index_length df.
Proof.
  unfold normalize_column_names. now destruct (decide _).
Qed.
End NormalizeFacts.

Section ListFacts.
Context {A B : Type}.

Lemma lookup_map (f : A -> B) (l : list A) (i : nat) :
  map f l !! i = f <$> (l !! i).
Proof.
  revert i. induction l as [|x l IH]; intros [|i]; cbn; auto.
Qed.

Lemma map_map_snd (g : A -> A) (l : list (A * B)) :
  map snd (map (fun p => (g (fst p), snd p)) l) = map snd l.
Proof.
  induction l as [|p l IH]; cbn; [reflexivity | now rewrite IH].
Qed.
End ListFacts.

Section FrameFacts.
Import Pandas DataframeHelpers.

Lemma for_each_Forall2 {A B : Type} (f : A -> outcome B) l ys :
  for_each f l = Return ys -> Forall2 (fun x y => f x = Return y) l ys.
Proof.
  revert ys. induction l as [|x l IH]; intros ys; cbn.
  - intros [= <-]. constructor.
  - destruct (f x) as [y|e] eqn:Hx; [|discriminate].
    destruct (for_each f l) as [ys'|e]; [|discriminate].
    intros [= <-]. constructor; [exact Hx | now apply IH].
Qed.

Lemma apply_rows_length f df values :
  apply_rows f df = Return values -> length values = index_length df.
Proof.
  intros H. apply for_each_Forall2, Forall2_length in H.
  now rewrite length_seq in H.
Qed.

Lemma apply_rows_lookup f df values i v :
  apply_rows f df = Return values -> values !! i = Some v ->
  f (row df i) = Return v.
Proof.
  intros H Hv. apply for_each_Forall2 in H.
  destruct (Forall2_lookup_r _ _ _ _ _ H Hv) as (j & Hj & Hf).
  apply lookup_seq in Hj as [-> _]. exact Hf.
Qed.

Lemma has_column_true df col :
  has_column df col = true <-> exists vs, In (col, vs) (data df).
Proof.
  unfold has_column, columns. rewrite existsb_exists. split.
  - intros (c & Hin & Heq). apply String.eqb_eq in Heq as <-.
    apply in_map_iff in Hin as ([c vs] & <- & Hin). now exists vs.
  - intros (vs & Hin). exists col. split; [|apply String.eqb_refl].
    apply in_map_iff. now exists (col, vs).
Qed.

(** What [df[col] = values] does to the frame. *)
Lemma setitem_spec df col values :
  let out := setitem df col values in
  index_length out = index_length df
  /\ columns out = (if has_column df col then columns df else columns df ++ [col])
  /\ has_column out col = true
  /\ (forall i c vs, data df !! i = Some (c, vs) -> c <> col ->
        data out !! i = Some (c, vs))
  /\ (forall c vs, In (c, vs) (data out) -> c = col -> vs = values).
Proof.
  cbn zeta. split; [reflexivity|].
  unfold setitem, columns; cbn [data index_length].
  destruct (has_column df col) eqn:Hhas.
  - split; [|split; [|split]].
    + rewrite map_map. apply map_ext. intros [c vs]; cbn.
      now destruct (String.eqb_spec c col).
    + apply has_column_true in Hhas as (vs & Hin).
      apply has_column_true. cbn [data]. exists values.
      apply in_map_iff. exists (col, vs). cbn. now rewrite String.eqb_refl.
    + intros i c vs Hi Hne. rewrite lookup_map, Hi. cbn.
      destruct (String.eqb_spec c col); [contradiction | reflexivity].
    + intros c vs Hin ->. apply in_map_iff in Hin as ([c' vs'] & Heq & _).
      cbn in Heq. destruct (String.eqb_spec c' col); [|congruence].
      now injection Heq.
  - split; [|split; [|split]].
    + now rewrite map_app.
    + apply has_column_true. cbn [data]. exists values.
      apply in_or_app. right. now left.
    + intros i c vs Hi Hne. now apply lookup_app_l_Some.
    + intros c vs Hin ->. apply in_app_or in Hin as [Hin|[[= <-]|[]]];
        [|reflexivity].
      assert (has_column df col = true) by (apply has_column_true; eauto).
      congruence.
Qed.

Lemma column_setitem_other df col values other :
  other <> col -> column (setitem df col values) other = column df other.
Proof.
  intros Hne. unfold column, setitem; cbn [data].
  assert (Hskip : forall p : string * list cell,
            String.eqb (fst (if String.eqb (fst p) col then (fst p, values) else p))
                       other
            = String.eqb (fst p) other).
  { intros [c vs]; cbn. now destruct (String.eqb c col). }
  assert (Hsame : forall l : list (string * list cell),
            List.filter (fun p => String.eqb (fst p) other)
                   (map (fun p => if String.eqb (fst p) col then (fst p, values) else p) l)
            = List.filter (fun p => String.eqb (fst p) other) l).
  { induction l as [|p rest IH]; cbn; [reflexivity|].
    rewrite Hskip. destruct (String.eqb (fst p) other) eqn:Hp.
    - destruct (String.eqb_spec (fst p) col) as [Hc|_].
      + apply String.eqb_eq in Hp. congruence.
      + now rewrite IH.
    - exact IH. }
  destruct (has_column df col).
  - now rewrite Hsame.
  - rewrite List.filter_app. cbn.
    destruct (String.eqb_spec col other) as [Hc|_]; [congruence|].
    now rewrite app_nil_r.
Qed.

Lemma copy_spec f (h : store) :
  let '(l, h') := copy f h in
  h !! l = None /\ h' !! l = Some f /\ (forall r, r <> l -> h' !! r = h !! r).
Proof.
  unfold copy. split; [|split].
  - apply not_elem_of_dom, is_fresh.
  - apply lookup_insert_eq.
  - intros r Hr. now apply lookup_insert_ne.
Qed.

Lemma status_series_column df variance_col status_of statuses :
  status_series df variance_col status_of = Return statuses ->
  exists variances,
    column df variance_col = Some variances
    /\ for_each status_of variances = Return statuses.
Proof.
  unfold status_series, column.
  destruct (List.filter _ (data df)) as [|p [|q rest]]; try discriminate.
  intros H. now exists (snd p).
Qed.

(** The helpers on references, in terms of the frame they return. *)
Lemma calculate_variance_frame_eq (h : store) df f col1 col2 result_col :
  h !! df = Some f ->
  let l := fresh (dom h) in
  calculate_variance df col1 col2 result_col h
  = match calculate_variance_frame f col1 col2 result_col with
    | Return f' => (Return l, <[l := f']> (<[l := f]> h))
    | Raise e => (Raise e, <[l := f]> h)
    end.
Proof.
  intros Hf. unfold calculate_variance, calculate_variance_frame, copy.
  rewrite Hf, lookup_insert_eq.
  now destruct (apply_rows _ f).
Qed.

Lemma add_match_status_frame_eq (h : store) df f variance_col status_col tolerance
      match_label variance_label missing_label :
  h !! df = Some f ->
  let l := fresh (dom h) in
  add_match_status df variance_col status_col tolerance match_label
                   variance_label missing_label h
  = match add_match_status_frame f variance_col status_col tolerance match_label
                                 variance_label missing_label with
    | Return f' => (Return l, <[l := f']> (<[l := f]> h))
    | Raise e => (Raise e, <[l := f]> h)
    end.
Proof.
  intros Hf. unfold add_match_status, add_match_status_frame, copy.
  rewrite Hf, lookup_insert_eq.
  now destruct (status_series _ _ _).
Qed.

End FrameFacts.

Section StatusFacts.
Import Pandas DataframeHelpers.
Local Open Scope Q_scope.

Lemma determine_status_spec tolerance ml vl xl variance status :
  ml <> vl -> ml <> xl -> vl <> xl ->
  determine_status tolerance ml vl xl variance = Return status ->
  (status = Str ml <-> exists v, variance = Num v /\ Qabs v < tolerance)
  /\ (status = Str xl <-> variance = NA)
  /\ (variance <> NA ->
      (forall v, variance = Num v -> ~ Qabs v < tolerance) ->
      status = Str vl).
Proof.
  intros Hmv Hmx Hvx. unfold determine_status.
  destruct variance as [|v|s]; [| |discriminate].
  - intros [= <-]. split; [|split].
    + split; [congruence | intros (v & Hv & _); discriminate Hv].
    + tauto.
    + intros Hna. now destruct Hna.
  - destruct (Qle_bool tolerance (Qabs v)) eqn:Hle; cbn [negb]; intros [= <-].
    + apply Qle_bool_iff in Hle. split; [|split].
      * split; [congruence|]. intros (v' & [= <-] & Hlt).
        exfalso. apply (Qlt_not_le _ _ Hlt Hle).
      * split; [congruence | discriminate].
      * reflexivity.
    + assert (Hlt : Qabs v < tolerance).
      { apply Qnot_le_lt. intros H. apply Qle_bool_iff in H. congruence. }
      split; [|split].
      * split; [intros _; now exists v | reflexivity].
      * split; [congruence | discriminate].
      * intros _ Hno. exfalso. now apply (Hno v).
Qed.

Lemma variance_of_row_spec col1 col2 r variance :
  variance_of_row col1 col2 r = Return variance ->
  (variance = NA <->
     row_get r col1 = Absent \/ row_get r col1 = One NA
     \/ row_get r col2 = Absent \/ row_get r col2 = One NA)
  /\ (forall x y, row_get r col1 = One (Num x) -> row_get r col2 = One (Num y) ->
        variance = Num (x - y)).
Proof.
  unfold variance_of_row.
  destruct (row_get r col1) as [|[|x|s]|]; try discriminate;
    try (intros [= <-]; split; [tauto | discriminate]);
    (destruct (row_get r col2) as [|[|y|t]|]; try discriminate;
     try (intros [= <-]; split; [tauto | discriminate])).
  intros [= <-]. split.
  - split; [discriminate|]. intros [H|[H|[H|H]]]; discriminate H.
  - now intros ? ? [= <-] [= <-].
Qed.
End StatusFacts.

Section ValidateFacts.
Import Pandas DataframeHelpers ApiValidate.
Variable to_str : cell -> string.
Variable groupby_agg : DataFrame -> string -> list (string * string) -> outcome DataFrame.

Lemma empty_by_shape (df df' : DataFrame) :
  index_length df' = index_length df -> length (data df') = length (data df) ->
  empty df' = empty df.
Proof. unfold empty. now intros -> ->. Qed.

Lemma columns_astype_str df col : columns (astype_str to_str df col) = columns df.
Proof.
  unfold columns, astype_str; cbn [data]. rewrite map_map.
  apply map_ext. intros [c vs]; cbn. now destruct (String.eqb c col).
Qed.

Lemma empty_astype_str df col : empty (astype_str to_str df col) = empty df.
Proof. apply empty_by_shape; [reflexivity | apply length_map]. Qed.

Lemma empty_rename mapping df : empty (rename mapping df) = empty df.
Proof. apply empty_by_shape; [reflexivity | apply length_map]. Qed.

Lemma empty_normalize_column_names df rules :
  empty (normalize_column_names df rules) = empty df.
Proof.
  apply empty_by_shape; [apply normalize_column_names_index|].
  rewrite normalize_column_names_data. apply length_map.
Qed.

Lemma empty_coerce_api df : empty (coerce_api to_str df) = empty df.
Proof.
  unfold coerce_api. destruct (has_column df _); [apply empty_astype_str | reflexivity].
Qed.

Lemma has_column_coerce_api df col :
  has_column (coerce_api to_str df) col = has_column df col.
Proof.
  unfold coerce_api. destruct (has_column df "account_id"); [|reflexivity].
  unfold has_column. now rewrite columns_astype_str.
Qed.

Lemma empty_normalize_web df : empty (normalize_web to_str df) = empty df.
Proof.
  unfold normalize_web.
  destruct (has_column _ _); rewrite ?empty_astype_str,
    empty_normalize_column_names, empty_rename; reflexivity.
Qed.

(** The summary is always produced: every failure inside it ends in a
    record. *)
Lemma summarize_returns side :
  exists summary, _summarize_api_transactions groupby_agg side = Return summary.
Proof.
  unfold _summarize_api_transactions.
  destruct (empty side); [eauto|].
  destruct (negb _); eauto.
Qed.

Lemma setitem_scalar_tagged df col v :
  let out := setitem_scalar df col v in
  has_column out col = true
  /\ forall vs, In (col, vs) (data out) -> vs = replicate (index_length out) v.
Proof.
  unfold setitem_scalar.
  destruct (setitem_spec df col (replicate (index_length df) v))
    as (Hn & _ & Hhas & _ & Hall).
  split; [exact Hhas|]. intros vs Hin. rewrite Hn. now apply (Hall col).
Qed.
End ValidateFacts.

Section EngineRunFacts.
Import RetryHandler RunPredicates.
Context {W A : Type}.
Variable time_sleep : Q -> W -> W.
Variable random_random : W -> Q * W.
Variable max_retries : Z.
Variable backoff_factor max_backoff : Q.
Variable jitter : bool.
Variable func : W -> outcome A * W.
Variable func_name : string.

#[local] Abbreviation run_loop := (wrapper_loop time_sleep random_random max_retries
                    backoff_factor max_backoff jitter func func_name).
#[local] Abbreviation next_wait := (_calculate_backoff random_random).

(** Step lemmas: what one pass through the loop body does. *)
Lemma wrapper_loop_return fuel attempt last w k v w1 :
  (attempt <= max_retries)%Z -> func w = (Return v, w1) ->
  run_loop (S fuel) attempt last w k = Some (Return v, w1, called k).
Proof.
  intros Hle Hf. cbn [wrapper_loop].
  destruct (Z.leb_spec attempt max_retries); [|lia]. now rewrite Hf.
Qed.

Lemma wrapper_loop_retry fuel attempt last w k e w1 :
  (attempt < max_retries)%Z -> func w = (Raise e, w1) -> retryable e = true ->
  run_loop (S fuel) attempt last w k
  = let '(t, w2) := next_wait (attempt + 1)%Z backoff_factor max_backoff jitter w1 in
    run_loop fuel (attempt + 1)%Z (Some e) (time_sleep t w2) (slept t (called k)).
Proof.
  intros Hlt Hf Hre. cbn [wrapper_loop].
  destruct (Z.leb_spec attempt max_retries); [|lia]. rewrite Hf.
  destruct (Z.gtb_spec (attempt + 1) max_retries); [lia|].
  destruct e; try discriminate Hre; cbn [retryable] in Hre;
    try (apply Z.eqb_eq in Hre; subst; cbn [Z.eqb Pos.eqb]); reflexivity.
Qed.

Lemma wrapper_loop_passes fuel attempt last w k e w1 :
  (attempt <= max_retries)%Z -> func w = (Raise e, w1) -> passed_on e = true ->
  run_loop (S fuel) attempt last w k = Some (Raise e, w1, called k).
Proof.
  intros Hle Hf Hp. cbn [wrapper_loop].
  destruct (Z.leb_spec attempt max_retries); [|lia]. rewrite Hf.
  destruct e; try discriminate Hp; reflexivity.
Qed.

(** One pass either ends the run, with the callable's result, the
    callable's error or an error the engine builds, or it sleeps once and
    goes round again. *)
Lemma wrapper_loop_step fuel attempt last w k :
  (attempt <= max_retries)%Z ->
  (exists r w1,
     run_loop (S fuel) attempt last w k = Some (r, w1, called k)
     /\ ((exists v, r = Return v /\ func w = (Return v, w1))
         \/ (exists e e0, r = Raise e /\ func w = (Raise e0, w1)
                          /\ (e = e0 \/ built_by_engine e))))
  \/ (exists e w1 t w2,
        func w = (Raise e, w1) /\ retryable e = true
        /\ (attempt + 1 <= max_retries)%Z
        /\ next_wait (attempt + 1)%Z backoff_factor max_backoff jitter w1 = (t, w2)
        /\ run_loop (S fuel) attempt last w k
           = run_loop fuel (attempt + 1)%Z (Some e) (time_sleep t w2)
                      (slept t (called k))).
Proof.
  intros Hle. cbn [wrapper_loop].
  destruct (Z.leb_spec attempt max_retries); [|lia].
  destruct (func w) as [[v|e] w1] eqn:Hf.
  { left. exists (Return v), w1. split; [reflexivity|]. left. now exists v. }
  unfold built_by_engine.
  destruct e;
    repeat match goal with
           | |- context [if (?a =? ?b)%Z then _ else _] =>
             destruct (Z.eqb_spec a b); subst
           | |- context [if (?a >? ?b)%Z then _ else _] =>
             destruct (Z.gtb_spec a b)
           end;
    first [ left; do 2 eexists; split; [reflexivity|];
            right; do 2 eexists; split; [reflexivity|]; split; [reflexivity|];
            first [left; reflexivity | right; cbn; tauto]
          | right;
            destruct (next_wait (attempt + 1)%Z backoff_factor max_backoff jitter w1)
              as [t w3] eqn:Hw;
            eexists; exists w1, t, w3;
            split; [reflexivity|]; split; [reflexivity|]; split; [lia|];
            split; [exact Hw | reflexivity] ].
Qed.

(** Every run, whatever the callable does: between one and
    [max_retries + 1] invocations, one sleep between two invocations, every
    sleep a backoff computed for an attempt in [1, max_retries], a result
    that the callable returned, and an error that the callable raised or
    the engine built. *)
Lemma wrapper_loop_run fuel attempt last w k r w' k' :
  (0 <= attempt <= max_retries)%Z ->
  run_loop fuel attempt last w k = Some (r, w', k') ->
  (invocations k < invocations k'
   <= invocations k + Z.to_nat (max_retries + 1 - attempt))%nat
  /\ (exists waits,
        sleeps k' = sleeps k ++ waits
        /\ S (length waits) = (invocations k' - invocations k)%nat
        /\ Forall (fun t => exists a w0,
                     (1 <= a <= max_retries)%Z
                     /\ t = fst (next_wait a backoff_factor max_backoff jitter w0))
                  waits)
  /\ (forall v, r = Return v -> exists w0, func w0 = (Return v, w'))
  /\ (forall e, r = Raise e ->
        (exists w0, func w0 = (Raise e, w')) \/ built_by_engine e).
Proof.
  revert attempt last w k.
  induction fuel as [|fuel IH]; intros attempt last w k Hat Hrun;
    [discriminate Hrun|].
  destruct (wrapper_loop_step fuel attempt last w k (proj2 Hat))
    as [(r0 & w1 & Hstep & Hwhat)|(e & w1 & t & w2 & Hf & Hre & Hnext & Hw & Hstep)];
    rewrite Hstep in Hrun.
  - injection Hrun as <- <- <-. cbn [invocations sleeps called].
    split; [lia|]. split.
    { exists []. rewrite app_nil_r. repeat split; [cbn; lia | constructor]. }
    destruct Hwhat as [(v & -> & Hf)|(e & e0 & -> & Hf & He)].
    + split; [intros v' [= <-]; eauto | discriminate].
    + split; [discriminate|]. intros e' [= <-].
      destruct He as [->|He]; [left; eauto | now right].
  - destruct (IH (attempt + 1)%Z (Some e) (time_sleep t w2) (slept t (called k))
                 ltac:(lia) Hrun)
      as (Hinv & (waits & Hs & Hlen & Hall) & Hret & Hraise).
    cbn [invocations sleeps called slept] in *.
    split; [lia|]. split.
    { exists (t :: waits). rewrite Hs, <- app_assoc. cbn.
      repeat split; [lia|]. constructor; [|exact Hall].
      exists (attempt + 1)%Z, w1. rewrite Hw. split; [lia | reflexivity]. }
    split; assumption.
Qed.
End EngineRunFacts.

Section EngineScheduleFacts.
Import RetryHandler RunPredicates.
Context {W A : Type}.
Variable time_sleep : Q -> W -> W.
Variable random_random : W -> Q * W.
Variable max_retries : Z.
Variable backoff_factor max_backoff : Q.
Variable jitter : bool.
Variable func : W -> outcome A * W.
Variable func_name : string.
Local Open Scope Q_scope.

#[local] Abbreviation sched_loop := (wrapper_loop time_sleep random_random max_retries
                    backoff_factor max_backoff jitter func func_name).

Lemma next_wait_le_cap attempt w :
  (forall w0, 0 <= fst (random_random w0) <= 1) -> 0 <= max_backoff ->
  fst (_calculate_backoff random_random attempt backoff_factor max_backoff jitter w)
  <= max_backoff * (11 # 10).
Proof.
  intros Hdraw Hmax.
  set (b := Qmin (backoff_factor ^ (attempt - 1)) max_backoff).
  assert (Hcap : b <= max_backoff) by apply Q.le_min_r.
  destruct jitter.
  - rewrite wait_jitter. fold b.
    destruct (Qlt_le_dec b 0) as [Hneg|Hnn].
    + pose proof (Hdraw w) as [Hu0 Hu1]. unfold uniform.
      assert (0 <= fst (random_random w) * - b)
        by (apply Qmult_le_0_compat; lra).
      lra.
    + pose proof (jittered_range b (fst (random_random w)) Hnn (Hdraw w)). lra.
  - rewrite wait_no_jitter. fold b. lra.
Qed.

(** Exhaustion on generic request errors ends in the [TypeError] of the
    failed construction of [APIConnectionError]. *)
Lemma wrapper_loop_request_error fuel attempt last w k :
  always_request_error func ->
  (0 <= attempt <= max_retries)%Z ->
  (Z.to_nat (max_retries + 1 - attempt) < fuel)%nat ->
  exists message w' k',
    sched_loop fuel attempt last w k = Some (Raise (TypeError message), w', k')
    /\ invocations k' = (invocations k + Z.to_nat (max_retries + 1 - attempt))%nat
    /\ length (sleeps k') = (length (sleeps k) + Z.to_nat (max_retries - attempt))%nat.
Proof.
  intros Hall. revert attempt last w k.
  induction fuel as [|fuel IH]; intros attempt last w k Hat Hfuel; [lia|].
  cbn [wrapper_loop].
  destruct (Z.leb_spec attempt max_retries) as [_|]; [|lia].
  destruct (Hall w) as (m & w1 & Hf). rewrite Hf.
  destruct (Z.gtb_spec (attempt + 1) max_retries) as [Hlast|Hmore].
  - do 3 eexists. split; [reflexivity|]. cbn. split; lia.
  - destruct (_calculate_backoff _ _ _ _ _ _) as [t w2].
    destruct (IH (attempt + 1)%Z (Some (RequestError m)) (time_sleep t w2)
                 (slept t (called k)) ltac:(lia) ltac:(lia))
      as (message & w' & k' & Hrun & Hinv & Hsl).
    exists message, w', k'. split; [exact Hrun|].
    cbn in Hinv, Hsl. rewrite length_app in Hsl. cbn in Hsl. split; lia.
Qed.

(** Without jitter, persistent retried failures sleep the capped powers
    of the backoff factor, in order. *)
Lemma wrapper_loop_schedule fuel attempt last w k r w' k' :
  jitter = false ->
  always_retryable func ->
  (0 <= attempt <= max_retries)%Z ->
  sched_loop fuel attempt last w k = Some (r, w', k') ->
  sleeps k'
  = sleeps k ++ map (fun a => Qmin (backoff_factor ^ (a - 1)) max_backoff)
                    (seqZ (attempt + 1) (max_retries - attempt)).
Proof.
  intros Hj Hall. revert attempt last w k.
  induction fuel as [|fuel IH]; intros attempt last w k Hat Hrun;
    [discriminate Hrun|].
  destruct (Hall w) as (e & w1 & Hf & Hre).
  destruct (Z.eq_dec attempt max_retries) as [->|Hne].
  - rewrite Z.sub_diag. cbn [seqZ]. rewrite app_nil_r.
    cbn [wrapper_loop] in Hrun.
    destruct (Z.leb_spec max_retries max_retries); [|lia]. rewrite Hf in Hrun.
    destruct (Z.gtb_spec (max_retries + 1) max_retries); [|lia].
    destruct e; try discriminate Hre; cbn [retryable] in Hre;
      try (apply Z.eqb_eq in Hre; subst; cbn [Z.eqb Pos.eqb] in Hrun);
      now injection Hrun as <- <- <-.
  - rewrite (wrapper_loop_retry time_sleep random_random max_retries backoff_factor
               max_backoff jitter func func_name fuel attempt last w k e w1)
      in Hrun by (try lia; assumption).
    subst jitter. cbn [_calculate_backoff] in Hrun.
    apply IH in Hrun; [|lia]. rewrite Hrun. cbn [sleeps slept called].
    rewrite <- app_assoc. f_equal.
    rewrite (seqZ_cons (attempt + 1)) by lia. cbn [map app].
    do 2 f_equal. f_equal; lia.
Qed.
End EngineScheduleFacts.

Section SessionRunFacts.
Import RetryHandler SessionHandler.
Context {W A : Type}.
Variable time_sleep : Q -> W -> W.
Variable has_login_page : bool.
Variable credentials : option (gmap string string).
Variable is_logged_out : W -> outcome bool * W.
Variable goto : string -> W -> outcome unit * W.
Variable login : string -> string -> W -> outcome unit * W.
Variable assert_logged_in : W -> outcome unit * W.
Variable max_retries : Z.
Variable func : W -> outcome A * W.
Variable func_name : string.
Local Open Scope Q_scope.

#[local] Abbreviation session_loop :=
  (for_attempts time_sleep has_login_page credentials is_logged_out goto login
                assert_logged_in max_retries func func_name).
#[local] Abbreviation session_recover :=
  (probe_and_recover time_sleep has_login_page credentials is_logged_out goto
                     login assert_logged_in max_retries func_name).

Lemma session_backoff_range attempt :
  (1 <= attempt)%Z -> 2 <= session_backoff attempt <= 8.
Proof.
  intros Ha. unfold session_backoff.
  assert (2 <= Z.min (2 ^ attempt) 8 <= 8)%Z.
  { assert (2 ^ 1 <= 2 ^ attempt)%Z by (apply Z.pow_le_mono_r; lia).
    change (2 ^ 1)%Z with 2%Z in *. lia. }
  split; [change 2 with (inject_Z 2) | change 8 with (inject_Z 8)];
    rewrite <- Zle_Qle; lia.
Qed.

Lemma reauthenticate_stats creds attempt w k w' k' :
  reauthenticate time_sleep goto login assert_logged_in creds attempt w k
  = inr (w', k') ->
  k' = slept (session_backoff attempt) k.
Proof.
  unfold reauthenticate.
  destruct (getitem creds "base_url"); [|discriminate].
  destruct (goto v w) as [[[]|] w1]; [|discriminate].
  destruct (getitem creds "username"); [|discriminate].
  destruct (getitem creds "password"); [|discriminate].
  destruct (login v0 v1 w1) as [[[]|] w2]; [|discriminate].
  destruct (assert_logged_in w2) as [[[]|] w3]; [|discriminate].
  now intros [= _ <-].
Qed.

(** Recovery leaves the record of the run alone, except for the one sleep
    before [continue]. *)
Lemma probe_and_recover_stats attempt e w k :
  match session_recover attempt e w k with
  | Continue _ k' => k' = slept (session_backoff attempt) k
  | FallThrough _ k' | Escalate _ _ k' => k' = k
  end.
Proof.
  assert (Herr : forall w0 : W,
    match on_auth_error max_retries func_name attempt e w0 k with
    | Continue _ k' => k' = slept (session_backoff attempt) k
    | FallThrough _ k' | Escalate _ _ k' => k' = k
    end).
  { intros w0. unfold on_auth_error. destruct (attempt =? max_retries)%Z; reflexivity. }
  unfold probe_and_recover.
  destruct has_login_page; [|reflexivity].
  destruct (is_logged_out w) as [[[|]|x] w1]; [|reflexivity|apply Herr].
  destruct credentials as [creds|]; [|apply Herr].
  destruct (reauthenticate _ _ _ _ creds attempt w1 k) as [[x w2]|[w2 k2]] eqn:Hre;
    [apply Herr | exact (reauthenticate_stats _ _ _ _ _ _ Hre)].
Qed.

(** Every run of the loop: at most one invocation per attempt, at most
    one sleep per invocation, every sleep between 2 and 8 seconds. *)
Lemma for_attempts_run attempts last w k :
  Forall (fun a => (1 <= a)%Z) attempts ->
  let k' := snd (session_loop attempts last w k) in
  (invocations k <= invocations k' <= invocations k + length attempts)%nat
  /\ exists waits,
       sleeps k' = sleeps k ++ waits
       /\ (length waits <= invocations k' - invocations k)%nat
       /\ Forall (fun t => 2 <= t <= 8) waits.
Proof.
  revert last w k.
  induction attempts as [|attempt rest IH]; intros last w k Hpos; cbn zeta.
  - assert (snd (session_loop [] last w k) = k) as -> by (cbn; now destruct last).
    split; [cbn; lia|]. exists []. rewrite app_nil_r. repeat split; [cbn; lia|constructor].
  - apply Forall_cons in Hpos as [Ha Hrest].
    assert (Hstop : forall (r : outcome A) (w0 : W),
              let k' := snd (r, w0, called k) in
              (invocations k <= invocations k' <= invocations k + length (attempt :: rest))%nat
              /\ exists waits,
                   sleeps k' = sleeps k ++ waits
                   /\ (length waits <= invocations k' - invocations k)%nat
                   /\ Forall (fun t => 2 <= t <= 8) waits).
    { intros r w0. cbn. split; [lia|]. exists []. rewrite app_nil_r.
      repeat split; [cbn; lia | constructor]. }
    assert (Hnext : forall (w0 : W) (extra : list Q),
              (length extra <= 1)%nat -> Forall (fun t => 2 <= t <= 8) extra ->
              let k0 := {| invocations := S (invocations k);
                           sleeps := sleeps k ++ extra |} in
              forall e0,
              let k'' := snd (session_loop rest (Some e0) w0 k0) in
              (invocations k <= invocations k'' <= invocations k + length (attempt :: rest))%nat
              /\ exists waits,
                   sleeps k'' = sleeps k ++ waits
                   /\ (length waits <= invocations k'' - invocations k)%nat
                   /\ Forall (fun t => 2 <= t <= 8) waits).
    { intros w0 extra Hlen Hext k0 e0 k''.
      destruct (IH (Some e0) w0 k0 Hrest) as (Hinv & waits & Hs & Hl & Hall).
      fold k'' in Hinv, Hs, Hl. cbn [invocations sleeps k0] in *.
      split; [cbn; lia|]. exists (extra ++ waits).
      rewrite Hs, <- app_assoc. split; [reflexivity|].
      split; [rewrite length_app; lia | now apply Forall_app]. }
    cbn [for_attempts].
    destruct (func w) as [[v|e] w1]; [apply Hstop|].
    destruct (negb _); [apply Hstop|].
    pose proof (probe_and_recover_stats attempt e w1 (called k)) as Hrec.
    destruct (session_recover attempt e w1 (called k)) as [w2 k2|w2 k2|x w2 k2];
      subst k2.
    + apply (Hnext w2 [session_backoff attempt]); [cbn; lia|].
      constructor; [now apply session_backoff_range | constructor].
    + destruct (Z.ltb_spec attempt max_retries); [|apply Hstop].
      apply (Hnext (time_sleep (session_backoff attempt) w2)
                   [session_backoff attempt]); [cbn; lia|].
      constructor; [now apply session_backoff_range | constructor].
    + apply Hstop.
Qed.

Lemma Forall_seqZ_ge (m n : Z) : Forall (fun a => (m <= a)%Z) (seqZ m n).
Proof.
  apply Forall_forall. intros a Ha. apply elem_of_seqZ in Ha. lia.
Qed.
End SessionRunFacts.

Section SessionGiveUpFacts.
Import RetryHandler SessionHandler.
Context {W A : Type}.
Variable time_sleep : Q -> W -> W.
Variable credentials : option (gmap string string).
Variable is_logged_out : W -> outcome bool * W.
Variable goto : string -> W -> outcome unit * W.
Variable login : string -> string -> W -> outcome unit * W.
Variable assert_logged_in : W -> outcome unit * W.
Variable max_retries : Z.
Variable func : W -> outcome A * W.
Variable func_name : string.

(** With a login page whose logout probe always raises, and a callable
    that always fails with a session error, the loop from attempt [a] gives
    up on attempt [max_retries]. *)
Lemma for_attempts_probe_fails a n last w k :
  (forall w0, exists e w1, func w0 = (Raise e, w1) /\ session_classified e = true) ->
  (forall w0, exists x w1, is_logged_out w0 = (Raise x, w1)) ->
  (0 <= n)%Z -> (a + n = max_retries)%Z ->
  exists message e w_prev w_fail w' k',
    for_attempts time_sleep true credentials is_logged_out goto login
                 assert_logged_in max_retries func func_name
                 (seqZ a (n + 1)) last w k
    = (Raise (SessionExpiredError message (Some e)), w', k')
    /\ func w_prev = (Raise e, w_fail)
    /\ invocations k' = (invocations k + Z.to_nat (n + 1))%nat
    /\ length (sleeps k') = (length (sleeps k) + Z.to_nat n)%nat.
Proof.
  intros Hfunc Hprobe Hn. revert a last w k.
  induction (Z.to_nat n) as [|m IH] eqn:Hm in n, Hn |- *; intros a last w k Han.
  - assert (n = 0%Z) as -> by lia.
    replace (seqZ a (0 + 1)) with [a] by reflexivity. cbn [for_attempts].
    destruct (Hfunc w) as (e & w1 & Hf & Hcls). rewrite Hf.
    unfold session_classified in Hcls. rewrite Hcls. cbn [negb].
    unfold probe_and_recover. destruct (Hprobe w1) as (x & w2 & Hp). rewrite Hp.
    unfold on_auth_error. replace (a =? max_retries)%Z with true
      by (symmetry; apply Z.eqb_eq; lia).
    do 6 eexists. split; [reflexivity|]. split; [exact Hf|]. cbn. split; lia.
  - rewrite (seqZ_cons a) by lia. cbn [for_attempts].
    destruct (Hfunc w) as (e & w1 & Hf & Hcls). rewrite Hf.
    unfold session_classified in Hcls. rewrite Hcls. cbn [negb].
    unfold probe_and_recover. destruct (Hprobe w1) as (x & w2 & Hp). rewrite Hp.
    unfold on_auth_error. replace (a =? max_retries)%Z with false
      by (symmetry; apply Z.eqb_neq; lia).
    replace (a <? max_retries)%Z with true by (symmetry; apply Z.ltb_lt; lia).
    replace (Z.pred (n + 1)) with ((n - 1) + 1)%Z by lia.
    destruct (IH (n - 1)%Z ltac:(lia) ltac:(lia) (Z.succ a) (Some e)
                 (time_sleep (session_backoff a) w2)
                 (slept (session_backoff a) (called k)) ltac:(lia))
      as (message & e' & wp & wf & w' & k' & Hrun & Hprev & Hinv & Hsl).
    exists message, e', wp, wf, w', k'. split; [exact Hrun|]. split; [exact Hprev|].
    cbn in Hinv, Hsl. rewrite length_app in Hsl. cbn in Hsl. split; lia.
Qed.
End SessionGiveUpFacts.

Section EngineShortcuts.
Import RetryHandler RunPredicates.
Context {W A : Type}.
Variable time_sleep : Q -> W -> W.
Variable random_random : W -> Q * W.
Variable max_retries : Z.
Variable backoff_factor max_backoff : Q.
Variable jitter : bool.
Variable func : W -> outcome A * W.
Variable func_name : string.

Lemma with_api_retry_first_return w v w1 :
  (0 <= max_retries)%Z -> func w = (Return v, w1) ->
  with_api_retry time_sleep random_random max_retries backoff_factor max_backoff
                 jitter func func_name w
  = (Return v, w1, {| invocations := 1; sleeps := [] |}).
Proof.
  intros Hmax Hf. unfold with_api_retry, wrapper, wrapper_fuel.
  now rewrite (wrapper_loop_return time_sleep random_random max_retries
                 backoff_factor max_backoff jitter func func_name _ 0%Z None w
                 no_stats v w1 Hmax Hf).
Qed.

Lemma with_api_retry_first_passed w e w1 :
  (0 <= max_retries)%Z -> func w = (Raise e, w1) -> passed_on e = true ->
  with_api_retry time_sleep random_random max_retries backoff_factor max_backoff
                 jitter func func_name w
  = (Raise e, w1, {| invocations := 1; sleeps := [] |}).
Proof.
  intros Hmax Hf Hp. unfold with_api_retry, wrapper, wrapper_fuel.
  now rewrite (wrapper_loop_passes time_sleep random_random max_retries
                 backoff_factor max_backoff jitter func func_name _ 0%Z None w
                 no_stats e w1 Hmax Hf Hp).
Qed.

(** A value returned by the decorated call was returned by the callable,
    which left the world as it is. *)
Lemma with_api_retry_return_origin w v w' k :
  with_api_retry time_sleep random_random max_retries backoff_factor max_backoff
                 jitter func func_name w = (Return v, w', k) ->
  exists w0, func w0 = (Return v, w').
Proof.
  intros Hres.
  destruct (Z.leb_spec 0 max_retries) as [Hmax|Hneg].
  - pose proof (with_api_retry_wrapper time_sleep random_random max_retries
                  backoff_factor max_backoff jitter func func_name w) as Hrun.
    rewrite Hres in Hrun. unfold wrapper in Hrun.
    destruct (wrapper_loop_run time_sleep random_random max_retries backoff_factor
                max_backoff jitter func func_name _ 0%Z None w no_stats _ w' k
                ltac:(lia) Hrun) as (_ & _ & Hret & _).
    now apply Hret.
  - rewrite with_api_retry_negative_budget in Hres by exact Hneg. discriminate Hres.
Qed.
End EngineShortcuts.

Section ReplaceFacts.
Import Client.

Lemma replace_from_skip old new p t :
  replace_from (String.length p) old new (p +:+ t) = replace_from 0 old new t.
Proof.
  induction p as [|c p IH]; [reflexivity | exact IH].
Qed.

Lemma replace_from_absent old new t :
  contains t old = false -> replace_from 0 old new t = t.
Proof.
  induction t as [|c t IH]; [reflexivity|].
  cbn [contains replace_from]. intros H.
  apply orb_false_iff in H as [Hs Hc]. rewrite Hs. now rewrite IH.
Qed.

(** Stripping the scheme from a header that carries it once, in front. *)
Lemma replace_prefix c old t :
  contains t (String c old) = false ->
  replace (String c old +:+ t) (String c old) "" = t.
Proof.
  intros Ht. unfold replace.
  assert (Hs : startswith (String c (old +:+ t)) (String c old) = true).
  { apply startswith_spec. now exists t. }
  change (String c old +:+ t) with (String c (old +:+ t)).
  change (replace_from 0 (String c old) "" (String c (old +:+ t)))
    with (if startswith (String c (old +:+ t)) (String c old)
          then "" +:+ replace_from (String.length (String c old) - 1)
                                   (String c old) "" (old +:+ t)
          else String c (replace_from 0 (String c old) "" (old +:+ t))).
  rewrite Hs. change (String.length (String c old) - 1)%nat with (String.length old - 0)%nat.
  rewrite Nat.sub_0_r. change ("" +:+ ?x) with x.
  rewrite replace_from_skip. now apply replace_from_absent.
Qed.
End ReplaceFacts.

Section ClientFacts.
Import RetryHandler RunPredicates Client.
Context {W : Type}.
Variable time_time : W -> Q.
Variable time_sleep : Q -> W -> W.
Variable random_random : W -> Q * W.
Variable client_post :
  string -> json -> list (string * string) -> W -> outcome response * W.
Variable client_get :
  string -> list (string * string) -> W -> outcome response * W.
Local Open Scope Q_scope.

Lemma raise_for_status_ok r :
  (200 <= status_code r <= 299)%Z -> raise_for_status r = Return tt.
Proof.
  intros [H1 H2]. unfold raise_for_status.
  now rewrite (proj2 (Z.leb_le _ _) H1), (proj2 (Z.leb_le _ _) H2).
Qed.

(** A token stored by [store_token] expires 3600 seconds after the clock
    of the state it is stored in, and the world is left alone. *)
Lemma store_token_return r st st' :
  store_token time_time r st = (Return tt, st') ->
  snd st' = snd st
  /\ exists v, _tok (fst st') = Some {| value := v; exp := time_time (snd st) + 3600 |}.
Proof.
  unfold store_token.
  destruct (raise_for_status r); [|discriminate].
  destruct (json_body r) as [[| | | | |items]|]; try discriminate.
  destruct (negb _); [discriminate|].
  destruct (get_or items "Authorization" (JStr "")); try discriminate.
  intros [= <-]. cbn. eauto.
Qed.

Lemma authenticate_body_return st st' :
  authenticate_body time_time client_post st = (Return tt, st') ->
  exists v, _tok (fst st') = Some {| value := v; exp := time_time (snd st') + 3600 |}.
Proof.
  unfold authenticate_body.
  destruct (client_post _ _ _ _) as [[r|e] w1].
  - destruct (store_token time_time r _) as [[[]|e] st1] eqn:Hs.
    + intros [= <-]. apply store_token_return in Hs as (Hw & v & Hv).
      exists v. now rewrite Hw.
    + destruct e; try discriminate. destruct (_ || _); discriminate.
  - destruct e; try discriminate. destruct (_ || _); discriminate.
Qed.

Lemma fresh_token_usable st v :
  _tok (fst st) = Some {| value := v; exp := time_time (snd st) + 3600 |} ->
  _is_token_expired time_time st = false.
Proof.
  intros Ht. unfold _is_token_expired. rewrite Ht. cbn [exp].
  apply negb_false_iff, Qle_bool_iff. unfold TOKEN_REFRESH_BUFFER. lra.
Qed.
(** A login answered with 401 or 403: the body raises the authentication
    error, and the decorator hands it on after that one call. *)
Lemma authenticate_body_rejected st r w1 :
  client_post (base (fst st) +:+ "/api/login")
              (JObj [("username", JStr (user (fst st)));
                     ("password", JStr (pwd (fst st)))]) [] (snd st)
  = (Return r, w1) ->
  status_code r = 401%Z \/ status_code r = 403%Z ->
  exists m,
    authenticate_body time_time client_post st
    = (Raise (APIAuthenticationError
                ("Invalid credentials for user " +:+ user (fst st))
                (Some (status_code r)) (Some (slice_to 500 (text r)))
                (Some (HTTPStatusError m (status_code r) (text r)))),
       (set_client (fst st), w1)).
Proof.
  intros Hpost Hstatus.
  unfold authenticate_body, _get_client. cbn [fst snd].
  change (base (set_client (fst st))) with (base (fst st)).
  change (user (set_client (fst st))) with (user (fst st)).
  change (pwd (set_client (fst st))) with (pwd (fst st)).
  rewrite Hpost. unfold store_token, raise_for_status.
  destruct Hstatus as [Hs|Hs]; rewrite Hs; cbn; eexists; reflexivity.
Qed.

Lemma authenticate_rejected_run st r w1 :
  client_post (base (fst st) +:+ "/api/login")
              (JObj [("username", JStr (user (fst st)));
                     ("password", JStr (pwd (fst st)))]) [] (snd st)
  = (Return r, w1) ->
  status_code r = 401%Z \/ status_code r = 403%Z ->
  exists m,
    authenticate time_time time_sleep random_random client_post st
    = (Raise (APIAuthenticationError
                ("Invalid credentials for user " +:+ user (fst st))
                (Some (status_code r)) (Some (slice_to 500 (text r)))
                (Some (HTTPStatusError m (status_code r) (text r)))),
       (set_client (fst st), w1)).
Proof.
  intros Hpost Hstatus.
  destruct (authenticate_body_rejected st r w1 Hpost Hstatus) as [m Hbody].
  exists m. unfold authenticate, decorated.
  erewrite with_api_retry_first_passed; [reflexivity | lia | exact Hbody | reflexivity].
Qed.
End ClientFacts.

(* ===================================================================== *)
(** ** Facts about text: stripping, filtering, reading numbers *)
(* ===================================================================== *)

Section TextFacts.
Import Utils TextPredicates.

Lemma append_cons c a b : String c a +:+ b = String c (a +:+ b).
Proof. reflexivity. Qed.

Lemma append_empty_l b : "" +:+ b = b.
Proof. reflexivity. Qed.

Ltac unfold_append := rewrite ?append_cons, ?append_empty_l.

Lemma append_empty_r s : s +:+ "" = s.
Proof.
  induction s as [|c s IH]; unfold_append; [reflexivity | now rewrite IH].
Qed.

Lemma append_assoc a b c : (a +:+ b) +:+ c = a +:+ b +:+ c.
Proof.
  induction a as [|x a IH]; unfold_append; [reflexivity | now rewrite IH].
Qed.

Lemma append_eq_empty a b : a +:+ b = "" -> a = "" /\ b = "".
Proof. destruct a; unfold_append; [tauto | discriminate]. Qed.

Lemma isspace_not_numeric c : isspace c = true -> numeric_char c = false.
Proof.
  destruct c as [[] [] [] [] [] [] [] []]; vm_compute; intros H;
    solve [reflexivity | discriminate H].
Qed.

Lemma numeric_char_digit c :
  numeric_char c = true ->
  is_digit c = negb (Ascii.eqb "-" c) && negb (Ascii.eqb "." c).
Proof.
  destruct c as [[] [] [] [] [] [] [] []]; vm_compute; intros H;
    solve [reflexivity | discriminate H].
Qed.

Lemma is_digit_numeric c : is_digit c = true -> numeric_char c = true.
Proof. unfold numeric_char. now intros ->. Qed.

(** *** [keep], [count], [every] *)

Lemma keep_app p a b : keep p (a +:+ b) = keep p a +:+ keep p b.
Proof.
  induction a as [|c a IH]; unfold_append; cbn; [reflexivity|].
  destruct (p c); unfold_append; cbn; now rewrite IH.
Qed.

Lemma count_app p a b : count p (a +:+ b) = (count p a + count p b)%nat.
Proof. induction a as [|c a IH]; unfold_append; cbn; [reflexivity | rewrite IH; lia]. Qed.

Lemma every_app p a b : every p (a +:+ b) = every p a && every p b.
Proof.
  induction a as [|c a IH]; unfold_append; cbn; [reflexivity|].
  rewrite IH. now destruct (p c).
Qed.

Lemma every_keep p s : every p (keep p s) = true.
Proof.
  induction s as [|c s IH]; cbn; [reflexivity|].
  destruct (p c) eqn:Hc; cbn; [now rewrite Hc | exact IH].
Qed.

Lemma every_count p s :
  every p s = true -> count p s = String.length s.
Proof.
  induction s as [|c s IH]; cbn; [reflexivity|].
  destruct (p c); cbn; [intros H; now rewrite IH | discriminate].
Qed.

(** *** Stripping *)

Lemma lstrip_app_space pre s : all_space pre = true -> lstrip (pre +:+ s) = lstrip s.
Proof.
  unfold all_space. induction pre as [|c pre IH]; unfold_append; cbn; [reflexivity|].
  destruct (isspace c); unfold_append; cbn; [exact IH | discriminate].
Qed.

Lemma lstrip_no_space w s : no_space w = true -> w <> "" -> lstrip (w +:+ s) = w +:+ s.
Proof.
  unfold no_space. destruct w as [|c w]; [contradiction|]. unfold_append. cbn.
  destruct (isspace c); unfold_append; cbn; [discriminate | reflexivity].
Qed.

Lemma rstrip_all_space post : all_space post = true -> rstrip post = "".
Proof.
  unfold all_space. induction post as [|c post IH]; cbn; [reflexivity|].
  destruct (isspace c); cbn; [|discriminate].
  intros H. now rewrite (IH H).
Qed.

Lemma rstrip_app_space s post : all_space post = true -> rstrip (s +:+ post) = rstrip s.
Proof.
  intros H. induction s as [|c s IH]; unfold_append; cbn.
  - now apply rstrip_all_space.
  - now rewrite IH.
Qed.

Lemma rstrip_app_kept a r : r <> "" -> rstrip r = r -> rstrip (a +:+ r) = a +:+ r.
Proof.
  intros Hne Hr. induction a as [|c a IH]; unfold_append; cbn; [exact Hr|].
  rewrite IH. destruct (a +:+ r) eqn:Har; [|reflexivity].
  apply append_eq_empty in Har as [_ Har]. contradiction.
Qed.

Lemma rstrip_parenthesised t : rstrip (String "(" (t +:+ ")")) = String "(" (t +:+ ")").
Proof.
  change (String "(" (t +:+ ")")) with (String "(" t +:+ ")").
  apply rstrip_app_kept; [discriminate | reflexivity].
Qed.

Lemma lstrip_length s : (String.length (lstrip s) <= String.length s)%nat.
Proof.
  induction s as [|c s IH]; cbn; [lia|]. destruct (isspace c); cbn; lia.
Qed.

Lemma rstrip_length s : (String.length (rstrip s) <= String.length s)%nat.
Proof.
  induction s as [|c s IH]; cbn; [lia|].
  destruct (rstrip s); [destruct (isspace c)|]; cbn in *; lia.
Qed.

Lemma strip_fixed s : strip s = s -> lstrip s = s /\ rstrip s = s.
Proof.
  intros H.
  assert (Hl : lstrip s = s).
  { pose proof (rstrip_length (lstrip s)) as H1. unfold strip in H.
    rewrite H in H1. destruct s as [|c s]; [reflexivity|]. cbn in *.
    destruct (isspace c); [|reflexivity].
    pose proof (lstrip_length s). lia. }
  split; [exact Hl|]. unfold strip in H. now rewrite Hl in H.
Qed.

Lemma endswith_app s suffix : endswith (s +:+ suffix) suffix = true.
Proof.
  induction s as [|c s IH]; unfold_append; cbn.
  - destruct suffix; unfold_append; cbn; [reflexivity|]. now rewrite Ascii.eqb_refl, String.eqb_refl.
  - rewrite IH. apply orb_true_r.
Qed.

Lemma keep_lstrip s : keep numeric_char (lstrip s) = keep numeric_char s.
Proof.
  induction s as [|c s IH]; cbn; [reflexivity|].
  destruct (isspace c) eqn:Hc; [|reflexivity].
  now rewrite (isspace_not_numeric c Hc).
Qed.

Lemma keep_rstrip s : keep numeric_char (rstrip s) = keep numeric_char s.
Proof.
  induction s as [|c s IH]; cbn; [reflexivity|].
  destruct (rstrip s) as [|d kept] eqn:Hr.
  - cbn in IH. rewrite <- IH.
    destruct (isspace c) eqn:Hc; cbn.
    + now rewrite (isspace_not_numeric c Hc).
    + now destruct (numeric_char c).
  - cbn [keep]. now rewrite <- IH.
Qed.

Lemma keep_strip s : keep numeric_char (strip s) = keep numeric_char s.
Proof. unfold strip. now rewrite keep_rstrip, keep_lstrip. Qed.

(** *** Words *)

Lemma word_app w rest :
  no_space w = true ->
  rest = "" \/ (exists c r, rest = String c r /\ isspace c = true) ->
  word (w +:+ rest) = (w, rest).
Proof.
  unfold no_space. intros Hw Hrest. induction w as [|c w IH]; unfold_append; cbn.
  - destruct Hrest as [->|(d & r & -> & Hd)]; unfold_append; cbn; [reflexivity | now rewrite Hd].
  - cbn in Hw. destruct (isspace c); unfold_append; cbn in Hw; [discriminate|].
    now rewrite (IH Hw).
Qed.

(** *** Reading numbers *)

Lemma digits_every s : forall acc,
  match digits acc s with
  | Some _ => every is_digit s = true
  | None => every is_digit s = false
  end.
Proof.
  induction s as [|c s IH]; intros acc; cbn; [reflexivity|].
  destruct (is_digit c); cbn; [apply IH | reflexivity].
Qed.

Lemma every_digit_counts s :
  every numeric_char s = true ->
  every is_digit s
  = (count (Ascii.eqb "-") s =? 0)%nat && (count (Ascii.eqb ".") s =? 0)%nat.
Proof.
  induction s as [|c s IH]; cbn [every count]; [reflexivity|].
  intros H. apply andb_true_iff in H as [Hc Hs].
  rewrite (numeric_char_digit c Hc), (IH Hs).
  destruct (Ascii.eqb "-" c), (Ascii.eqb "." c); cbn;
    rewrite ?andb_false_r; reflexivity.
Qed.

Lemma at_point_spec s :
  let '(whole, rest) := at_point s in
  count (Ascii.eqb ".") whole = 0%nat
  /\ s = whole +:+ match rest with
                   | Some fraction => String "." fraction
                   | None => ""
                   end.
Proof.
  induction s as [|c s IH]; cbn [at_point]; [split; reflexivity|].
  destruct (Ascii.eqb_spec c ".") as [->|Hc].
  - split; reflexivity.
  - destruct (at_point s) as [whole rest]. destruct IH as [H0 Hs]. split.
    + cbn [count]. destruct (Ascii.eqb_spec "." c); [congruence | exact H0].
    + unfold_append. now rewrite <- Hs.
Qed.

(** What [float] accepts, on text of digits, points and minus signs. *)
Lemma unsigned_float_spec s :
  every numeric_char s = true ->
  match unsigned_float s with
  | Some _ =>
    count (Ascii.eqb "-") s = 0%nat /\ (count (Ascii.eqb ".") s <= 1)%nat
    /\ count is_digit s <> 0%nat
  | None =>
    ~ (count (Ascii.eqb "-") s = 0%nat /\ (count (Ascii.eqb ".") s <= 1)%nat
       /\ count is_digit s <> 0%nat)
  end.
Proof.
  intros Hs. unfold unsigned_float.
  pose proof (at_point_spec s) as Hp.
  destruct (at_point s) as [whole rest]. destruct Hp as [Hpoint Heq].
  set (fraction := default "" rest).
  assert (Hparts : every numeric_char whole = true
                   /\ every numeric_char fraction = true).
  { rewrite Heq, every_app in Hs. apply andb_true_iff in Hs as [Hw Hr].
    split; [exact Hw|]. subst fraction. destruct rest as [f|]; [|reflexivity].
    cbn in Hr |- *. now apply andb_true_iff in Hr as [_ Hr]. }
  destruct Hparts as [Hw Hf].
  pose proof (every_digit_counts whole Hw) as Hdw.
  pose proof (every_digit_counts fraction Hf) as Hdf.
  pose proof (digits_every whole 0) as Hgw.
  pose proof (digits_every fraction 0) as Hgf.
  assert (Hcounts :
    count (Ascii.eqb "-") s
    = (count (Ascii.eqb "-") whole + count (Ascii.eqb "-") fraction)%nat
    /\ count is_digit s = (count is_digit whole + count is_digit fraction)%nat
    /\ count (Ascii.eqb ".") s
       = match rest with
         | Some _ => S (count (Ascii.eqb ".") fraction)
         | None => 0%nat
         end).
  { rewrite Heq at 1 2 3. rewrite !count_app. subst fraction.
    destruct rest as [f|]; cbn; repeat split; lia. }
  destruct Hcounts as (Hminus & Hdigit & Hdot).
  assert (Hfnone : rest = None -> fraction = "") by (now intros ->).
  destruct (Nat.eqb_spec (String.length whole + String.length fraction) 0) as [H0|H0].
  - assert (whole = "") as -> by (destruct whole; [reflexivity | cbn in H0; lia]).
    assert (Hfe : fraction = "") by (destruct fraction; [reflexivity | cbn in H0; lia]).
    rewrite Hfe in Hdigit. cbn in Hdigit. lia.
  - destruct (digits 0 whole) as [i|]; destruct (digits 0 fraction) as [f|].
    + rewrite Hgw in Hdw. rewrite Hgf in Hdf.
      symmetry in Hdw, Hdf.
      apply andb_true_iff in Hdw as [Hw1 Hw2], Hdf as [Hf1 Hf2].
      apply Nat.eqb_eq in Hw1, Hw2, Hf1, Hf2.
      rewrite (every_count _ _ Hgw), (every_count _ _ Hgf) in Hdigit.
      destruct rest; lia.
    + rewrite Hgf in Hdf. symmetry in Hdf.
      apply andb_false_iff in Hdf as [Hx|Hx]; apply Nat.eqb_neq in Hx.
      * lia.
      * destruct rest as [f'|]; [lia|]. rewrite (Hfnone eq_refl) in Hx.
        now cbn in Hx.
    + rewrite Hgw in Hdw. symmetry in Hdw.
      apply andb_false_iff in Hdw as [Hx|Hx]; apply Nat.eqb_neq in Hx; lia.
    + rewrite Hgw in Hdw. symmetry in Hdw.
      apply andb_false_iff in Hdw as [Hx|Hx]; apply Nat.eqb_neq in Hx; lia.
Qed.

Lemma float_spec s :
  every numeric_char s = true ->
  match float s with
  | Return _ => decimal_text s = true
  | Raise e =>
    decimal_text s = false
    /\ e = Exception_ "ValueError"
                      ("could not convert string to float: '" +:+ s +:+ "'")
  end.
Proof.
  intros Hs.
  assert (Hbody : forall body,
            every numeric_char body = true ->
            match unsigned_float body with
            | Some _ =>
              (count (Ascii.eqb "-") body =? 0)%nat
              && (count (Ascii.eqb ".") body <=? 1)%nat
              && negb (count is_digit body =? 0)%nat = true
            | None =>
              (count (Ascii.eqb "-") body =? 0)%nat
              && (count (Ascii.eqb ".") body <=? 1)%nat
              && negb (count is_digit body =? 0)%nat = false
            end).
  { intros body Hb. pose proof (unsigned_float_spec body Hb) as H.
    destruct (unsigned_float body).
    - destruct H as (H1 & H2 & H3).
      apply Nat.eqb_eq in H1. apply Nat.leb_le in H2. apply Nat.eqb_neq in H3.
      now rewrite H1, H2, H3.
    - destruct (Nat.eqb_spec (count (Ascii.eqb "-") body) 0); [|reflexivity].
      destruct (Nat.leb_spec (count (Ascii.eqb ".") body) 1); [|reflexivity].
      destruct (Nat.eqb_spec (count is_digit body) 0); [reflexivity|].
      exfalso. apply H. repeat split; assumption. }
  unfold float, decimal_text.
  destruct s as [|c s']; [cbn; split; reflexivity|].
  destruct (Ascii.eqb_spec c "-") as [->|Hc].
  - cbn in Hs. specialize (Hbody s' Hs).
    destruct (unsigned_float s'); cbn; [exact Hbody | split; [exact Hbody | reflexivity]].
  - specialize (Hbody (String c s') Hs).
    assert (Hsame : forall (X : Type) (a b : X),
              match String c s' with String "-" _ => a | _ => b end = b).
    { intros X a b.
      destruct c as [[] [] [] [] [] [] [] []]; try reflexivity. now contradiction Hc. }
    rewrite (Hsame (option Q)), (Hsame string).
    destruct (unsigned_float (String c s')); [exact Hbody | split; [exact Hbody | reflexivity]].
Qed.
End TextFacts.

(* ===================================================================== *)
(** ** Facts about rows, columns and the column-wise difference *)
(* ===================================================================== *)

Section RowFacts.
Import Pandas DataframeHelpers ApiValidate.
Local Open Scope Q_scope.

Lemma nth_lookup_cell (l : list cell) i v : l !! i = Some v -> nth i l NA = v.
Proof.
  revert i. induction l as [|x l IH]; intros [|i]; cbn; try discriminate.
  - now intros [= ->].
  - apply IH.
Qed.

Lemma filter_map_label {A B : Type} (h : string * A -> string * B) c l :
  (forall p, fst (h p) = fst p) ->
  List.filter (fun p => String.eqb (fst p) c) (map h l)
  = map h (List.filter (fun p => String.eqb (fst p) c) l).
Proof.
  intros Hh. induction l as [|p l IH]; cbn; [reflexivity|].
  rewrite Hh. destruct (String.eqb (fst p) c); cbn; now rewrite IH.
Qed.

(** [row.get(col)] in terms of the columns under that label. *)
Lemma row_get_row df i c :
  row_get (row df i) c
  = match List.filter (fun p => String.eqb (fst p) c) (data df) with
    | [] => Absent
    | [p] => One (nth i (snd p) NA)
    | _ => Many
    end.
Proof.
  unfold row_get, row.
  rewrite (filter_map_label (fun p => (fst p, nth i (snd p) NA)))
    by reflexivity.
  now destruct (List.filter _ (data df)) as [|p [|q rest]].
Qed.

Lemma row_get_column df i c xs :
  column df c = Some xs -> row_get (row df i) c = One (nth i xs NA).
Proof.
  rewrite row_get_row. unfold column.
  destruct (List.filter _ (data df)) as [|p [|q rest]]; try discriminate.
  now intros [= ->].
Qed.



(** After [df[col] = values] the label [col] holds [values], once or (if
    the label was repeated) several times. *)
Lemma filter_setitem_same df col values :
  exists n,
    List.filter (fun p => String.eqb (fst p) col) (data (setitem df col values))
    = (col, values) :: replicate n (col, values).
Proof.
  unfold setitem; cbn [data].
  destruct (has_column df col) eqn:Hhas.
  - assert (Hall : forall l : list (string * list cell),
              exists n,
                List.filter (fun p => String.eqb (fst p) col)
                  (map (fun p => if String.eqb (fst p) col
                                 then (fst p, values) else p) l)
                = replicate n (col, values)
                /\ (existsb (String.eqb col) (map fst l) = true -> n <> 0%nat)).
    { induction l as [|p rest (n & IH & Hn)]; cbn.
      - exists 0%nat. split; [reflexivity | discriminate].
      - destruct (String.eqb (fst p) col) eqn:Hc; cbn [fst]; rewrite Hc.
        + apply String.eqb_eq in Hc. exists (S n).
          rewrite IH, Hc. split; [reflexivity | discriminate].
        + exists n. split; [exact IH|].
          rewrite String.eqb_sym, Hc. exact Hn. }
    destruct (Hall (data df)) as (n & Hf & Hn).
    destruct n as [|n]; [now destruct (Hn Hhas)|].
    exists n. exact Hf.
  - exists 0%nat. rewrite List.filter_app. cbn. rewrite String.eqb_refl.
    assert (Hnone : List.filter (fun p => String.eqb (fst p) col) (data df) = []).
    { unfold has_column, columns in Hhas.
      induction (data df) as [|p rest IH]; cbn in *; [reflexivity|].
      apply orb_false_iff in Hhas as [Hp Hrest].
      rewrite String.eqb_sym, Hp. now apply IH. }
    now rewrite Hnone.
Qed.

Lemma column_setitem_same df col values values' :
  column (setitem df col values) col = Some values' -> values' = values.
Proof.
  unfold column. destruct (filter_setitem_same df col values) as [n ->].
  destruct n; cbn; [now intros [= <-] | discriminate].
Qed.


Lemma setitem_labelled df col values vs :
  In (col, vs) (data (setitem df col values)) -> vs = values.
Proof.
  intros Hin.
  now apply (proj2 (proj2 (proj2 (proj2 (setitem_spec df col values)))) col vs).
Qed.

Lemma for_each_lookup {A B : Type} (f : A -> outcome B) l ys i x :
  for_each f l = Return ys -> l !! i = Some x ->
  exists y, ys !! i = Some y /\ f x = Return y.
Proof.
  intros H Hx. apply for_each_Forall2 in H.
  destruct (Forall2_lookup_l _ _ _ _ _ H Hx) as (y & Hy & Hf). now exists y.
Qed.

Lemma apply_rows_at f df values i :
  apply_rows f df = Return values -> (i < index_length df)%nat ->
  exists v, values !! i = Some v /\ f (row df i) = Return v.
Proof.
  intros H Hi. unfold apply_rows in H.
  apply (for_each_lookup _ _ _ i i H).
  now apply lookup_seq.
Qed.

Lemma sub_columns_lookup xs : forall ys vs i a b,
  sub_columns xs ys = Return vs -> xs !! i = Some a -> ys !! i = Some b ->
  exists v, vs !! i = Some v /\ sub_cells a b = Return v.
Proof.
  induction xs as [|x xs IH]; intros ys vs i a b; [now destruct i|].
  destruct ys as [|y ys]; [now destruct i|]. cbn [sub_columns].
  destruct (sub_cells x y) as [v|] eqn:Hxy; [|discriminate].
  destruct (sub_columns xs ys) as [rest|] eqn:Hrest; [|discriminate].
  intros [= <-]. destruct i as [|i]; cbn.
  - intros [= <-] [= <-]. now exists v.
  - now apply IH.
Qed.

(** Columns without text and of equal length can be subtracted. *)
Lemma sub_columns_total xs : forall ys,
  length xs = length ys ->
  Forall (fun v => forall s, v <> Str s) xs ->
  Forall (fun v => forall s, v <> Str s) ys ->
  exists vs, sub_columns xs ys = Return vs /\ length vs = length xs.
Proof.
  induction xs as [|x xs IH]; intros [|y ys] Hlen Hxs Hys; try discriminate.
  - now exists [].
  - apply Forall_cons in Hxs as [Hx Hxs]. apply Forall_cons in Hys as [Hy Hys].
    destruct (IH ys ltac:(cbn in Hlen; lia) Hxs Hys) as (vs & Hvs & Hl).
    cbn [sub_columns]. rewrite Hvs.
    destruct x as [|p|s]; [| |now destruct (Hx s)];
      (destruct y as [|q|s]; [| |now destruct (Hy s)]);
      cbn; eexists; (split; [reflexivity | cbn; now rewrite Hl]).
Qed.

Lemma sub_cells_spec a b v :
  sub_cells a b = Return v ->
  (v = NA <-> a = NA \/ b = NA)
  /\ (forall x y, a = Num x -> b = Num y -> v = Num (x - y))
  /\ (forall s, a <> Str s) /\ (forall s, b <> Str s)
  /\ (forall s, v <> Str s).
Proof.
  destruct a as [|x|s], b as [|y|t]; cbn; try discriminate; intros [= <-];
    (split;
     [split;
      [intros H; first [discriminate H | now left | now right]
      |intros [H|H]; first [reflexivity | discriminate H]]
     |repeat split; intros; congruence]).
Qed.

Lemma calculate_variance_frame_inv f col1 col2 result_col f' :
  calculate_variance_frame f col1 col2 result_col = Return f' ->
  exists values,
    apply_rows (variance_of_row col1 col2) f = Return values
    /\ f' = setitem f result_col values.
Proof.
  unfold calculate_variance_frame.
  destruct (apply_rows _ f) as [values|] eqn:Hv; [|discriminate].
  intros [= <-]. now exists values.
Qed.


Lemma add_match_status_frame_inv f variance_col status_col tolerance ml vl xl f' :
  add_match_status_frame f variance_col status_col tolerance ml vl xl = Return f' ->
  exists variances statuses,
    column f variance_col = Some variances
    /\ for_each (determine_status tolerance ml vl xl) variances = Return statuses
    /\ f' = setitem f status_col statuses.
Proof.
  unfold add_match_status_frame.
  destruct (status_series _ _ _) as [statuses|] eqn:Hs; [|discriminate].
  intros [= <-]. apply status_series_column in Hs as (variances & Hc & Hf).
  now exists variances, statuses.
Qed.

(** The variance the lambda records for two cells it finds in the row. *)
Lemma variance_of_cells col1 col2 r a b v :
  row_get r col1 = One a ->
  (a <> NA -> row_get r col2 = One b) ->
  variance_of_row col1 col2 r = Return v ->
  (a = NA /\ v = NA)
  \/ (a <> NA /\ b = NA /\ v = NA)
  \/ (exists x y, a = Num x /\ b = Num y /\ v = Num (x - y)).
Proof.
  intros Ha Hb. unfold variance_of_row. rewrite Ha.
  destruct a as [|x|s].
  - intros [= <-]. now left.
  - rewrite (Hb ltac:(discriminate)).
    destruct b as [|y|t]; [intros [= <-]|intros [= <-]|discriminate].
    + right. left. repeat split. discriminate.
    + right. right. now exists x, y.
  - rewrite (Hb ltac:(discriminate)).
    destruct b; [intros [= <-]| |]; try discriminate.
    right. left. repeat split. discriminate.
Qed.
End RowFacts.

Section StatusRowFacts.
Import Pandas DataframeHelpers ApiValidate ReconcilePredicates.
Local Open Scope Q_scope.

Lemma sub_cells_difference a b v : sub_cells a b = Return v -> v = difference a b.
Proof.
  destruct a as [|x|s], b as [|y|t]; cbn; try discriminate; now intros [= <-].
Qed.

Lemma difference_not_text a b s : difference a b <> Str s.
Proof. destruct a, b; discriminate. Qed.

(** The status recorded for a row whose variance was taken from the cells
    [a] and [b]. *)
Lemma status_of_variance_row tolerance col1 col2 r a b v status :
  row_get r col1 = One a \/ row_get r col1 = Many ->
  row_get r col2 = One b \/ row_get r col2 = Many ->
  variance_of_row col1 col2 r = Return v ->
  determine_status tolerance "Match" "Variance" "Data Missing" v = Return status ->
  status = Str (expected_status tolerance a b).
Proof.
  intros [Ha|Ha] Hb; unfold variance_of_row; rewrite Ha; [|discriminate].
  destruct a as [|x|s].
  - intros [= <-] [= <-]. reflexivity.
  - destruct Hb as [Hb|Hb]; rewrite Hb; [|discriminate].
    destruct b as [|y|t]; [intros [= <-] [= <-]; reflexivity| |discriminate].
    intros [= <-]. unfold determine_status, expected_status.
    destruct (Qlt_le_dec (Qabs (x - y)) tolerance) as [Hlt|Hle].
    + destruct (Qle_bool tolerance (Qabs (x - y))) eqn:Hb'.
      * apply Qle_bool_iff in Hb'. exfalso. apply (Qlt_not_le _ _ Hlt Hb').
      * now intros [= <-].
    + apply Qle_bool_iff in Hle. rewrite Hle. now intros [= <-].
  - destruct Hb as [Hb|Hb]; rewrite Hb; [|discriminate].
    destruct b as [|y|t]; [intros [= <-] [= <-]; reflexivity|discriminate|discriminate].
Qed.

(** The status column after a variance has been taken from the frame [f]
    and the status derived from it, possibly after other columns were
    assigned in between. *)
Lemma status_column_after_variance f col1 col2 variance_col f1 f2 out tolerance i a b :
  calculate_variance_frame f col1 col2 variance_col = Return f1 ->
  column f2 variance_col = column f1 variance_col ->
  add_match_status_frame f2 variance_col "match_status" tolerance
                         "Match" "Variance" "Data Missing" = Return out ->
  (i < index_length f)%nat ->
  row_get (row f i) col1 = One a \/ row_get (row f i) col1 = Many ->
  row_get (row f i) col2 = One b \/ row_get (row f i) col2 = Many ->
  has_column out "match_status" = true
  /\ forall statuses, In ("match_status", statuses) (data out) ->
       statuses !! i = Some (Str (expected_status tolerance a b)).
Proof.
  intros Hcv Hsame Hstatus Hi Ha Hb.
  apply calculate_variance_frame_inv in Hcv as (values & Hrows & ->).
  apply add_match_status_frame_inv in Hstatus
    as (variances & statuses & Hcol & Heach & ->).
  rewrite Hsame in Hcol. apply column_setitem_same in Hcol as ->.
  destruct (apply_rows_at _ _ _ i Hrows Hi) as (v & Hv & Hrow).
  destruct (for_each_lookup _ _ _ i v Heach Hv) as (status & Hst & Hdet).
  rewrite (status_of_variance_row _ _ _ _ a b v status Ha Hb Hrow Hdet) in Hst.
  split.
  - apply (proj1 (proj2 (proj2 (setitem_spec f2 "match_status" statuses)))).
  - intros statuses' Hin. now rewrite (setitem_labelled _ _ _ _ Hin).
Qed.

End StatusRowFacts.

Section AccountFacts.
Import Pandas DataframeHelpers ApiValidate ApiValidateAccounts ReconcilePredicates.

(** Without a label that names the account, the normalised web frame has
    no [account_id] column. *)
Lemma has_column_normalize_account web_df :
  (forall label, In label (columns web_df) -> ~ names_account label) ->
  has_column (normalize_column_names web_df mapping_rules) "account_id" = false.
Proof.
  intros Hnone. unfold has_column, columns.
  destruct (existsb _ _) eqn:He; [|reflexivity]. exfalso.
  apply existsb_exists in He as (c & Hin & Heq). apply String.eqb_eq in Heq.
  subst c. rewrite normalize_column_names_data in Hin.
  apply in_map_iff in Hin as (q & Hq & Hin).
  apply in_map_iff in Hin as (p & <- & Hp). cbn [fst] in Hq.
  assert (Hlabel : In (fst p) (columns web_df)) by (apply in_map, Hp).
  specialize (Hnone _ Hlabel). unfold names_account in Hnone.
  unfold mapping_rules in Hq. cbn [first_rule] in Hq.
  destruct (all_present (lower (fst p)) ["account"; "id"]) eqn:H1.
  { apply all_present_spec with (keyword := "account") in H1 as Ha; [|now left].
    apply (proj1 (all_present_spec _ _)) with (keyword := "id") in H1;
      [|right; now left].
    apply Hnone. split; [exact Ha | now left]. }
  destruct (all_present (lower (fst p)) ["account"; "number"]) eqn:H2.
  { apply all_present_spec with (keyword := "account") in H2 as Ha; [|now left].
    apply (proj1 (all_present_spec _ _)) with (keyword := "number") in H2;
      [|right; now left].
    apply Hnone. split; [exact Ha | now right]. }
  destruct (all_present (lower (fst p)) ["total"; "balance"]);
    [discriminate Hq|].
  destruct (all_present (lower (fst p)) ["available"; "balance"]);
    [discriminate Hq|].
  cbn in Hq. rewrite Hq in H1. vm_compute in H1. discriminate H1.
Qed.
End AccountFacts.

Section SummaryFacts.
Import Pandas DataframeHelpers ApiValidate ReconcilePredicates.
Local Open Scope Q_scope.

(** Columns under a new label after relabelling. *)
Lemma column_relabel (r : string -> string) df n old new :
  (forall c, In c (columns df) -> (r c = new <-> c = old)) ->
  column {| index_length := n;
            data := map (fun p => (r (fst p), snd p)) (data df) |} new
  = column df old.
Proof.
  intros Hr. unfold column; cbn [data]. unfold columns in Hr.
  assert (Hf : List.filter (fun p => String.eqb (fst p) new)
                 (map (fun p => (r (fst p), snd p)) (data df))
               = map (fun p => (r (fst p), snd p))
                     (List.filter (fun p => String.eqb (fst p) old) (data df))).
  { induction (data df) as [|p rest IH]; cbn; [reflexivity|].
    assert (Hp : String.eqb (r (fst p)) new = String.eqb (fst p) old).
    { specialize (Hr (fst p) ltac:(now left)).
      destruct (String.eqb_spec (r (fst p)) new), (String.eqb_spec (fst p) old);
        tauto. }
    rewrite Hp, IH by (intros c Hc; apply Hr; now right).
    now destruct (String.eqb (fst p) old). }
  rewrite Hf.
  now destruct (List.filter _ (data df)) as [|p [|q rest]].
Qed.

Lemma setitem_other_in df col values c vs :
  In (c, vs) (data (setitem df col values)) -> c <> col -> In (c, vs) (data df).
Proof.
  unfold setitem; cbn [data]. intros Hin Hne.
  destruct (has_column df col).
  - apply in_map_iff in Hin as (p & Hp & Hin).
    destruct (String.eqb_spec (fst p) col) as [He|_].
    + injection Hp as <- _. contradiction.
    + now subst p.
  - apply in_app_or in Hin as [Hin|[[= <- _]|[]]]; [exact Hin | contradiction].
Qed.

Lemma has_column_setitem_kept df col values c :
  has_column df c = true -> has_column (setitem df col values) c = true.
Proof.
  intros Hc. unfold has_column in *.
  rewrite (proj1 (proj2 (setitem_spec df col values))).
  destruct (has_column df col); [exact Hc|].
  rewrite existsb_app, Hc. reflexivity.
Qed.

(** The labels of a grouped summary after the count column and the two
    sums have been renamed. *)
Lemma summary_labels grouped :
  rename {[ "debit" := "total_debits"; "credit" := "total_credits" ]}
    {| index_length := index_length grouped;
       data := map (fun p => if String.eqb (fst p) "transaction_id"
                             then ("transaction_count", snd p) else p)
                   (data grouped) |}
  = {| index_length := index_length grouped;
       data := map (fun p =>
                      (if String.eqb (fst p) "transaction_id" then "transaction_count"
                       else if String.eqb (fst p) "debit" then "total_debits"
                       else if String.eqb (fst p) "credit" then "total_credits"
                       else fst p, snd p)) (data grouped) |}.
Proof.
  unfold rename; cbn [index_length data]. f_equal. rewrite map_map.
  apply map_ext. intros [c vs]. cbn [fst snd].
  destruct (String.eqb_spec c "transaction_id") as [->|N1]; [reflexivity|].
  cbn [fst snd].
  destruct (String.eqb_spec c "debit") as [->|N2]; [reflexivity|].
  destruct (String.eqb_spec c "credit") as [->|N3]; [reflexivity|].
  rewrite lookup_insert_ne by congruence.
  rewrite lookup_singleton_ne by congruence. reflexivity.
Qed.
End SummaryFacts.

(* ===================================================================== *)
(** ** Facts about the account retrieval *)
(* ===================================================================== *)

Section RetrieveFacts.
Import RetryHandler RunPredicates Client Pandas ApiValidate Utils ApiRetrieve.
Context {W : Type}.
Variable api_accounts : W -> outcome json * W.
Variable api_get_account_details : string -> W -> outcome json * W.
Variable str_of : json -> string.
Variable cell_of : json -> cell.
Local Open Scope Q_scope.

(** Exhaustion on status 500, connect errors and timeouts ends in
    [MaxRetriesExceededError]. *)
Lemma with_api_retry_transient_exhausts {A : Type} (time_sleep : Q -> W -> W)
      (random_random : W -> Q * W) max_retries backoff_factor max_backoff jitter
      (func : W -> outcome A * W) func_name w :
  (0 <= max_retries)%Z ->
  always_transient func ->
  exists m attempts last c cause w' k,
    with_api_retry time_sleep random_random max_retries backoff_factor max_backoff
                   jitter func func_name w
    = (Raise (MaxRetriesExceededError m attempts last c cause), w', k).
Proof.
  intros Hmax Hall.
  assert (Hre : always_retryable func).
  { intros w0. destruct (Hall w0) as (e & w1 & Hf & Hr & _). now exists e, w1. }
  destruct (wrapper_loop_exhausts time_sleep random_random max_retries
              backoff_factor max_backoff jitter func func_name
              (wrapper_fuel max_retries) 0%Z None w no_stats Hre)
    as (ef & el & wp & w' & k & Hrun & Hlast & _ & _ & _ & Hclass);
    [lia | unfold wrapper_fuel; lia |].
  destruct (Hall wp) as (e & w1 & Hf & _ & Hne).
  rewrite Hlast in Hf. injection Hf as <- _.
  destruct (Hclass Hne) as (m & c & -> & _).
  exists m, (max_retries + 1)%Z, (Some el), c, (Some el), w', k.
  unfold with_api_retry, wrapper. now rewrite Hrun.
Qed.

Lemma detailed_entry_inv account_id details entry :
  detailed_entry cell_of account_id details = Return entry ->
  map fst entry = record_keys /\ field "account_id" entry = Str account_id.
Proof.
  unfold detailed_entry. destruct details as [| | | | |items]; try discriminate.
  unfold bind.
  destruct (clean_account_name_of _); [|discriminate].
  destruct (parse_money_of (get_or items "balance" _)); [|discriminate].
  destruct (parse_money_of (get_or items "availableBalance" _)); [|discriminate].
  intros [= <-]. split; reflexivity.
Qed.

(** The loop adds one record per listed id, in order, and nothing else. *)
Lemma details_loop_ids accounts : forall detailed w out w',
  details_loop api_get_account_details str_of cell_of accounts detailed w
  = (Return out, w') ->
  Forall (fun r => map fst r = record_keys) detailed ->
  Forall (fun r => map fst r = record_keys) out
  /\ map (field "account_id") out
     = map (field "account_id") detailed ++ map Str (listed_ids str_of accounts).
Proof.
  induction accounts as [|account rest IH]; intros detailed w out w'.
  - cbn. intros [= <- _] Hk. split; [exact Hk | now rewrite app_nil_r].
  - cbn [details_loop]. unfold listed_ids. cbn [omap list_omap].
    fold (omap (account_id_of str_of) rest).
    destruct (account_id_of str_of account) as [account_id|]; [|apply IH].
    cbn [List.filter].
    destruct (String.eqb_spec account_id "") as [->|Hid]; cbn [negb]; [apply IH|].
    destruct (api_get_account_details account_id w) as [[details|e] w1].
    + destruct (detailed_entry cell_of account_id details) as [entry|] eqn:He;
        [|discriminate].
      apply detailed_entry_inv in He as [Hkeys Hfield].
      intros Hrun Hk.
      destruct (IH _ _ _ _ Hrun) as [Hout Hids].
      { apply Forall_app. split; [exact Hk | now constructor]. }
      split; [exact Hout|].
      rewrite Hids, map_app. cbn [map]. rewrite Hfield, <- app_assoc. reflexivity.
    + destruct (String.eqb (class_of e) "APIAuthenticationError"); [discriminate|].
      destruct (is_api_error e); [|discriminate].
      intros Hrun Hk.
      destruct (IH _ _ _ _ Hrun) as [Hout Hids].
      { apply Forall_app. split; [exact Hk | now constructor]. }
      split; [exact Hout|].
      rewrite Hids, map_app. cbn [map]. rewrite <- app_assoc. reflexivity.
Qed.
End RetrieveFacts.

Section RetrieveTransactionsFacts.
Import RetryHandler Client Pandas ApiValidate ApiRetrieve.
Context {W : Type}.
Variable api_transactions : string -> W -> outcome json * W.
Variable to_str : cell -> string.
Variable series_str : list (string * cell) -> string.
Variable cell_of : json -> cell.

Lemma row_get_present df i c :
  has_column df c = true -> row_get (row df i) c <> Absent.
Proof.
  intros Hc. apply has_column_true in Hc as (vs & Hin).
  rewrite row_get_row.
  assert (Hf : In (c, vs) (List.filter (fun p => String.eqb (fst p) c) (data df))).
  { apply filter_In. split; [exact Hin | apply String.eqb_refl]. }
  destruct (List.filter _ (data df)) as [|p [|q rest]]; [destruct Hf | |]; discriminate.
Qed.

(** When the transactions of no account can be fetched, the loop ends
    with the records it started with. *)
Lemma accounts_loop_all_fail rows : forall all_transactions w,
  Forall (fun r => row_get r "account_id" <> Absent) rows ->
  (forall account_id w0, exists e w1,
     api_transactions account_id w0 = (Raise e, w1)
     /\ is_api_error e = true /\ class_of e <> "APIAuthenticationError") ->
  exists w',
    accounts_loop api_transactions to_str series_str cell_of rows all_transactions w
    = (Return all_transactions, w').
Proof.
  induction rows as [|account rest IH]; intros acc w Hrows Hfail.
  - now exists w.
  - apply Forall_cons in Hrows as [Hrow Hrest]. cbn [accounts_loop].
    assert (Hstep : forall account_id,
              exists w',
                match api_transactions account_id w with
                | (Return transactions, w0) =>
                  match Client.len transactions with
                  | Raise e => (Raise e, w0)
                  | Return _ =>
                    match transactions_loop cell_of account_id (elements transactions)
                                            acc with
                    | Raise e => (Raise e, w0)
                    | Return all_transactions =>
                      accounts_loop api_transactions to_str series_str cell_of rest
                                    all_transactions w0
                    end
                  end
                | (Raise e, w0) =>
                  if String.eqb (class_of e) "APIAuthenticationError" then (Raise e, w0)
                  else if is_api_error e
                       then accounts_loop api_transactions to_str series_str cell_of
                                          rest acc w0
                       else (Raise e, w0)
                end = (Return acc, w')).
    { intros account_id. destruct (Hfail account_id w) as (e & w1 & -> & Hapi & Hne).
      destruct (String.eqb_spec (class_of e) "APIAuthenticationError");
        [contradiction|].
      rewrite Hapi. apply (IH acc w1 Hrest Hfail). }
    destruct (row_get account "account_id") as [|v|]; [contradiction | |];
      apply Hstep.
Qed.
End RetrieveTransactionsFacts.

(* ===================================================================== *)
(** ** The HTTP retry engine: statuses, exhaustion, backoff *)
(* ===================================================================== *)

Section RetryClaims.
Import RetryHandler.

(** C3, as amended.  When the wrapped callable raises an HTTP status error
    with status 400, 401, 403 or 501 (and [max_retries >= 0]), the engine
    invokes it exactly once, never sleeps, and raises at once an error whose
    cause is that status error: [APIAuthenticationError] for 401, and the
    generic [APIError] for 400, 403 and 501. *)
Theorem with_api_retry_client_status
    {W A : Type} (time_sleep : Q -> W -> W) (random_random : W -> Q * W)
    (max_retries : Z) (backoff_factor max_backoff : Q) (jitter : bool)
    (func : W -> outcome A * W) (func_name : string)
    (w w1 : W) (msg : string) (status : Z) (text : string) :
  (0 <= max_retries)%Z ->
  func w = (Raise (HTTPStatusError msg status text), w1) ->
  In status [400; 401; 403; 501]%Z ->
  exists e,
    with_api_retry time_sleep random_random max_retries backoff_factor
                   max_backoff jitter func func_name w
    = (Raise e, w1, {| invocations := 1; sleeps := [] |})
    /\ cause_of e = Some (HTTPStatusError msg status text)
    /\ (status = 401%Z -> class_of e = "APIAuthenticationError")
    /\ (In status [400; 403; 501]%Z -> class_of e = "APIError").
Proof.
  intros Hmax Hf Hin.
  assert (Hne : status <> 500%Z) by (cbn in Hin; lia).
  destruct (wrapper_loop_terminal_status time_sleep random_random max_retries
              backoff_factor max_backoff jitter func func_name
              (Z.to_nat (max_retries + 1)) 0%Z None w no_stats msg status text w1
              Hmax Hf Hne) as (e & Hrun & Hcause & Hclass).
  exists e. unfold with_api_retry, wrapper, wrapper_fuel. rewrite Hrun.
  split; [reflexivity|]. split; [exact Hcause|].
  split; intros Hs.
  - subst status. exact Hclass.
  - destruct (Z.eqb_spec status 401); [cbn in Hs; lia | exact Hclass].
Qed.

Lemma with_api_retry_client_status_witness :
  exists e,
    run_forbidden = (Raise e, tt, {| invocations := 1; sleeps := [] |})
    /\ cause_of e
       = Some (HTTPStatusError "Client error '403 Forbidden'" 403 "Forbidden")
    /\ (403%Z = 401%Z -> class_of e = "APIAuthenticationError")
    /\ (In 403%Z [400; 403; 501]%Z -> class_of e = "APIError").
Proof.
  apply (with_api_retry_client_status (fun _ w => w) (fun w => (0%Q, w)) 3 2 32
           true forbidden_call "accounts" tt tt
           "Client error '403 Forbidden'" 403 "Forbidden").
  - lia.
  - reflexivity.
  - cbn. tauto.
Defined.

(** C3 as stated fails at status 403: the engine raises the generic
    [APIError], not [APIAuthenticationError]. *)
Lemma with_api_retry_403_is_generic :
  exists e,
    run_forbidden = (Raise e, tt, {| invocations := 1; sleeps := [] |})
    /\ class_of e = "APIError"
    /\ class_of e <> "APIAuthenticationError".
Proof.
  eexists. split; [vm_compute; reflexivity|].
  split; [reflexivity | discriminate].
Qed.

(** C4.  When every invocation of the wrapped callable raises an HTTP 500
    status error (and [max_retries >= 0]), the engine sleeps exactly
    [max_retries] times, invokes the callable [max_retries + 1] times, and
    raises [MaxRetriesExceededError] with [attempts = max_retries + 1] whose
    [last_error] and cause are the 500 error of the last invocation. *)
Theorem with_api_retry_500_exhausts
    {W A : Type} (time_sleep : Q -> W -> W) (random_random : W -> Q * W)
    (max_retries : Z) (backoff_factor max_backoff : Q) (jitter : bool)
    (func : W -> outcome A * W) (func_name : string) (w : W) :
  (0 <= max_retries)%Z ->
  (forall w0, exists m t w1, func w0 = (Raise (HTTPStatusError m 500 t), w1)) ->
  exists message m t w_prev w' k,
    with_api_retry time_sleep random_random max_retries backoff_factor
                   max_backoff jitter func func_name w
    = (Raise (MaxRetriesExceededError message (max_retries + 1)
                (Some (HTTPStatusError m 500 t)) (Some 500%Z)
                (Some (HTTPStatusError m 500 t))), w', k)
    /\ func w_prev = (Raise (HTTPStatusError m 500 t), w')
    /\ length (sleeps k) = Z.to_nat max_retries
    /\ invocations k = Z.to_nat (max_retries + 1).
Proof.
  intros Hmax H500.
  assert (Hall : always_retryable func).
  { intros w0. destruct (H500 w0) as (m & t & w1 & Hf).
    exists (HTTPStatusError m 500 t), w1. split; [exact Hf | reflexivity]. }
  destruct (wrapper_loop_exhausts time_sleep random_random max_retries
              backoff_factor max_backoff jitter func func_name
              (wrapper_fuel max_retries) 0%Z None w no_stats Hall)
    as (ef & el & wp & w' & k & Hrun & Hprev & _ & Hinv & Hsl & Hshape);
    [lia | unfold wrapper_fuel; lia |].
  destruct (H500 wp) as (m & t & w1 & Hf).
  rewrite Hf in Hprev. injection Hprev as <- <-.
  destruct Hshape as (message & c & -> & Hc); [discriminate|].
  rewrite (Hc eq_refl) in Hrun.
  exists message, m, t, wp, w1, k.
  unfold with_api_retry, wrapper. rewrite Hrun.
  split; [reflexivity|]. split; [exact Hf|].
  cbn in Hinv, Hsl. split; [rewrite Hsl | rewrite Hinv]; f_equal; lia.
Qed.

Lemma with_api_retry_500_exhausts_witness :
  exists message m t w_prev w' k,
    with_api_retry (fun _ w => w) (fun w => (0%Q, w)) 3 2 32 true
                   server_down "accounts" tt
    = (Raise (MaxRetriesExceededError message (3 + 1)
                (Some (HTTPStatusError m 500 t)) (Some 500%Z)
                (Some (HTTPStatusError m 500 t))), w', k)
    /\ server_down w_prev = (Raise (HTTPStatusError m 500 t), w')
    /\ length (sleeps k) = Z.to_nat 3
    /\ invocations k = Z.to_nat (3 + 1).
Proof.
  apply (with_api_retry_500_exhausts (fun _ w => w) (fun w => (0%Q, w)) 3 2 32
           true server_down "accounts" tt).
  - lia.
  - intros w0. do 3 eexists. reflexivity.
Defined.

End RetryClaims.

Section AttemptCountClaims.
Import RetryHandler SessionHandler.

(** C5 at [max_retries = 2], on callables that fail on every invocation
    with an error each engine classifies as retryable.  The HTTP engine
    invokes the callable three times.  The session engine invokes it twice
    only, both without a login page and when every re-authentication
    succeeds; in the latter run the second failure ends the loop and the
    original error is raised from the statement after it. *)
Theorem invocations_at_two_retries :
  invocations (snd (with_api_retry (fun _ w => w) (fun w => (0%Q, w)) 2 2 32 true
                      read_timeout "authenticate" tt)) = 3%nat
  /\ session_classified (Exception_ "TimeoutError" "Timeout 30000ms exceeded.") = true
  /\ invocations (snd (with_session_retry (fun _ w => w) false None
                         (fun w => (Return false, w)) (fun _ w => (Return tt, w))
                         (fun _ _ w => (Return tt, w)) ok_page
                         DEFAULT_MAX_RETRIES page_timeout "run" tt)) = 2%nat
  /\ with_session_retry (fun _ w => w) true (Some stored_credentials)
                        (fun w => (Return true, w)) (fun _ w => (Return tt, w))
                        (fun _ _ w => (Return tt, w)) ok_page
                        DEFAULT_MAX_RETRIES page_timeout "run" tt
     = (Raise (Exception_ "TimeoutError" "Timeout 30000ms exceeded."), tt,
        {| invocations := 2; sleeps := [inject_Z 2; inject_Z 4] |}).
Proof.
  repeat split; vm_compute; reflexivity.
Qed.

End AttemptCountClaims.

Section BackoffClaims.
Import RetryHandler.
Local Open Scope Q_scope.

(** C6, as amended.  With draws of [random.random()] in [0, 1] and
    [1 <= n <= m]: the wait for attempt [n] is
    [min(backoff_factor^(n-1), max_backoff)] without jitter, and that value
    plus [uniform(0, 0.1 * value)] with jitter.  The value without jitter is
    non-decreasing in the attempt number when [backoff_factor >= 1]; the
    jittered waits are non-decreasing from attempt [n] to a later attempt
    [m] that is not yet capped when [backoff_factor >= 1.1]; and no wait
    exceeds [1.1 * max_backoff] when [max_backoff >= 0]. *)
Theorem calculate_backoff_bounds
    {W : Type} (random_random : W -> Q * W) (backoff_factor max_backoff : Q)
    (n m : Z) (w w' : W) :
  (forall w0, 0 <= fst (random_random w0) <= 1) ->
  (1 <= n <= m)%Z ->
  let wait a j x :=
    fst (_calculate_backoff random_random a backoff_factor max_backoff j x) in
  let capped a := Qmin (backoff_factor ^ (a - 1)) max_backoff in
  wait n false w = capped n
  /\ wait n true w
     = capped n + uniform 0 (capped n * (1 # 10)) (fst (random_random w))
  /\ (1 <= backoff_factor -> capped n <= capped m)
  /\ (11 # 10 <= backoff_factor -> (n < m)%Z ->
      backoff_factor ^ (m - 1) <= max_backoff ->
      wait n true w <= wait m true w')
  /\ (0 <= max_backoff -> forall j, wait n j w <= max_backoff * (11 # 10)).
Proof.
  intros Hdraw [Hn Hnm] wait capped.
  assert (Hj : forall a x, wait a true x
      = capped a + uniform 0 (capped a * (1 # 10)) (fst (random_random x)))
    by (intros; apply wait_jitter).
  split; [reflexivity|]. split; [apply Hj|].
  split; [intros Hbf; now apply capped_mono|].
  split.
  - intros Hbf Hlt Hcap.
    assert (H1 : 1 <= backoff_factor) by lra.
    assert (Hpos : 0 < backoff_factor ^ (n - 1))
      by (apply Qpower_0_lt; lra).
    assert (Hcn : capped n == backoff_factor ^ (n - 1)).
    { apply Q.min_l. eapply Qle_trans; [|exact Hcap].
      apply Qpower_le_compat_l; [lia | exact H1]. }
    assert (Hcm : capped m == backoff_factor ^ (m - 1))
      by (apply Q.min_l; exact Hcap).
    assert (Hpow : backoff_factor ^ n == backoff_factor ^ (n - 1) * backoff_factor).
    { replace n with ((n - 1) + 1)%Z at 1 by lia.
      rewrite Qpower_plus by lra. now rewrite Qpower_1_r. }
    assert (Hstep : backoff_factor ^ n <= backoff_factor ^ (m - 1))
      by (apply Qpower_le_compat_l; [lia | exact H1]).
    assert (Hgrow : backoff_factor ^ (n - 1) * (11 # 10)
                    <= backoff_factor ^ (n - 1) * backoff_factor)
      by (apply Qmult_le_l; assumption).
    rewrite !Hj.
    pose proof (jittered_range (capped n) (fst (random_random w))) as Hlo.
    pose proof (jittered_range (capped m) (fst (random_random w'))) as Hhi.
    assert (0 <= capped n) by (rewrite Hcn; lra).
    assert (0 <= capped m) by (rewrite Hcm; lra).
    specialize (Hlo ltac:(assumption) (Hdraw w)).
    specialize (Hhi ltac:(assumption) (Hdraw w')).
    lra.
  - intros Hmax j.
    assert (Hcap : capped n <= max_backoff) by apply Q.le_min_r.
    destruct j; [rewrite Hj | change (wait n false w) with (capped n); lra].
    destruct (Qlt_le_dec (capped n) 0) as [Hneg|Hnn].
    + pose proof (Hdraw w) as [Hu0 Hu1]. unfold uniform.
      assert (0 <= fst (random_random w) * - capped n)
        by (apply Qmult_le_0_compat; lra).
      lra.
    + pose proof (jittered_range (capped n) (fst (random_random w)) Hnn (Hdraw w)).
      lra.
Qed.

Lemma calculate_backoff_bounds_witness :
  let wait a j x := fst (_calculate_backoff alternating_draw a 2 32 j x) in
  let capped a := Qmin (2 ^ (a - 1)) 32 in
  wait 2%Z false true = capped 2%Z
  /\ wait 2%Z true true
     = capped 2%Z + uniform 0 (capped 2%Z * (1 # 10)) (fst (alternating_draw true))
  /\ (1 <= 2 -> capped 2%Z <= capped 5%Z)
  /\ (11 # 10 <= 2 -> (2 < 5)%Z -> 2 ^ (5 - 1) <= 32 ->
      wait 2%Z true true <= wait 5%Z true false)
  /\ (0 <= 32 -> forall j, wait 2%Z j true <= 32 * (11 # 10)).
Proof.
  apply (calculate_backoff_bounds alternating_draw 2 32 2 5 true false).
  - intros [|]; cbn; split; discriminate.
  - lia.
Defined.

(** C6 as stated fails.  With jitter disabled and [backoff_factor = 1/2]
    the wait drops from attempt 1 to attempt 2.  With the defaults
    ([backoff_factor = 2], [max_backoff = 32], jitter enabled) the wait of
    attempt 6 with draw 1/2 exceeds the wait of attempt 7 with draw 0.  With
    [backoff_factor = 1.01], far below the cap, the wait of attempt 1 with
    draw 1/2 exceeds the wait of attempt 2 with draw 0.  With a negative
    [max_backoff] the wait exceeds [1.1 * max_backoff]. *)
Lemma calculate_backoff_not_monotone :
  fst (_calculate_backoff alternating_draw 2 (1 # 2) 32 false true)
  < fst (_calculate_backoff alternating_draw 1 (1 # 2) 32 false true)
  /\ fst (_calculate_backoff alternating_draw 7 2 32 true false)
     < fst (_calculate_backoff alternating_draw 6 2 32 true true)
  /\ fst (_calculate_backoff alternating_draw 2 (101 # 100) 32 true false)
     < fst (_calculate_backoff alternating_draw 1 (101 # 100) 32 true true)
  /\ (-10) * (11 # 10)
     < fst (_calculate_backoff alternating_draw 1 2 (-10) false true).
Proof.
  repeat split; vm_compute; reflexivity.
Qed.
End BackoffClaims.

(* ===================================================================== *)
(** ** The API client: token freshness and response unwrapping *)
(* ===================================================================== *)

Section ClientClaims.
Import RetryHandler Client.
Local Open Scope Q_scope.

(** C7, as amended.  A stored token is used without re-authentication
    exactly while [now <= exp - 300] (it counts as expired exactly when
    [exp - now < 300]), and a missing token counts as expired.  Each of
    [accounts], [get_account_details] and [transactions] first ensures the
    token: with a usable token it goes straight to its request; otherwise it
    runs [authenticate] first, raises what [authenticate] raises, and sends
    its request only after [authenticate] has returned.  A token with
    [exp = t0 + 3600] is expired at [t0 + 3301] and usable at [t0 + 3000]. *)
Theorem token_ensured_before_fetch
    {W : Type} (time_time : W -> Q) (time_sleep : Q -> W -> W)
    (random_random : W -> Q * W)
    (client_post : string -> json -> list (string * string) -> W -> outcome response * W)
    (client_get : string -> list (string * string) -> W -> outcome response * W)
    (st : AltoroAPI * W) (account_id : string) (start end_ : option string) :
  let expired := _is_token_expired time_time st in
  let login := authenticate time_time time_sleep random_random client_post in
  let after_login {A} (fetch : AltoroAPI * W -> outcome A * (AltoroAPI * W)) :=
    match login st with
    | (Raise e, st') => (Raise e, st')
    | (Return _, st') => fetch st'
    end in
  (_tok (fst st) = None -> expired = true)
  /\ (forall t, _tok (fst st) = Some t ->
        (expired = false <-> time_time (snd st) <= exp t - 300)
        /\ (expired = true <-> exp t - time_time (snd st) < 300)
        /\ (forall t0, exp t == t0 + 3600 ->
              (time_time (snd st) == t0 + 3301 -> expired = true)
              /\ (time_time (snd st) == t0 + 3000 -> expired = false)))
  /\ (expired = false ->
        accounts_body time_time time_sleep random_random client_post client_get st
        = accounts_fetch client_get st
        /\ get_account_details_body time_time time_sleep random_random
             client_post client_get account_id st
           = get_account_details_fetch client_get account_id st
        /\ transactions_body time_time time_sleep random_random client_post
             client_get account_id start end_ st
           = transactions_fetch client_post client_get account_id start end_ st)
  /\ (expired = true ->
        accounts_body time_time time_sleep random_random client_post client_get st
        = after_login (accounts_fetch client_get)
        /\ get_account_details_body time_time time_sleep random_random
             client_post client_get account_id st
           = after_login (get_account_details_fetch client_get account_id)
        /\ transactions_body time_time time_sleep random_random client_post
             client_get account_id start end_ st
           = after_login (transactions_fetch client_post client_get account_id
                                             start end_)).
Proof.
  intros expired login after_login.
  assert (Hiff : forall t, _tok (fst st) = Some t ->
            (expired = false <-> 300 <= exp t - time_time (snd st))).
  { intros t Ht. subst expired. unfold _is_token_expired. rewrite Ht.
    unfold TOKEN_REFRESH_BUFFER. rewrite negb_false_iff. apply Qle_bool_iff. }
  split; [|split; [|split]].
  - intros Hnone. subst expired. unfold _is_token_expired. now rewrite Hnone.
  - intros t Ht. specialize (Hiff t Ht).
    assert (Hexp : expired = true <-> exp t - time_time (snd st) < 300).
    { split.
      - intros He. apply Qnot_le_lt. intros Hle. apply Hiff in Hle. congruence.
      - intros Hlt. destruct expired; [reflexivity|].
        exfalso. apply (Qlt_not_le _ _ Hlt). now apply Hiff. }
    split; [|split; [exact Hexp|]].
    + rewrite Hiff. split; intros H; lra.
    + intros t0 Ht0. split; intros Hnow.
      * apply Hexp. lra.
      * apply Hiff. lra.
  - intros Hfresh.
    unfold accounts_body, get_account_details_body, transactions_body,
      _ensure_valid_token.
    fold expired. rewrite Hfresh. auto.
  - intros Hstale.
    unfold accounts_body, get_account_details_body, transactions_body,
      _ensure_valid_token.
    fold expired. rewrite Hstale. subst after_login login. cbn beta.
    destruct (authenticate _ _ _ _ st) as [[[]|e] st']; auto.
Qed.
End ClientClaims.

Section ClientClaimsAtFixtures.
Import RetryHandler Client.
Local Open Scope Q_scope.

Lemma token_ensured_before_fetch_witness :
  _is_token_expired id (client_at 3301) = true
  /\ _is_token_expired id (client_at 3000) = false
  /\ accounts_body id clock_sleep no_jitter canned_post canned_get (client_at 3000)
     = accounts_fetch canned_get (client_at 3000)
  /\ accounts_body id clock_sleep no_jitter canned_post canned_get (client_at 3301)
     = match authenticate id clock_sleep no_jitter canned_post (client_at 3301) with
       | (Raise e, st') => (Raise e, st')
       | (Return _, st') => accounts_fetch canned_get st'
       end.
Proof.
  destruct (token_ensured_before_fetch id clock_sleep no_jitter canned_post
              canned_get (client_at 3301) "800002" None None)
    as (_ & Hstale & _ & Hlogin).
  destruct (token_ensured_before_fetch id clock_sleep no_jitter canned_post
              canned_get (client_at 3000) "800002" None None)
    as (_ & Hfresh & Hfetch & _).
  destruct (Hstale _ eq_refl) as (_ & _ & Hs).
  destruct (Hfresh _ eq_refl) as (_ & _ & Hf).
  assert (H1 : _is_token_expired id (client_at 3301) = true)
    by (apply (Hs 0); reflexivity).
  assert (H2 : _is_token_expired id (client_at 3000) = false)
    by (apply (Hf 0); reflexivity).
  split; [exact H1|]. split; [exact H2|].
  split; [apply (Hfetch H2) | apply (Hlogin H1)].
Defined.

(** C7 as stated fails at the edge of the refresh buffer: at
    [now = exp - 300] the token is not expired for the client, which uses it
    without re-authenticating, although [now < exp - 300] does not hold. *)
Lemma token_usable_at_buffer_edge :
  _is_token_expired id (client_at 3300) = false
  /\ accounts_body id clock_sleep no_jitter canned_post canned_get (client_at 3300)
     = accounts_fetch canned_get (client_at 3300)
  /\ ~ (3300 < 3600 - 300).
Proof.
  split; [reflexivity|]. split; [reflexivity|].
  intros H. vm_compute in H. discriminate H.
Qed.

(** C9.  What [transactions] returns.  The request of the call (a POST
    when both dates are given, a GET otherwise) is answered with a 2xx
    status and the JSON value [response].  If [response] is a dict, the call
    returns the first of its fields [transactions], [lastTenTransactions],
    [Transactions] (in this order) that is truthy, and the empty list when
    none is; if [response] is a bare array, the call returns it unchanged;
    for any other value it returns the empty list.  This holds of the
    request-and-unwrap step for every client state, and of the decorated
    method whenever the token is usable; the world is the one the request
    left.  (A truthy field that has no length, a number or [true], makes the
    log line raise; arrays, dicts and text have one.) *)
Theorem transactions_unwrapping
    {W : Type} (time_time : W -> Q) (time_sleep : Q -> W -> W)
    (random_random : W -> Q * W)
    (client_post : string -> json -> list (string * string) -> W -> outcome response * W)
    (client_get : string -> list (string * string) -> W -> outcome response * W)
    (st : AltoroAPI * W) (account_id : string) (start end_ : option string)
    (r : response) (w1 : W) (response : json) :
  match date_range start end_ with
  | Some (s, e) =>
    client_post (base (fst st) +:+ "/api/account/" +:+ account_id +:+ "/transactions")
                (JObj [("startDate", JStr s); ("endDate", JStr e)])
                (_headers (fst st)) (snd st)
  | None =>
    client_get (base (fst st) +:+ "/api/account/" +:+ account_id +:+ "/transactions")
               (_headers (fst st)) (snd st)
  end = (Return r, w1) ->
  (200 <= status_code r <= 299)%Z ->
  json_body r = Return response ->
  let returns (v : json) :=
    transactions_fetch client_post client_get account_id start end_ st
    = (Return v, (set_client (fst st), w1))
    /\ (_is_token_expired time_time st = false ->
        transactions time_time time_sleep random_random client_post client_get
                     account_id start end_ st
        = (Return v, (set_client (fst st), w1))) in
  (forall items, response = JObj items ->
     let first := get items "transactions" in
     let second := get items "lastTenTransactions" in
     let third := get items "Transactions" in
     (truthy first = true -> forall n, len first = Return n -> returns first)
     /\ (truthy first = false -> truthy second = true ->
         forall n, len second = Return n -> returns second)
     /\ (truthy first = false -> truthy second = false -> truthy third = true ->
         forall n, len third = Return n -> returns third)
     /\ (truthy first = false -> truthy second = false -> truthy third = false ->
         returns (JArr [])))
  /\ (forall items, response = JArr items -> returns (JArr items))
  /\ ((forall items, response <> JObj items) ->
      (forall items, response <> JArr items) -> returns (JArr [])).
Proof.
  intros Hsent Hstatus Hjson returns.
  assert (Hfetch : transactions_fetch client_post client_get account_id start end_ st
                   = (unwrap_transactions response, (set_client (fst st), w1))).
  { unfold transactions_fetch, _get_client. cbn [fst snd].
    change (base (set_client (fst st))) with (base (fst st)).
    change (_headers (set_client (fst st))) with (_headers (fst st)).
    rewrite Hsent, (raise_for_status_ok r Hstatus), Hjson. reflexivity. }
  assert (Hcall : forall v, unwrap_transactions response = Return v -> returns v).
  { intros v Hv. split.
    - now rewrite Hfetch, Hv.
    - intros Husable. unfold transactions, decorated.
      erewrite with_api_retry_first_return; [reflexivity | lia |].
      unfold transactions_body, _ensure_valid_token.
      now rewrite Husable, Hfetch, Hv. }
  split; [|split].
  - intros items -> first second third.
    split; [|split; [|split]]; intros; apply Hcall;
      unfold unwrap_transactions, extract_transactions, or_else;
      fold first second third;
      repeat match goal with
             | H : truthy _ = _ |- _ => rewrite H; clear H
             | H : len _ = Return _ |- _ => rewrite H; clear H
             end; reflexivity.
  - intros items ->. now apply Hcall.
  - intros Hdict Harr. apply Hcall.
    destruct response; try reflexivity;
      [now destruct (Harr items) | now destruct (Hdict items)].
Qed.

Lemma transactions_unwrapping_witness :
  transactions id clock_sleep no_jitter canned_post recent_get "800002" None None
               (client_at 0)
  = (Return (JArr [JObj [("id", JNum 7)]]), (set_client (fst (client_at 0)), 0))
  /\ transactions id clock_sleep no_jitter bare_array_post canned_get "800002"
                  (Some "2025-02-01") (Some "2025-04-15") (client_at 0)
     = (Return (JArr [JObj [("id", JNum 1)]]), (set_client (fst (client_at 0)), 0)).
Proof.
  split.
  - assert (Hstatus : (200 <= 200 <= 299)%Z) by lia.
    destruct (transactions_unwrapping id clock_sleep no_jitter canned_post recent_get
                (client_at 0) "800002" None None
                {| status_code := 200; text := "";
                   json_body := Return recent_response |}
                0 recent_response eq_refl Hstatus eq_refl) as (Hdict & _ & _).
    destruct (Hdict _ eq_refl) as (_ & Hsecond & _).
    destruct (Hsecond eq_refl eq_refl 1%nat eq_refl) as [_ Hcall].
    exact (Hcall eq_refl).
  - assert (Hstatus : (200 <= 200 <= 299)%Z) by lia.
    destruct (transactions_unwrapping id clock_sleep no_jitter bare_array_post
                canned_get (client_at 0) "800002"
                (Some "2025-02-01") (Some "2025-04-15")
                {| status_code := 200; text := "";
                   json_body := Return (JArr [JObj [("id", JNum 1)]]) |}
                0 (JArr [JObj [("id", JNum 1)]]) eq_refl Hstatus eq_refl)
      as (_ & Harr & _).
    destruct (Harr _ eq_refl) as [_ Hcall].
    exact (Hcall eq_refl).
Defined.
End ClientClaimsAtFixtures.

(* ===================================================================== *)
(** ** Column normalisation, variance and match status *)
(* ===================================================================== *)

Section NormalizeClaims.
Import Pandas DataframeHelpers.

(** C8.  For every table and rule list, the normaliser leaves the rows
    untouched and treats each column on its own: with [col] the label at
    position [i], the label there becomes the canonical name of the first
    rule (in list order) all of whose keywords are substrings of
    [col.lower()], and stays [col] when no rule matches.  The rule
    ({"account","id"}, "account_id") matches "Account ID/Number" and does not
    match "Account Name". *)
Theorem normalize_column_names_first_match
    (df : DataFrame) (mapping_rules : list (list string * string))
    (i : nat) (col : string) :
  columns df !! i = Some col ->
  let out := normalize_column_names df mapping_rules in
  index_length out = index_length df
  /\ map snd (data out) = map snd (data df)
  /\ (forall before keywords target after,
        mapping_rules = before ++ (keywords, target) :: after ->
        (forall kws t, In (kws, t) before ->
           exists kw, In kw kws /\ ~ substring_of kw (lower col)) ->
        (forall kw, In kw keywords -> substring_of kw (lower col)) ->
        columns out !! i = Some target)
  /\ ((forall kws t, In (kws, t) mapping_rules ->
         exists kw, In kw kws /\ ~ substring_of kw (lower col)) ->
      columns out !! i = Some col)
  /\ all_present (lower "Account ID/Number") ["account"; "id"] = true
  /\ all_present (lower "Account Name") ["account"; "id"] = false.
Proof.
  intros Hcol out.
  assert (Hmiss : forall kws,
            (exists kw, In kw kws /\ ~ substring_of kw (lower col)) ->
            all_present (lower col) kws = false).
  { intros kws (kw & Hin & Hno).
    destruct (all_present (lower col) kws) eqn:Hp; [|reflexivity].
    exfalso. apply Hno. now apply (proj1 (all_present_spec _ _) Hp). }
  assert (Hout : columns out !! i
                 = Some (default col (first_rule (lower col) mapping_rules))).
  { unfold columns, out. rewrite normalize_column_names_data, map_map.
    cbn [fst]. unfold columns in Hcol. rewrite lookup_map in Hcol.
    rewrite lookup_map. destruct (data df !! i) as [p|]; [|discriminate Hcol].
    cbn in Hcol |- *. now injection Hcol as ->. }
  split; [apply normalize_column_names_index|].
  split; [unfold out; rewrite normalize_column_names_data;
          apply (map_map_snd (fun c => default c (first_rule (lower c) mapping_rules)))|].
  split; [|split; [|split; reflexivity]].
  - intros before keywords target after -> Hbefore Hhit.
    rewrite Hout, (first_rule_first (lower col) before keywords target after).
    + reflexivity.
    + intros kws t Hin. apply Hmiss. eapply Hbefore, Hin.
    + now apply all_present_spec.
  - intros Hnone. rewrite Hout, first_rule_none; [reflexivity|].
    intros kws t Hin. apply Hmiss. eapply Hnone, Hin.
Qed.

End NormalizeClaims.

Section ReconciliationRowClaims.
Import Pandas DataframeHelpers.
Local Open Scope Q_scope.

(** C1.  Whenever [add_match_status] returns (with pairwise distinct
    labels, as the defaults "Match", "Variance", "Data Missing" are), the
    returned frame holds under [status_col] one status per row of the
    variance column (which it still holds, unless [status_col] names that
    very column), and for every row: the status is the match
    label iff the variance is a number [v] with [|v| < tolerance]; it is the
    missing-data label iff the variance is null; and it is the variance
    label otherwise.  Whenever [calculate_variance] returns, the variance it
    recorded for a row is null iff [col1] or [col2] is absent from the row or
    holds a null there, and is [col1 - col2] when both hold numbers. *)
Theorem match_status_classification :
  (forall (h : store) (df : ref) (f : DataFrame) (variance_col status_col : string)
          (tolerance : Q) (match_label variance_label missing_label : string)
          (l : ref) (h' : store),
     match_label <> variance_label -> match_label <> missing_label ->
     variance_label <> missing_label ->
     h !! df = Some f ->
     add_match_status df variance_col status_col tolerance match_label
                      variance_label missing_label h = (Return l, h') ->
     exists f' variances statuses,
       h' !! l = Some f'
       /\ column f variance_col = Some variances
       /\ (variance_col <> status_col -> column f' variance_col = Some variances)
       /\ has_column f' status_col = true
       /\ (forall c vs, In (c, vs) (data f') -> c = status_col -> vs = statuses)
       /\ length statuses = length variances
       /\ forall i variance status,
            variances !! i = Some variance -> statuses !! i = Some status ->
            (status = Str match_label
             <-> exists v, variance = Num v /\ Qabs v < tolerance)
            /\ (status = Str missing_label <-> variance = NA)
            /\ (variance <> NA ->
                (forall v, variance = Num v -> ~ Qabs v < tolerance) ->
                status = Str variance_label))
  /\ (forall (h : store) (df : ref) (f : DataFrame) (col1 col2 result_col : string)
             (l : ref) (h' : store),
        h !! df = Some f ->
        calculate_variance df col1 col2 result_col h = (Return l, h') ->
        exists f' variances,
          h' !! l = Some f'
          /\ has_column f' result_col = true
          /\ (forall c vs, In (c, vs) (data f') -> c = result_col -> vs = variances)
          /\ length variances = index_length f
          /\ forall i variance,
               variances !! i = Some variance ->
               (variance = NA <->
                  row_get (row f i) col1 = Absent \/ row_get (row f i) col1 = One NA
                  \/ row_get (row f i) col2 = Absent
                  \/ row_get (row f i) col2 = One NA)
               /\ (forall x y,
                     row_get (row f i) col1 = One (Num x) ->
                     row_get (row f i) col2 = One (Num y) ->
                     variance = Num (x - y))).
Proof.
  split.
  - intros h df f variance_col status_col tolerance ml vl xl l h'
           Hmv Hmx Hvx Hf Hrun.
    rewrite (add_match_status_frame_eq h df f) in Hrun by exact Hf.
    unfold add_match_status_frame in Hrun.
    destruct (status_series f variance_col _) as [statuses|e] eqn:Hs;
      [|discriminate Hrun].
    injection Hrun as <- <-.
    destruct (status_series_column _ _ _ _ Hs) as (variances & Hcol & Heach).
    destruct (setitem_spec f status_col statuses) as (_ & _ & Hhas & _ & Hall).
    exists (setitem f status_col statuses), variances, statuses.
    split; [apply lookup_insert_eq|]. split; [exact Hcol|].
    split; [intros Hne; now rewrite column_setitem_other|].
    split; [exact Hhas|]. split; [exact Hall|].
    apply for_each_Forall2 in Heach.
    split; [symmetry; exact (Forall2_length _ _ _ Heach)|].
    intros i variance status Hv Hst.
    apply (determine_status_spec tolerance ml vl xl); try assumption.
    destruct (Forall2_lookup_l _ _ _ _ _ Heach Hv) as (s' & Hs' & Hd).
    congruence.
  - intros h df f col1 col2 result_col l h' Hf Hrun.
    rewrite (calculate_variance_frame_eq h df f) in Hrun by exact Hf.
    unfold calculate_variance_frame in Hrun.
    destruct (apply_rows _ f) as [variances|e] eqn:Hrows; [|discriminate Hrun].
    injection Hrun as <- <-.
    destruct (setitem_spec f result_col variances) as (_ & _ & Hhas & _ & Hall).
    exists (setitem f result_col variances), variances.
    split; [apply lookup_insert_eq|]. split; [exact Hhas|].
    split; [exact Hall|].
    split; [exact (apply_rows_length _ _ _ Hrows)|].
    intros i variance Hv.
    apply variance_of_row_spec. exact (apply_rows_lookup _ _ _ _ _ Hrows Hv).
Qed.

(** C10, as amended.  Neither helper changes an object that existed before
    the call, whether it returns or raises.  When it returns, the frame
    returned is a new object with the row count of the input, in which every
    column of the input with a label other than the result label is in its
    place with its values; the result label is appended on the right when
    the input had no such column, and otherwise keeps its place and takes
    the computed values. *)
Theorem helpers_work_on_a_copy
    (h : store) (df : ref) (f : DataFrame) (col1 col2 result_col : string)
    (variance_col status_col : string) (tolerance : Q)
    (match_label variance_label missing_label : string) :
  h !! df = Some f ->
  let frame_kept (label : string) (run : outcome ref * store) :=
    (forall r, is_Some (h !! r) -> snd run !! r = h !! r)
    /\ forall l, fst run = Return l ->
         h !! l = None
         /\ exists f',
              snd run !! l = Some f'
              /\ index_length f' = index_length f
              /\ columns f' = (if has_column f label then columns f
                               else columns f ++ [label])
              /\ forall i c vs, data f !! i = Some (c, vs) -> c <> label ->
                                data f' !! i = Some (c, vs) in
  frame_kept result_col (calculate_variance df col1 col2 result_col h)
  /\ frame_kept status_col
       (add_match_status df variance_col status_col tolerance match_label
                         variance_label missing_label h).
Proof.
  intros Hf frame_kept.
  assert (Hfresh : h !! fresh (dom h) = None)
    by apply not_elem_of_dom, is_fresh.
  assert (Hold : forall (g : DataFrame) r,
            is_Some (h !! r) -> <[fresh (dom h) := g]> h !! r = h !! r).
  { intros g r Hr. apply lookup_insert_ne. intros <-.
    rewrite Hfresh in Hr. now destruct Hr. }
  assert (Hgen : forall label (body : outcome (list cell)),
    frame_kept label
      match match body with
            | Return values => Return (setitem f label values)
            | Raise e => Raise e
            end with
      | Return f' => (Return (fresh (dom h)), <[fresh (dom h) := f']> (<[fresh (dom h) := f]> h))
      | Raise e => (Raise e, <[fresh (dom h) := f]> h)
      end).
  { intros label [values|e]; (split; cbn [fst snd]).
    - intros r Hr. rewrite insert_insert_eq. now apply Hold.
    - intros l [= <-]. split; [exact Hfresh|].
      exists (setitem f label values).
      destruct (setitem_spec f label values) as (Hn & Hc & _ & Hd & _).
      split; [apply lookup_insert_eq|]. auto.
    - intros r Hr. now apply Hold.
    - discriminate. }
  split.
  - rewrite (calculate_variance_frame_eq h df f) by exact Hf. apply Hgen.
  - rewrite (add_match_status_frame_eq h df f) by exact Hf. apply Hgen.
Qed.
End ReconciliationRowClaims.

Section FrameClaimsAtFixtures.
Import Pandas DataframeHelpers.
Local Open Scope Q_scope.

Lemma normalize_column_names_first_match_witness :
  columns (normalize_column_names web_accounts account_rules) !! 0%nat
  = Some "account_id"
  /\ columns (normalize_column_names web_accounts account_rules) !! 1%nat
     = Some "Account Name".
Proof.
  split.
  - destruct (normalize_column_names_first_match web_accounts account_rules 0
                "Account ID/Number" eq_refl) as (_ & _ & Hfirst & _).
    apply (Hfirst [] ["account"; "id"] "account_id"
                  (tl account_rules) eq_refl).
    + intros kws t [].
    + intros kw [<-|[<-|[]]]; apply contains_spec; reflexivity.
  - destruct (normalize_column_names_first_match web_accounts account_rules 1
                "Account Name" eq_refl) as (_ & _ & _ & Hnone & _).
    apply Hnone. intros kws t Hin.
    assert (Hno : forall kw, contains (lower "Account Name") kw = false ->
                             ~ substring_of kw (lower "Account Name")).
    { intros kw Hkw Hsub. apply contains_spec in Hsub. congruence. }
    destruct Hin as [[= <- <-]|[[= <- <-]|[[= <- <-]|[[= <- <-]|[]]]]].
    + exists "id". split; [right; now left | now apply Hno].
    + exists "number". split; [right; now left | now apply Hno].
    + exists "total". split; [now left | now apply Hno].
    + exists "available". split; [now left | now apply Hno].
Defined.

Lemma match_status_classification_witness :
  calculate_variance 1 "balance" "balance_web" "balance_variance" store1
  = (Return 2%positive, store2)
  /\ add_match_status 2 "balance_variance" "match_status" VARIANCE_TOLERANCE
                      "Match" "Variance" "Data Missing" store2
     = (Return 3%positive, store3)
  /\ exists f' variances statuses,
       store3 !! 3%positive = Some f'
       /\ column f' "balance_variance" = Some variances
       /\ (forall c vs, In (c, vs) (data f') -> c = "match_status" -> vs = statuses)
       /\ forall i variance status,
            variances !! i = Some variance -> statuses !! i = Some status ->
            (status = Str "Match"
             <-> exists v, variance = Num v /\ Qabs v < VARIANCE_TOLERANCE)
            /\ (status = Str "Data Missing" <-> variance = NA).
Proof.
  assert (H1 : calculate_variance 1 "balance" "balance_web" "balance_variance" store1
               = (Return 2%positive, store2)) by (vm_compute; reflexivity).
  assert (H2 : add_match_status 2 "balance_variance" "match_status"
                 VARIANCE_TOLERANCE "Match" "Variance" "Data Missing" store2
               = (Return 3%positive, store3)) by (vm_compute; reflexivity).
  split; [exact H1|]. split; [exact H2|].
  destruct (proj1 match_status_classification store2 2%positive
              with_balance_variance "balance_variance" "match_status"
              VARIANCE_TOLERANCE "Match" "Variance" "Data Missing" 3%positive
              store3 ltac:(discriminate) ltac:(discriminate) ltac:(discriminate)
              eq_refl H2)
    as (f' & variances & statuses & Hf' & _ & Hcol & _ & Hall & _ & Hrows).
  exists f', variances, statuses.
  split; [exact Hf'|]. split; [apply Hcol; discriminate|]. split; [exact Hall|].
  intros i variance status Hv Hs.
  destruct (Hrows i variance status Hv Hs) as (Hm & Hx & _). now split.
Defined.

(** C10 as stated fails when the result label names a column the input
    already has: the returned frame holds that column with other values. *)
Lemma calculate_variance_overwrites_result_column :
  exists h',
    calculate_variance 1 "a" "b" "variance" {[ 1%positive := stale_variance ]}
    = (Return 2%positive, h')
    /\ (forall f', h' !! 2%positive = Some f' ->
          column stale_variance "variance" = Some [Num 99]
          /\ column f' "variance" = Some [Num (3 - 1)]
          /\ column f' "variance" <> column stale_variance "variance").
Proof.
  eexists. split; [vm_compute; reflexivity|].
  intros f' Hf'. vm_compute in Hf'. injection Hf' as <-.
  split; [reflexivity|]. split; [reflexivity|]. discriminate.
Qed.

Lemma helpers_work_on_a_copy_witness :
  (forall r, is_Some (store1 !! r) ->
     snd (calculate_variance 1 "balance" "balance_web" "balance_variance" store1) !! r
     = store1 !! r)
  /\ store1 !! 2%positive = None
  /\ columns with_balance_variance
     = columns merged_accounts ++ ["balance_variance"].
Proof.
  destruct (helpers_work_on_a_copy store1 1%positive merged_accounts
              "balance" "balance_web" "balance_variance"
              "balance_variance" "match_status" VARIANCE_TOLERANCE
              "Match" "Variance" "Data Missing" eq_refl)
    as ((Hkept & Hnew) & _).
  split; [exact Hkept|].
  destruct (Hnew 2%positive eq_refl) as (Hfresh & f' & Hf' & _ & Hcols & _).
  split; [exact Hfresh|].
  vm_compute in Hf'. injection Hf' as <-. exact Hcols.
Defined.
End FrameClaimsAtFixtures.

(* ===================================================================== *)
(** ** Transaction reconciliation on degenerate input *)
(* ===================================================================== *)

Section DegenerateClaims.
Import Pandas DataframeHelpers ApiValidate.

(** C2.  On degenerate input [_reconcile_transactions] returns and does
    not raise, whatever pandas does in the grouping and the join.  The cases
    are taken in the order of the policy, the emptiness of the sides first
    and the join column after.  If exactly one side is empty the result is
    the summary of the other side ([_summarize_api_transactions], which
    always yields a frame) with every row tagged in [data_source] by the
    marker naming the empty side; the join is not consulted.  If both sides
    are empty the result is the one-row record "No transaction data
    available from API or Web".  Otherwise, if [account_id] is absent on the
    API side, or present there and absent on the web side after
    normalisation, the result is the one-row record naming that side and the
    missing column. *)
Theorem reconcile_transactions_degenerate
    (to_str : cell -> string)
    (groupby_agg : DataFrame -> string -> list (string * string) -> outcome DataFrame)
    (merge_outer : DataFrame -> DataFrame -> string -> outcome DataFrame)
    (api_df web_df : DataFrame) :
  let run := _reconcile_transactions to_str groupby_agg merge_outer api_df web_df in
  let tagged side marker :=
    exists summary,
      _summarize_api_transactions groupby_agg side = Return summary
      /\ run = Return (setitem_scalar summary "data_source" (Str marker))
      /\ has_column (setitem_scalar summary "data_source" (Str marker))
                    "data_source" = true
      /\ forall vs,
           In ("data_source", vs)
              (data (setitem_scalar summary "data_source" (Str marker))) ->
           vs = replicate (index_length summary) (Str marker) in
  (empty api_df = true -> empty web_df = false ->
     tagged (normalize_web to_str web_df) "Web Only (API Empty)")
  /\ (empty api_df = false -> empty web_df = true ->
        tagged (coerce_api to_str api_df) "API Only (Web Empty)")
  /\ (empty api_df = true -> empty web_df = true ->
        run = Return (one_row [("Status",
                 Str "No transaction data available from API or Web")]))
  /\ (empty api_df = false -> empty web_df = false ->
        has_column api_df "account_id" = false ->
        run = Return (one_row [("Status", Str "Error: API data malformed");
                               ("Details", Str "Missing account_id column")]))
  /\ (empty api_df = false -> empty web_df = false ->
        has_column api_df "account_id" = true ->
        has_column (normalize_web to_str web_df) "account_id" = false ->
        run = Return (one_row [("Status", Str "Error: Web data malformed");
                               ("Details", Str "Missing account_id column")])).
Proof.
  intros run tagged.
  assert (Htag : forall side marker,
            run = Return (try_except
                    (bind (_summarize_api_transactions groupby_agg side)
                       (fun summary => Return (setitem_scalar summary "data_source"
                                                              (Str marker))))
                    (fun e => no_frame)) ->
            tagged side marker).
  { intros side marker Hrun.
    destruct (summarize_returns groupby_agg side) as [summary Hs].
    exists summary. rewrite Hs in Hrun. cbn in Hrun.
    destruct (setitem_scalar_tagged summary "data_source" (Str marker))
      as (Hhas & Hall).
    repeat split; try assumption. }
  subst run. unfold _reconcile_transactions.
  rewrite (empty_coerce_api to_str api_df), (empty_normalize_web to_str web_df),
    (has_column_coerce_api to_str api_df).
  repeat split.
  - intros Ha Hw. apply Htag. unfold _reconcile_transactions.
    rewrite (empty_coerce_api to_str api_df), (empty_normalize_web to_str web_df),
      Ha, Hw. cbn [negb].
    destruct (summarize_returns groupby_agg (normalize_web to_str web_df)) as [s Hs].
    now rewrite Hs.
  - intros Ha Hw. apply Htag. unfold _reconcile_transactions.
    rewrite (empty_coerce_api to_str api_df), (empty_normalize_web to_str web_df),
      Ha, Hw.
    destruct (summarize_returns groupby_agg (coerce_api to_str api_df)) as [s Hs].
    now rewrite Hs.
  - intros Ha Hw. now rewrite Ha, Hw.
  - intros Ha Hw Hcol. now rewrite Ha, Hw, Hcol.
  - intros Ha Hw Hcol Hweb. now rewrite Ha, Hw, Hcol, Hweb.
Qed.

Lemma reconcile_transactions_degenerate_witness :
  _reconcile_transactions plain_str groupby_single_rows merge_same_keys
                          no_frame web_transactions
  = Return {| index_length := 1;
              data := [("account_id", [Str "800002"]); ("total_debits", [Num 5]);
                       ("total_credits", [Num 0]); ("transaction_count", [Num 1]);
                       ("net_amount", [Num (0 - 5)]);
                       ("data_source", [Str "Web Only (API Empty)"])] |}
  /\ _reconcile_transactions plain_str groupby_single_rows merge_same_keys
                             api_by_account no_frame
     = Return {| index_length := 2;
                 data := [("account_id", [Str "800002"; Str "800003"]);
                          ("total_debits", [Num 5; Num 7]);
                          ("total_credits", [Num 0; Num 20]);
                          ("transaction_count", [Num 1; Num 1]);
                          ("net_amount", [Num (0 - 5); Num (20 - 7)]);
                          ("data_source", [Str "API Only (Web Empty)";
                                           Str "API Only (Web Empty)"])] |}
  /\ _reconcile_transactions plain_str groupby_single_rows merge_same_keys
                             no_frame no_frame
     = Return (one_row [("Status",
                         Str "No transaction data available from API or Web")])
  /\ _reconcile_transactions plain_str groupby_single_rows merge_same_keys
                             api_without_key web_transactions
     = Return (one_row [("Status", Str "Error: API data malformed");
                        ("Details", Str "Missing account_id column")])
  /\ _reconcile_transactions plain_str groupby_single_rows merge_same_keys
                             api_by_account web_without_key
     = Return (one_row [("Status", Str "Error: Web data malformed");
                        ("Details", Str "Missing account_id column")]).
Proof.
  split; [|split; [|split; [|split]]].
  - destruct (reconcile_transactions_degenerate plain_str groupby_single_rows
                merge_same_keys no_frame web_transactions) as (Hweb & _).
    destruct (Hweb eq_refl eq_refl) as (summary & Hs & Hrun & _).
    rewrite Hrun. vm_compute in Hs. injection Hs as <-. reflexivity.
  - destruct (reconcile_transactions_degenerate plain_str groupby_single_rows
                merge_same_keys api_by_account no_frame) as (_ & Hapi & _).
    destruct (Hapi eq_refl eq_refl) as (summary & Hs & Hrun & _).
    rewrite Hrun. vm_compute in Hs. injection Hs as <-. reflexivity.
  - destruct (reconcile_transactions_degenerate plain_str groupby_single_rows
                merge_same_keys no_frame no_frame) as (_ & _ & Hboth & _).
    exact (Hboth eq_refl eq_refl).
  - destruct (reconcile_transactions_degenerate plain_str groupby_single_rows
                merge_same_keys api_without_key web_transactions)
      as (_ & _ & _ & Hapi & _).
    exact (Hapi eq_refl eq_refl eq_refl).
  - destruct (reconcile_transactions_degenerate plain_str groupby_single_rows
                merge_same_keys api_by_account web_without_key)
      as (_ & _ & _ & _ & Hweb).
    refine (Hweb eq_refl eq_refl eq_refl _). vm_compute. reflexivity.
Defined.
End DegenerateClaims.

(* ===================================================================== *)
(** ** Further properties of the HTTP retry engine *)
(* ===================================================================== *)

Section EngineProperties.
Import RetryHandler RunPredicates.
Local Open Scope Q_scope.

(** X1.  Whatever the wrapped callable does, a decorated call with
    [max_retries >= 0] invokes it at least once and at most
    [max_retries + 1] times and sleeps exactly once between two
    invocations; with draws in [0, 1] and [max_backoff >= 0] no single sleep
    is longer than [1.1 * max_backoff]. *)
Theorem with_api_retry_run_bounds
    {W A : Type} (time_sleep : Q -> W -> W) (random_random : W -> Q * W)
    (max_retries : Z) (backoff_factor max_backoff : Q) (jitter : bool)
    (func : W -> outcome A * W) (func_name : string) (w : W) :
  (0 <= max_retries)%Z ->
  let k := snd (with_api_retry time_sleep random_random max_retries backoff_factor
                               max_backoff jitter func func_name w) in
  (1 <= invocations k <= Z.to_nat (max_retries + 1))%nat
  /\ S (length (sleeps k)) = invocations k
  /\ ((forall w0, 0 <= fst (random_random w0) <= 1) -> 0 <= max_backoff ->
      Forall (fun t => t <= max_backoff * (11 # 10)) (sleeps k)).
Proof.
  intros Hmax k.
  pose proof (with_api_retry_wrapper time_sleep random_random max_retries
                backoff_factor max_backoff jitter func func_name w) as Hrun.
  destruct (with_api_retry _ _ _ _ _ _ _ _ w) as [[r w'] k0] eqn:Hres.
  subst k. cbn [snd]. unfold wrapper in Hrun.
  destruct (wrapper_loop_run time_sleep random_random max_retries backoff_factor
              max_backoff jitter func func_name _ 0%Z None w no_stats r w' k0
              ltac:(lia) Hrun)
    as (Hinv & (waits & Hs & Hlen & Hall) & _).
  cbn [no_stats invocations sleeps app] in *. subst waits.
  split; [lia|]. split; [lia|].
  intros Hdraw Hcap. eapply Forall_impl; [exact Hall|].
  intros t (a & w0 & _ & ->). now apply next_wait_le_cap.
Qed.

Lemma with_api_retry_run_bounds_witness :
  let k := snd (with_api_retry (fun _ n => n) (fun n => (1 # 2, n)) 3 2 32 true
                               flaky_call "accounts" 0%nat) in
  (1 <= invocations k <= Z.to_nat (3 + 1))%nat
  /\ S (length (sleeps k)) = invocations k
  /\ Forall (fun t => t <= 32 * (11 # 10)) (sleeps k).
Proof.
  destruct (with_api_retry_run_bounds (fun _ n => n) (fun n => (1 # 2, n)) 3 2 32
              true flaky_call "accounts" 0%nat ltac:(lia)) as (H1 & H2 & H3).
  split; [exact H1|]. split; [exact H2|].
  apply H3; [|discriminate]. intros w0. cbn. split; discriminate.
Defined.

(** X2.  A decorated call never invents its outcome: a value it returns
    is the value the callable returned on its last invocation, and an error
    it raises is either the very error the callable raised on its last
    invocation or one of the four classes the engine builds
    ([APIAuthenticationError], [APIError], [MaxRetriesExceededError],
    [TypeError]).  In particular an [APIConnectionError] or
    [SessionExpiredError] leaves the engine only if the callable raised
    it. *)
Theorem with_api_retry_outcome_origin
    {W A : Type} (time_sleep : Q -> W -> W) (random_random : W -> Q * W)
    (max_retries : Z) (backoff_factor max_backoff : Q) (jitter : bool)
    (func : W -> outcome A * W) (func_name : string) (w : W) :
  let run := with_api_retry time_sleep random_random max_retries backoff_factor
                            max_backoff jitter func func_name w in
  (forall v, fst (fst run) = Return v ->
     exists w0, func w0 = (Return v, snd (fst run)))
  /\ (forall e, fst (fst run) = Raise e ->
        (exists w0, func w0 = (Raise e, snd (fst run))) \/ built_by_engine e)
  /\ (forall e, fst (fst run) = Raise e ->
        In (class_of e) ["APIConnectionError"; "SessionExpiredError"] ->
        exists w0, func w0 = (Raise e, snd (fst run))).
Proof.
  intros run.
  assert (Hcore :
    (forall v, fst (fst run) = Return v ->
       exists w0, func w0 = (Return v, snd (fst run)))
    /\ (forall e, fst (fst run) = Raise e ->
          (exists w0, func w0 = (Raise e, snd (fst run))) \/ built_by_engine e)).
  { destruct (Z.leb_spec 0 max_retries) as [Hmax|Hneg].
    - pose proof (with_api_retry_wrapper time_sleep random_random max_retries
                    backoff_factor max_backoff jitter func func_name w) as Hrun.
      fold run in Hrun. destruct run as [[r w'] k]. unfold wrapper in Hrun.
      destruct (wrapper_loop_run time_sleep random_random max_retries
                  backoff_factor max_backoff jitter func func_name _ 0%Z None w
                  no_stats r w' k ltac:(lia) Hrun)
        as (_ & _ & Hret & Hraise).
      split; [exact Hret | exact Hraise].
    - subst run. rewrite with_api_retry_negative_budget by exact Hneg.
      cbn [fst snd]. split; [discriminate|].
      intros e [= <-]. right. unfold built_by_engine. cbn. tauto. }
  destruct Hcore as [Hret Hraise]. split; [exact Hret|]. split; [exact Hraise|].
  intros e He Hcls. destruct (Hraise e He) as [Hfunc|Hbuilt]; [exact Hfunc|].
  exfalso. unfold built_by_engine in Hbuilt. cbn in Hcls, Hbuilt.
  destruct Hcls as [Hc|[Hc|[]]]; rewrite <- Hc in Hbuilt;
    repeat destruct Hbuilt as [Hbuilt|Hbuilt]; try discriminate Hbuilt;
    exact Hbuilt.
Qed.

Lemma with_api_retry_outcome_origin_witness :
  with_api_retry (fun _ n => n) (fun n => (1 # 2, n)) 3 2 32 true
                 flaky_call "accounts" 0%nat
  = (Return 2%nat, 3%nat, {| invocations := 3; sleeps := [21 # 20; 42 # 20] |})
  /\ exists w0, flaky_call w0 = (Return 2%nat, 3%nat).
Proof.
  assert (Hrun : with_api_retry (fun _ n => n) (fun n => (1 # 2, n)) 3 2 32 true
                   flaky_call "accounts" 0%nat
                 = (Return 2%nat, 3%nat,
                    {| invocations := 3; sleeps := [21 # 20; 42 # 20] |}))
    by (vm_compute; reflexivity).
  split; [exact Hrun|].
  destruct (with_api_retry_outcome_origin (fun _ n => n) (fun n => (1 # 2, n)) 3 2
              32 true flaky_call "accounts" 0%nat) as (Hret & _).
  rewrite Hrun in Hret. exact (Hret 2%nat eq_refl).
Defined.

(** X3.  When every invocation fails with a generic [httpx.RequestError]
    (neither a connect error nor a timeout), a decorated call with
    [max_retries >= 0] retries [max_retries] times and then raises
    [TypeError], not [APIConnectionError]: the handler passes [attempts] and
    [last_error] to [APIConnectionError], whose constructor is
    [APIError.__init__] and accepts neither. *)
Theorem with_api_retry_request_error_exhausts
    {W A : Type} (time_sleep : Q -> W -> W) (random_random : W -> Q * W)
    (max_retries : Z) (backoff_factor max_backoff : Q) (jitter : bool)
    (func : W -> outcome A * W) (func_name : string) (w : W) :
  (0 <= max_retries)%Z ->
  always_request_error func ->
  exists message w' k,
    with_api_retry time_sleep random_random max_retries backoff_factor
                   max_backoff jitter func func_name w
    = (Raise (TypeError message), w', k)
    /\ invocations k = Z.to_nat (max_retries + 1)
    /\ length (sleeps k) = Z.to_nat max_retries.
Proof.
  intros Hmax Hall.
  destruct (wrapper_loop_request_error time_sleep random_random max_retries
              backoff_factor max_backoff jitter func func_name
              (wrapper_fuel max_retries) 0%Z None w no_stats Hall)
    as (message & w' & k & Hrun & Hinv & Hsl); [lia | unfold wrapper_fuel; lia |].
  exists message, w', k. unfold with_api_retry, wrapper. rewrite Hrun.
  split; [reflexivity|]. cbn in Hinv, Hsl. split; [rewrite Hinv | rewrite Hsl];
    f_equal; lia.
Qed.

Lemma with_api_retry_request_error_exhausts_witness :
  exists message w' k,
    with_api_retry (fun _ w => w) (fun w => (0, w)) 3 2 32 true broken_pipe
                   "accounts" tt
    = (Raise (TypeError message), w', k)
    /\ invocations k = Z.to_nat (3 + 1)
    /\ length (sleeps k) = Z.to_nat 3.
Proof.
  apply (with_api_retry_request_error_exhausts (fun _ w => w) (fun w => (0, w)) 3 2
           32 true broken_pipe "accounts" tt).
  - lia.
  - intros w0. do 2 eexists. reflexivity.
Defined.

(** X4.  Only status 500 is retried.  On any other status error (404,
    429, 503, ...) a decorated call with [max_retries >= 0] invokes the
    callable once, does not sleep, and raises an error that carries the
    status code, the first 500 characters of the response text and the
    status error as its cause; its class is [APIAuthenticationError] for 401
    and [APIError] for every other status. *)
Theorem with_api_retry_other_status
    {W A : Type} (time_sleep : Q -> W -> W) (random_random : W -> Q * W)
    (max_retries : Z) (backoff_factor max_backoff : Q) (jitter : bool)
    (func : W -> outcome A * W) (func_name : string)
    (w w1 : W) (msg : string) (status : Z) (text : string) :
  (0 <= max_retries)%Z ->
  func w = (Raise (HTTPStatusError msg status text), w1) ->
  status <> 500%Z ->
  exists e,
    with_api_retry time_sleep random_random max_retries backoff_factor
                   max_backoff jitter func func_name w
    = (Raise e, w1, {| invocations := 1; sleeps := [] |})
    /\ class_of e = (if (status =? 401)%Z then "APIAuthenticationError" else "APIError")
    /\ status_code_of e = Some status
    /\ response_body_of e = Some (slice_to 500 text)
    /\ cause_of e = Some (HTTPStatusError msg status text).
Proof.
  intros Hmax Hf Hne.
  unfold with_api_retry, wrapper, wrapper_fuel. cbn [wrapper_loop].
  destruct (Z.leb_spec 0 max_retries); [|lia]. rewrite Hf.
  destruct (Z.eqb_spec status 401); [subst; eexists; repeat split|].
  destruct (Z.eqb_spec status 400); [subst; eexists; repeat split|].
  destruct (Z.eqb_spec status 501); [subst; eexists; repeat split|].
  destruct (Z.eqb_spec status 500); [contradiction|].
  eexists; repeat split.
Qed.

Lemma with_api_retry_other_status_witness :
  exists e,
    with_api_retry (fun _ w => w) (fun w => (0, w)) 3 2 32 true unavailable_call
                   "accounts" tt
    = (Raise e, tt, {| invocations := 1; sleeps := [] |})
    /\ class_of e = "APIError"
    /\ status_code_of e = Some 503%Z
    /\ response_body_of e = Some "busy"
    /\ cause_of e
       = Some (HTTPStatusError "Server error '503 Service Unavailable'" 503 "busy").
Proof.
  apply (with_api_retry_other_status (fun _ w => w) (fun w => (0, w)) 3 2 32 true
           unavailable_call "accounts" tt tt
           "Server error '503 Service Unavailable'" 503 "busy").
  - lia.
  - reflexivity.
  - discriminate.
Defined.

(** X5.  With jitter disabled, a callable that fails with a retried error
    on every invocation is retried after sleeps of exactly
    [min(backoff_factor^0, max_backoff)], [min(backoff_factor^1,
    max_backoff)], ..., [min(backoff_factor^(max_retries-1), max_backoff)],
    in this order (1, 2, 4 seconds for the defaults). *)
Theorem with_api_retry_schedule
    {W A : Type} (time_sleep : Q -> W -> W) (random_random : W -> Q * W)
    (max_retries : Z) (backoff_factor max_backoff : Q)
    (func : W -> outcome A * W) (func_name : string) (w : W) :
  (0 <= max_retries)%Z ->
  always_retryable func ->
  sleeps (snd (with_api_retry time_sleep random_random max_retries backoff_factor
                              max_backoff false func func_name w))
  = map (fun a => Qmin (backoff_factor ^ (a - 1)) max_backoff) (seqZ 1 max_retries).
Proof.
  intros Hmax Hall.
  pose proof (with_api_retry_wrapper time_sleep random_random max_retries
                backoff_factor max_backoff false func func_name w) as Hrun.
  destruct (with_api_retry _ _ _ _ _ _ _ _ w) as [[r w'] k].
  unfold wrapper in Hrun.
  apply wrapper_loop_schedule in Hrun; [|reflexivity|exact Hall|lia].
  cbn [snd]. rewrite Hrun. cbn [no_stats sleeps app].
  now rewrite Z.sub_0_r.
Qed.

Lemma with_api_retry_schedule_witness :
  sleeps (snd (with_api_retry (fun _ w => w) (fun w => (0, w)) 3 2 32 false
                              server_down "accounts" tt))
  = map (fun a => Qmin (2 ^ (a - 1)) 32) (seqZ 1 3).
Proof.
  apply (with_api_retry_schedule (fun _ w => w) (fun w => (0, w)) 3 2 32
           server_down "accounts" tt).
  - lia.
  - intros w0. do 2 eexists. split; reflexivity.
Defined.
End EngineProperties.

(* ===================================================================== *)
(** ** Further properties of the session retry decorator *)
(* ===================================================================== *)

Section SessionProperties.
Import RetryHandler SessionHandler.
Local Open Scope Q_scope.

(** X6.  An error whose lowercased text contains none of the session
    keywords is raised again at once (for [max_retries >= 1]): the callable
    has been invoked once, nothing has slept, and neither the logout probe
    nor the login page has been touched (the world is the one the callable
    left). *)
Theorem with_session_retry_other_error
    {W A : Type} (time_sleep : Q -> W -> W) (has_login_page : bool)
    (credentials : option (gmap string string))
    (is_logged_out : W -> outcome bool * W) (goto : string -> W -> outcome unit * W)
    (login : string -> string -> W -> outcome unit * W)
    (assert_logged_in : W -> outcome unit * W) (max_retries : Z)
    (func : W -> outcome A * W) (func_name : string) (w w1 : W) (e : exn) :
  (1 <= max_retries)%Z ->
  func w = (Raise e, w1) ->
  session_classified e = false ->
  with_session_retry time_sleep has_login_page credentials is_logged_out goto
                     login assert_logged_in max_retries func func_name w
  = (Raise e, w1, {| invocations := 1; sleeps := [] |}).
Proof.
  intros Hmax Hf Hcls. unfold with_session_retry.
  rewrite (seqZ_cons 1) by lia. cbn [for_attempts]. rewrite Hf.
  unfold session_classified in Hcls. now rewrite Hcls.
Qed.

Lemma with_session_retry_other_error_witness :
  with_session_retry (fun _ w => w) true (Some stored_credentials) probe_crash
                     (fun _ w => (Return tt, w)) (fun _ _ w => (Return tt, w))
                     ok_page DEFAULT_MAX_RETRIES parse_bug "run" tt
  = (Raise (Exception_ "ValueError" "could not convert string to float: 'n/a'"),
     tt, {| invocations := 1; sleeps := [] |}).
Proof.
  apply with_session_retry_other_error.
  - unfold DEFAULT_MAX_RETRIES. lia.
  - reflexivity.
  - reflexivity.
Defined.

(** X7.  With [max_retries <= 0] the decorated method is never invoked:
    the loop has no iteration and the statement after it raises
    [SessionExpiredError] ("Unknown error in ... after ... retries") without
    a cause. *)
Theorem with_session_retry_no_budget
    {W A : Type} (time_sleep : Q -> W -> W) (has_login_page : bool)
    (credentials : option (gmap string string))
    (is_logged_out : W -> outcome bool * W) (goto : string -> W -> outcome unit * W)
    (login : string -> string -> W -> outcome unit * W)
    (assert_logged_in : W -> outcome unit * W) (max_retries : Z)
    (func : W -> outcome A * W) (func_name : string) (w : W) :
  (max_retries <= 0)%Z ->
  with_session_retry time_sleep has_login_page credentials is_logged_out goto
                     login assert_logged_in max_retries func func_name w
  = (Raise (SessionExpiredError
              ("Unknown error in " +:+ func_name +:+ " after "
                 +:+ pretty max_retries +:+ " retries") None), w, no_stats).
Proof.
  intros Hmax. unfold with_session_retry, seqZ.
  replace (Z.to_nat max_retries) with 0%nat by lia. reflexivity.
Qed.

Lemma with_session_retry_no_budget_witness :
  with_session_retry (fun _ w => w) false None (fun w => (Return false, w))
                     (fun _ w => (Return tt, w)) (fun _ _ w => (Return tt, w))
                     ok_page 0 ok_page "run" tt
  = (Raise (SessionExpiredError "Unknown error in run after 0 retries" None), tt,
     no_stats).
Proof.
  apply (with_session_retry_no_budget (fun _ w => w) false None
           (fun w => (Return false, w)) (fun _ w => (Return tt, w))
           (fun _ _ w => (Return tt, w)) ok_page 0 ok_page "run" tt).
  lia.
Defined.

(** X8.  Whatever the method, the logout probe and the login page do, a
    decorated call invokes the method at most [max_retries] times, sleeps at
    most once per invocation, and every sleep lasts between 2 and 8
    seconds. *)
Theorem with_session_retry_run_bounds
    {W A : Type} (time_sleep : Q -> W -> W) (has_login_page : bool)
    (credentials : option (gmap string string))
    (is_logged_out : W -> outcome bool * W) (goto : string -> W -> outcome unit * W)
    (login : string -> string -> W -> outcome unit * W)
    (assert_logged_in : W -> outcome unit * W) (max_retries : Z)
    (func : W -> outcome A * W) (func_name : string) (w : W) :
  let k := snd (with_session_retry time_sleep has_login_page credentials
                  is_logged_out goto login assert_logged_in max_retries func
                  func_name w) in
  (invocations k <= Z.to_nat max_retries)%nat
  /\ (length (sleeps k) <= invocations k)%nat
  /\ Forall (fun t => 2 <= t <= 8) (sleeps k).
Proof.
  intros k. subst k. unfold with_session_retry.
  destruct (for_attempts_run time_sleep has_login_page credentials is_logged_out
              goto login assert_logged_in max_retries func func_name
              (seqZ 1 max_retries) None w no_stats (Forall_seqZ_ge 1 max_retries))
    as (Hinv & waits & Hs & Hl & Hall).
  rewrite length_seqZ in Hinv. cbn [no_stats invocations sleeps app] in *.
  rewrite Hs. split; [lia|]. split; [lia | exact Hall].
Qed.

(** X9.  When the method fails with a session error on every invocation
    and the logout probe itself raises every time (login page present,
    [max_retries >= 1]), the decorated call invokes the method exactly
    [max_retries] times, sleeps between the attempts, and on the last
    attempt raises [SessionExpiredError] whose cause is an error the method
    raised. *)
Theorem with_session_retry_gives_up
    {W A : Type} (time_sleep : Q -> W -> W)
    (credentials : option (gmap string string))
    (is_logged_out : W -> outcome bool * W) (goto : string -> W -> outcome unit * W)
    (login : string -> string -> W -> outcome unit * W)
    (assert_logged_in : W -> outcome unit * W) (max_retries : Z)
    (func : W -> outcome A * W) (func_name : string) (w : W) :
  (1 <= max_retries)%Z ->
  (forall w0, exists e w1, func w0 = (Raise e, w1) /\ session_classified e = true) ->
  (forall w0, exists x w1, is_logged_out w0 = (Raise x, w1)) ->
  exists message e w_prev w_fail w' k,
    with_session_retry time_sleep true credentials is_logged_out goto login
                       assert_logged_in max_retries func func_name w
    = (Raise (SessionExpiredError message (Some e)), w', k)
    /\ func w_prev = (Raise e, w_fail)
    /\ invocations k = Z.to_nat max_retries
    /\ length (sleeps k) = Z.to_nat (max_retries - 1).
Proof.
  intros Hmax Hfunc Hprobe. unfold with_session_retry.
  destruct (for_attempts_probe_fails time_sleep credentials is_logged_out goto
              login assert_logged_in max_retries func func_name 1
              (max_retries - 1) None w no_stats Hfunc Hprobe ltac:(lia) ltac:(lia))
    as (message & e & wp & wf & w' & k & Hrun & Hprev & Hinv & Hsl).
  replace (max_retries - 1 + 1)%Z with max_retries in * by lia.
  exists message, e, wp, wf, w', k. split; [exact Hrun|]. split; [exact Hprev|].
  cbn in Hinv, Hsl. split; lia.
Qed.

Lemma with_session_retry_gives_up_witness :
  exists message e w_prev w_fail w' k,
    with_session_retry (fun _ w => w) true (Some stored_credentials) probe_crash
                       (fun _ w => (Return tt, w)) (fun _ _ w => (Return tt, w))
                       ok_page DEFAULT_MAX_RETRIES page_timeout "run" tt
    = (Raise (SessionExpiredError message (Some e)), w', k)
    /\ page_timeout w_prev = (Raise e, w_fail)
    /\ invocations k = Z.to_nat DEFAULT_MAX_RETRIES
    /\ length (sleeps k) = Z.to_nat (DEFAULT_MAX_RETRIES - 1).
Proof.
  apply with_session_retry_gives_up.
  - unfold DEFAULT_MAX_RETRIES. lia.
  - intros w0. do 2 eexists. split; reflexivity.
  - intros w0. do 2 eexists. reflexivity.
Defined.

(** X10.  The recovery path.  If the method fails once with a session
    error, the probe reports a logged-out session, the stored credentials
    hold the three keys, the page is opened, the login is submitted and
    confirmed, and the method then succeeds, the decorated call (with
    [max_retries >= 2]) returns the method's value after two invocations and
    one sleep of 2 seconds placed between the login and the second
    invocation. *)
Theorem with_session_retry_recovers
    {W A : Type} (time_sleep : Q -> W -> W)
    (creds : gmap string string)
    (is_logged_out : W -> outcome bool * W) (goto : string -> W -> outcome unit * W)
    (login : string -> string -> W -> outcome unit * W)
    (assert_logged_in : W -> outcome unit * W) (max_retries : Z)
    (func : W -> outcome A * W) (func_name : string)
    (w w1 w2 w3 w4 w5 w6 : W) (e : exn) (v : A) (base_url username password : string) :
  (2 <= max_retries)%Z ->
  func w = (Raise e, w1) -> session_classified e = true ->
  is_logged_out w1 = (Return true, w2) ->
  creds !! "base_url" = Some base_url ->
  creds !! "username" = Some username ->
  creds !! "password" = Some password ->
  goto base_url w2 = (Return tt, w3) ->
  login username password w3 = (Return tt, w4) ->
  assert_logged_in w4 = (Return tt, w5) ->
  func (time_sleep 2 w5) = (Return v, w6) ->
  with_session_retry time_sleep true (Some creds) is_logged_out goto login
                     assert_logged_in max_retries func func_name w
  = (Return v, w6, {| invocations := 2; sleeps := [2] |}).
Proof.
  intros Hmax Hf Hcls Hout Hb Hu Hp Hgoto Hlogin Hok Hagain.
  unfold with_session_retry.
  rewrite (seqZ_cons 1) by lia. rewrite (seqZ_cons (Z.succ 1)) by lia.
  cbn [for_attempts]. rewrite Hf.
  unfold session_classified in Hcls. rewrite Hcls. cbn [negb].
  unfold probe_and_recover, reauthenticate, getitem.
  rewrite Hout, Hb, Hgoto, Hu, Hp, Hlogin, Hok.
  change (session_backoff 1) with 2. now rewrite Hagain.
Qed.

Lemma with_session_retry_recovers_witness :
  with_session_retry (fun _ n => n) true (Some stored_credentials)
                     (fun n => (Return true, n)) (fun _ n => (Return tt, n))
                     (fun _ _ n => (Return tt, n)) (fun n => (Return tt, n))
                     DEFAULT_MAX_RETRIES times_out_once "run" 0%nat
  = (Return 1%nat, 2%nat, {| invocations := 2; sleeps := [2] |}).
Proof.
  apply (with_session_retry_recovers (fun _ n => n) stored_credentials
           (fun n => (Return true, n)) (fun _ n => (Return tt, n))
           (fun _ _ n => (Return tt, n)) (fun n => (Return tt, n))
           DEFAULT_MAX_RETRIES times_out_once "run"
           0%nat 1%nat 1%nat 1%nat 1%nat 1%nat 2%nat
           (Exception_ "TimeoutError" "Timeout 30000ms exceeded.") 1%nat
           "http://localhost:8080" "jsmith" "demo1234").
  - unfold DEFAULT_MAX_RETRIES. lia.
  - reflexivity.
  - reflexivity.
  - reflexivity.
  - vm_compute. reflexivity.
  - vm_compute. reflexivity.
  - vm_compute. reflexivity.
  - reflexivity.
  - reflexivity.
  - reflexivity.
  - reflexivity.
Defined.
End SessionProperties.

(* ===================================================================== *)
(** ** Further properties of the API client *)
(* ===================================================================== *)

Section ClientProperties.
Import RetryHandler RunPredicates Client.
Local Open Scope Q_scope.

(** X11.  A login answered with status 401 or 403 is not retried:
    [authenticate] raises [APIAuthenticationError] ("Invalid credentials for
    user ...") with that status, the first 500 characters of the body and
    the status error as cause, after the one POST; the stored token is what
    it was. *)
Theorem authenticate_rejected
    {W : Type} (time_time : W -> Q) (time_sleep : Q -> W -> W)
    (random_random : W -> Q * W)
    (client_post : string -> json -> list (string * string) -> W -> outcome response * W)
    (st : AltoroAPI * W) (r : response) (w1 : W) :
  client_post (base (fst st) +:+ "/api/login")
              (JObj [("username", JStr (user (fst st)));
                     ("password", JStr (pwd (fst st)))]) [] (snd st)
  = (Return r, w1) ->
  status_code r = 401%Z \/ status_code r = 403%Z ->
  exists cause self',
    authenticate time_time time_sleep random_random client_post st
    = (Raise (APIAuthenticationError
                ("Invalid credentials for user " +:+ user (fst st))
                (Some (status_code r)) (Some (slice_to 500 (text r)))
                (Some cause)), (self', w1))
    /\ class_of cause = "HTTPStatusError"
    /\ _tok self' = _tok (fst st).
Proof.
  intros Hpost Hstatus.
  destruct (authenticate_rejected_run time_time time_sleep random_random client_post
              st r w1 Hpost Hstatus) as [m Hrun].
  exists (HTTPStatusError m (status_code r) (text r)), (set_client (fst st)).
  split; [exact Hrun | split; reflexivity].
Qed.

Lemma authenticate_rejected_witness :
  exists cause self',
    authenticate id clock_sleep no_jitter rejecting_post (new_client 0)
    = (Raise (APIAuthenticationError "Invalid credentials for user jsmith"
                (Some 401%Z) (Some "Unauthorized") (Some cause)), (self', 0))
    /\ class_of cause = "HTTPStatusError"
    /\ _tok self' = None.
Proof.
  apply (authenticate_rejected id clock_sleep no_jitter rejecting_post
           (new_client 0)
           {| status_code := 401; text := "Unauthorized";
              json_body := Return (JObj [("error", JStr "bad credentials")]) |} 0).
  - reflexivity.
  - left. reflexivity.
Defined.

(** X12.  A login answered with a 2xx status and a JSON object whose
    [Authorization] field is "Bearer " followed by a token (in which
    "Bearer " does not occur again) stores exactly that token with expiry
    3600 seconds after the clock, after one POST; the same holds for a
    non-empty header without the "Bearer " prefix, stored as it is.  The
    stored token is usable at once. *)
Theorem authenticate_stores_token
    {W : Type} (time_time : W -> Q) (time_sleep : Q -> W -> W)
    (random_random : W -> Q * W)
    (client_post : string -> json -> list (string * string) -> W -> outcome response * W)
    (st : AltoroAPI * W) (r : response) (w1 : W) (items : list (string * json))
    (header token : string) :
  client_post (base (fst st) +:+ "/api/login")
              (JObj [("username", JStr (user (fst st)));
                     ("password", JStr (pwd (fst st)))]) [] (snd st)
  = (Return r, w1) ->
  (200 <= status_code r <= 299)%Z ->
  json_body r = Return (JObj items) ->
  dict_get items "Authorization" = Some (JStr header) ->
  (header = "Bearer " +:+ token /\ contains token "Bearer " = false)
  \/ (header = token /\ token <> "" /\ startswith token "Bearer " = false) ->
  let st' := (set_tok (set_client (fst st))
                {| value := token; exp := time_time w1 + 3600 |}, w1) in
  authenticate time_time time_sleep random_random client_post st = (Return tt, st')
  /\ _is_token_expired time_time st' = false
  /\ _headers (fst st') = [("Authorization", token)].
Proof.
  intros Hpost Hstatus Hjson Hget Hheader st'.
  assert (Htruthy : truthy (JStr header) = true).
  { destruct Hheader as [[-> _]|(-> & Hne & _)]; [reflexivity|].
    cbn. destruct (String.eqb_spec token ""); [contradiction | reflexivity]. }
  assert (Hvalue : (if startswith header "Bearer " then replace header "Bearer " ""
                    else header) = token).
  { destruct Hheader as [[-> Hfree]|(-> & _ & Hs)].
    - assert (Hs : startswith ("Bearer " +:+ token) "Bearer " = true)
        by (apply startswith_spec; now exists token).
      rewrite Hs. now apply replace_prefix.
    - now rewrite Hs. }
  assert (Hbody : authenticate_body time_time client_post st = (Return tt, st')).
  { unfold authenticate_body, _get_client. cbn [fst snd].
    change (base (set_client (fst st))) with (base (fst st)).
    change (user (set_client (fst st))) with (user (fst st)).
    change (pwd (set_client (fst st))) with (pwd (fst st)).
    rewrite Hpost. unfold store_token.
    rewrite (raise_for_status_ok r Hstatus), Hjson.
    assert (Hgo : get_or items "Authorization" (JStr "") = JStr header)
      by (unfold get_or; now rewrite Hget).
    rewrite Hgo, Htruthy. cbn [negb fst snd]. now rewrite Hvalue. }
  split; [|split; [|reflexivity]].
  - unfold authenticate, decorated.
    erewrite with_api_retry_first_return; [reflexivity | lia | exact Hbody].
  - now apply (fresh_token_usable time_time st' token).
Qed.

Lemma authenticate_stores_token_witness :
  let st' := (set_tok (set_client (fst (new_client 100)))
                {| value := "abc"; exp := 100 + 3600 |}, 100) in
  authenticate id clock_sleep no_jitter canned_post (new_client 100) = (Return tt, st')
  /\ _is_token_expired id st' = false
  /\ _headers (fst st') = [("Authorization", "abc")].
Proof.
  apply (authenticate_stores_token id clock_sleep no_jitter canned_post
           (new_client 100)
           {| status_code := 200; text := "";
              json_body := Return (JObj [("Authorization", JStr "Bearer abc")]) |}
           100 [("Authorization", JStr "Bearer abc")] "Bearer abc" "abc").
  - reflexivity.
  - cbn. lia.
  - reflexivity.
  - reflexivity.
  - left. split; reflexivity.
Defined.

(** X13.  A login answered with a 2xx status and a JSON object without an
    [Authorization] field, or with an empty or null one, raises
    [APIAuthenticationError] ("No Authorization header in login response")
    without status code or cause; it is not retried and stores no token. *)
Theorem authenticate_without_header
    {W : Type} (time_time : W -> Q) (time_sleep : Q -> W -> W)
    (random_random : W -> Q * W)
    (client_post : string -> json -> list (string * string) -> W -> outcome response * W)
    (st : AltoroAPI * W) (r : response) (w1 : W) (items : list (string * json)) :
  client_post (base (fst st) +:+ "/api/login")
              (JObj [("username", JStr (user (fst st)));
                     ("password", JStr (pwd (fst st)))]) [] (snd st)
  = (Return r, w1) ->
  (200 <= status_code r <= 299)%Z ->
  json_body r = Return (JObj items) ->
  truthy (get_or items "Authorization" (JStr "")) = false ->
  authenticate time_time time_sleep random_random client_post st
  = (Raise (APIAuthenticationError "No Authorization header in login response"
              None None None), (set_client (fst st), w1)).
Proof.
  intros Hpost Hstatus Hjson Hfalsy.
  assert (Hbody : authenticate_body time_time client_post st
                  = (Raise (APIAuthenticationError
                              "No Authorization header in login response"
                              None None None), (set_client (fst st), w1))).
  { unfold authenticate_body, _get_client. cbn [fst snd].
    change (base (set_client (fst st))) with (base (fst st)).
    change (user (set_client (fst st))) with (user (fst st)).
    change (pwd (set_client (fst st))) with (pwd (fst st)).
    rewrite Hpost. unfold store_token.
    rewrite (raise_for_status_ok r Hstatus), Hjson, Hfalsy. reflexivity. }
  unfold authenticate, decorated.
  erewrite with_api_retry_first_passed; [reflexivity | lia | exact Hbody | reflexivity].
Qed.

Lemma authenticate_without_header_witness :
  authenticate id clock_sleep no_jitter headerless_post (new_client 0)
  = (Raise (APIAuthenticationError "No Authorization header in login response"
              None None None), (set_client (fst (new_client 0)), 0)).
Proof.
  apply (authenticate_without_header id clock_sleep no_jitter headerless_post
           (new_client 0)
           {| status_code := 200; text := "";
              json_body := Return (JObj [("success", JStr "ok")]) |}
           0 [("success", JStr "ok")]).
  - reflexivity.
  - cbn. lia.
  - reflexivity.
  - reflexivity.
Defined.

(** X14.  [transactions] issues one kind of request only: without a
    start date or without an end date (missing or empty) nothing depends on
    the POST transport, and with both dates nothing depends on the GET
    transport. *)
Theorem transactions_fetch_one_call
    {W : Type}
    (client_post post' : string -> json -> list (string * string) -> W -> outcome response * W)
    (client_get get' : string -> list (string * string) -> W -> outcome response * W)
    (account_id : string) (start end_ : option string) (st : AltoroAPI * W) :
  (start = None \/ start = Some "" \/ end_ = None \/ end_ = Some "" ->
   transactions_fetch client_post client_get account_id start end_ st
   = transactions_fetch post' client_get account_id start end_ st)
  /\ (forall s e, start = Some s -> end_ = Some e -> s <> "" -> e <> "" ->
        transactions_fetch client_post client_get account_id start end_ st
        = transactions_fetch client_post get' account_id start end_ st).
Proof.
  split.
  - intros Hmiss. unfold transactions_fetch.
    assert (Hnone : date_range start end_ = None).
    { unfold date_range.
      destruct Hmiss as [ -> | [ -> | [ -> | -> ] ] ].
      - reflexivity.
      - now destruct end_.
      - now destruct start.
      - destruct start as [s|]; [|reflexivity]. cbn. now rewrite andb_false_r. }
    now rewrite Hnone.
  - intros s e -> -> Hs He. unfold transactions_fetch, date_range.
    destruct (String.eqb_spec s ""); [contradiction|].
    destruct (String.eqb_spec e ""); [contradiction|]. reflexivity.
Qed.

Lemma transactions_fetch_one_call_witness :
  transactions_fetch canned_post canned_get "800002" (Some "2025-02-01") None
                     (client_at 0)
  = transactions_fetch rejecting_post canned_get "800002" (Some "2025-02-01") None
                       (client_at 0)
  /\ transactions_fetch canned_post canned_get "800002" (Some "2025-02-01")
                        (Some "2025-04-15") (client_at 0)
     = transactions_fetch canned_post listing_get "800002" (Some "2025-02-01")
                          (Some "2025-04-15") (client_at 0).
Proof.
  split.
  - apply (proj1 (transactions_fetch_one_call canned_post rejecting_post canned_get
                    listing_get "800002" (Some "2025-02-01") None (client_at 0))).
    right. right. left. reflexivity.
  - apply (proj2 (transactions_fetch_one_call canned_post rejecting_post canned_get
                    listing_get "800002" (Some "2025-02-01") (Some "2025-04-15")
                    (client_at 0)) "2025-02-01" "2025-04-15" eq_refl eq_refl);
      discriminate.
Defined.

(** X15.  Whenever [_ensure_valid_token] returns, the client holds a
    token that is usable at that moment (no matter how many retries and
    sleeps the login took), and the headers of the next request carry it. *)
Theorem ensure_valid_token_leaves_usable_token
    {W : Type} (time_time : W -> Q) (time_sleep : Q -> W -> W)
    (random_random : W -> Q * W)
    (client_post : string -> json -> list (string * string) -> W -> outcome response * W)
    (st st' : AltoroAPI * W) :
  _ensure_valid_token time_time time_sleep random_random client_post st
  = (Return tt, st') ->
  _is_token_expired time_time st' = false
  /\ exists t, _tok (fst st') = Some t
               /\ _headers (fst st') = [("Authorization", value t)].
Proof.
  unfold _ensure_valid_token.
  destruct (_is_token_expired time_time st) eqn:Hexp.
  - unfold authenticate, decorated. intros Hauth.
    match type of Hauth with
    | fst ?run = _ => destruct run as [[r s] k] eqn:Hrun
    end.
    cbn [fst] in Hauth. injection Hauth as -> ->.
    apply with_api_retry_return_origin in Hrun as [st0 Hbody].
    apply authenticate_body_return in Hbody as [v Hv].
    split; [now apply (fresh_token_usable time_time st' v)|].
    eexists. split; [exact Hv|]. unfold _headers. now rewrite Hv.
  - intros [= <-]. split; [exact Hexp|].
    unfold _is_token_expired in Hexp. unfold _headers.
    destruct (_tok (fst st)) as [t|]; [|discriminate]. now exists t.
Qed.

Lemma ensure_valid_token_leaves_usable_token_witness :
  exists st',
    _ensure_valid_token id clock_sleep no_jitter canned_post (new_client 100)
    = (Return tt, st')
    /\ _is_token_expired id st' = false
    /\ exists t, _tok (fst st') = Some t
                 /\ _headers (fst st') = [("Authorization", value t)].
Proof.
  eexists. split; [vm_compute; reflexivity|].
  apply (ensure_valid_token_leaves_usable_token id clock_sleep no_jitter canned_post
           (new_client 100)).
  vm_compute. reflexivity.
Defined.

(** X16.  With a usable token, [accounts] answered with a 2xx status and
    a JSON object returns the array under [Accounts], and the empty list
    when the object has no such field, after one GET to [/api/account] that
    carries the token; no login request is made. *)
Theorem accounts_returns_list
    {W : Type} (time_time : W -> Q) (time_sleep : Q -> W -> W)
    (random_random : W -> Q * W)
    (client_post : string -> json -> list (string * string) -> W -> outcome response * W)
    (client_get : string -> list (string * string) -> W -> outcome response * W)
    (st : AltoroAPI * W) (t : Token) (r : response) (w1 : W)
    (items : list (string * json)) :
  _tok (fst st) = Some t ->
  _is_token_expired time_time st = false ->
  client_get (base (fst st) +:+ "/api/account") [("Authorization", value t)] (snd st)
  = (Return r, w1) ->
  (200 <= status_code r <= 299)%Z ->
  json_body r = Return (JObj items) ->
  (forall listed, dict_get items "Accounts" = Some (JArr listed) ->
     accounts time_time time_sleep random_random client_post client_get st
     = (Return (JArr listed), (set_client (fst st), w1)))
  /\ (dict_get items "Accounts" = None ->
      accounts time_time time_sleep random_random client_post client_get st
      = (Return (JArr []), (set_client (fst st), w1))).
Proof.
  intros Htok Hfresh Hget Hstatus Hjson.
  assert (Hbody : forall listed,
            get_or items "Accounts" (JArr []) = JArr listed ->
            accounts time_time time_sleep random_random client_post client_get st
            = (Return (JArr listed), (set_client (fst st), w1))).
  { intros listed Hl.
    assert (Hb : accounts_body time_time time_sleep random_random client_post
                   client_get st
                 = (Return (JArr listed), (set_client (fst st), w1))).
    { unfold accounts_body, _ensure_valid_token. rewrite Hfresh.
      unfold accounts_fetch, _get_client, _headers. cbn [fst snd].
      change (base (set_client (fst st))) with (base (fst st)).
      change (_tok (set_client (fst st))) with (_tok (fst st)).
      rewrite Htok, Hget, (raise_for_status_ok r Hstatus), Hjson, Hl. reflexivity. }
    unfold accounts, decorated.
    erewrite with_api_retry_first_return; [reflexivity | lia | exact Hb]. }
  split.
  - intros listed Hl. apply Hbody. unfold get_or. now rewrite Hl.
  - intros Hnone. apply Hbody. unfold get_or. now rewrite Hnone.
Qed.

Lemma accounts_returns_list_witness :
  accounts id clock_sleep no_jitter canned_post listing_get (client_at 0)
  = (Return (JArr [JObj [("Name", JStr "Savings"); ("id", JStr "800002")];
                   JObj [("Name", JStr "Checking"); ("id", JStr "800003")]]),
     (set_client (fst (client_at 0)), 0)).
Proof.
  refine (proj1 (accounts_returns_list id clock_sleep no_jitter canned_post
                   listing_get (client_at 0) {| value := "abc"; exp := 3600 |}
                   _ 0 _ eq_refl eq_refl eq_refl _ eq_refl) _ eq_refl).
  cbn. lia.
Defined.

(** X17.  No data request goes out without a login: when the token is
    missing or about to expire and the login is answered with 401 or 403,
    [accounts], [get_account_details] and [transactions] raise the
    authentication error of that login after its one POST, whatever the GET
    transport (and, for the first two, nothing else is ever posted); the
    error is not retried. *)
Theorem data_calls_stop_at_rejected_login
    {W : Type} (time_time : W -> Q) (time_sleep : Q -> W -> W)
    (random_random : W -> Q * W)
    (client_post : string -> json -> list (string * string) -> W -> outcome response * W)
    (client_get : string -> list (string * string) -> W -> outcome response * W)
    (st : AltoroAPI * W) (r : response) (w1 : W)
    (account_id : string) (start end_ : option string) :
  _is_token_expired time_time st = true ->
  client_post (base (fst st) +:+ "/api/login")
              (JObj [("username", JStr (user (fst st)));
                     ("password", JStr (pwd (fst st)))]) [] (snd st)
  = (Return r, w1) ->
  status_code r = 401%Z \/ status_code r = 403%Z ->
  exists cause,
    let rejected {A : Type} : outcome A * (AltoroAPI * W) :=
      (Raise (APIAuthenticationError
                ("Invalid credentials for user " +:+ user (fst st))
                (Some (status_code r)) (Some (slice_to 500 (text r)))
                (Some cause)), (set_client (fst st), w1)) in
    accounts time_time time_sleep random_random client_post client_get st = rejected
    /\ get_account_details time_time time_sleep random_random client_post client_get
                           account_id st = rejected
    /\ transactions time_time time_sleep random_random client_post client_get
                    account_id start end_ st = rejected.
Proof.
  intros Hexp Hpost Hstatus.
  destruct (authenticate_rejected_run time_time time_sleep random_random client_post
              st r w1 Hpost Hstatus) as [m Hrun].
  exists (HTTPStatusError m (status_code r) (text r)). cbn zeta.
  assert (Hensure : _ensure_valid_token time_time time_sleep random_random
                      client_post st
                    = (Raise (APIAuthenticationError
                                ("Invalid credentials for user " +:+ user (fst st))
                                (Some (status_code r)) (Some (slice_to 500 (text r)))
                                (Some (HTTPStatusError m (status_code r) (text r)))),
                       (set_client (fst st), w1))).
  { unfold _ensure_valid_token. now rewrite Hexp. }
  split; [|split].
  - unfold accounts, decorated.
    erewrite with_api_retry_first_passed; [reflexivity | lia | | reflexivity].
    unfold accounts_body. now rewrite Hensure.
  - unfold get_account_details, decorated.
    erewrite with_api_retry_first_passed; [reflexivity | lia | | reflexivity].
    unfold get_account_details_body. now rewrite Hensure.
  - unfold transactions, decorated.
    erewrite with_api_retry_first_passed; [reflexivity | lia | | reflexivity].
    unfold transactions_body. now rewrite Hensure.
Qed.

Lemma data_calls_stop_at_rejected_login_witness :
  exists cause,
    let rejected {A : Type} : outcome A * (AltoroAPI * Q) :=
      (Raise (APIAuthenticationError "Invalid credentials for user jsmith"
                (Some 401%Z) (Some "Unauthorized") (Some cause)),
       (set_client (fst (new_client 0)), 0)) in
    accounts id clock_sleep no_jitter rejecting_post listing_get (new_client 0)
    = rejected
    /\ get_account_details id clock_sleep no_jitter rejecting_post listing_get
                           "800002" (new_client 0) = rejected
    /\ transactions id clock_sleep no_jitter rejecting_post listing_get
                    "800002" (Some "2025-02-01") (Some "2025-04-15") (new_client 0)
       = rejected.
Proof.
  apply (data_calls_stop_at_rejected_login id clock_sleep no_jitter rejecting_post
           listing_get (new_client 0)
           {| status_code := 401; text := "Unauthorized";
              json_body := Return (JObj [("error", JStr "bad credentials")]) |} 0
           "800002" (Some "2025-02-01") (Some "2025-04-15")).
  - reflexivity.
  - reflexivity.
  - left. reflexivity.
Defined.
End ClientProperties.

(* ===================================================================== *)
(** ** Properties of the parsers of src/core/utils.py *)
(* ===================================================================== *)

Section UtilsProperties.
Import Utils TextPredicates.
Local Open Scope Q_scope.

(** X18.  Accounting parentheses turn the sign.  For every text [t] that
    is not itself wrapped in parentheses (after stripping),
    [parse_money("(" + t + ")")] is [parse_money(t)] with the opposite sign,
    and raises the same error when [parse_money(t)] raises.  So "($100.00)"
    is -100, and "(-5)" is +5: the minus sign and the parentheses cancel. *)
Theorem parse_money_parentheses_negate (t : string) :
  startswith (strip t) "(" && endswith (strip t) ")" = false ->
  parse_money ("(" +:+ t +:+ ")") = negated (parse_money t).
Proof.
  intros Hplain. unfold parse_money.
  change ("(" +:+ t +:+ ")") with (String "(" (t +:+ ")")).
  replace (String.eqb (String "(" (t +:+ ")")) "") with false by reflexivity.
  assert (Hstrip : strip (String "(" (t +:+ ")")) = String "(" (t +:+ ")")).
  { unfold strip.
    change (lstrip (String "(" (t +:+ ")"))) with (String "(" (t +:+ ")")).
    apply (rstrip_parenthesised t). }
  rewrite Hstrip.
  assert (Hopen : startswith (String "(" (t +:+ ")")) "(" = true)
    by (cbn [startswith]; now destruct (t +:+ ")")).
  rewrite Hopen.
  assert (Hclose : endswith (String "(" (t +:+ ")")) ")" = true)
    by apply (endswith_app (String "(" t) ")").
  rewrite Hclose.
  assert (Hkeep : keep numeric_char (String "(" (t +:+ ")")) = keep numeric_char t).
  { change (keep numeric_char (String "(" (t +:+ ")")))
      with (keep numeric_char (t +:+ ")")).
    rewrite keep_app. change (keep numeric_char ")") with "".
    apply append_empty_r. }
  rewrite Hkeep. cbn [andb].
  destruct (String.eqb_spec t "") as [->|Hne].
  - reflexivity.
  - rewrite keep_strip, Hplain.
    destruct (String.eqb (keep numeric_char t) ""); [reflexivity|].
    now destruct (float (keep numeric_char t)).
Qed.

Lemma parse_money_parentheses_negate_witness :
  parse_money "($1,234.56)" = Return (- (123456 # 100))
  /\ parse_money "(-5)" = Return (- - (5 # 1)).
Proof.
  split.
  - apply (parse_money_parentheses_negate "$1,234.56"). reflexivity.
  - apply (parse_money_parentheses_negate "-5"). reflexivity.
Defined.

(** X19.  When [parse_money] raises.  With [kept] the digits, points and
    minus signs of the input, in order: if [kept] is empty, or reads as a
    decimal number (a minus sign in front at most, one point at most, one
    digit at least), [parse_money] returns an amount; otherwise it raises
    [ValueError] naming [kept].  So "N/A" gives an amount, while a date, a
    range "10-20" or "1.234.567,89" raise. *)
Theorem parse_money_raises_iff (amount_str : string) :
  let kept := keep numeric_char amount_str in
  (kept = "" \/ decimal_text kept = true ->
   exists amount, parse_money amount_str = Return amount)
  /\ (kept <> "" -> decimal_text kept = false ->
      parse_money amount_str
      = Raise (Exception_ "ValueError"
                 ("could not convert string to float: '" +:+ kept +:+ "'"))).
Proof.
  intros kept. unfold parse_money.
  destruct (String.eqb_spec amount_str "") as [->|Hne].
  - split; [intros _; now exists 0 | intros Hk; now contradiction Hk].
  - rewrite keep_strip. fold kept.
    pose proof (float_spec kept (every_keep numeric_char amount_str)) as Hfloat.
    destruct (String.eqb_spec kept "") as [Hk|Hk].
    + split; [intros _; eexists; reflexivity | intros Hk'; contradiction].
    + destruct (float kept) as [amount|e].
      * split; [intros _; eexists; reflexivity | intros _ Hd; congruence].
      * destruct Hfloat as [Hd ->].
        split; [intros [H|H]; congruence | reflexivity].
Qed.

Lemma parse_money_raises_iff_witness :
  (exists amount, parse_money "N/A" = Return amount)
  /\ (exists amount, parse_money " -$1,234.56 " = Return amount)
  /\ parse_money "1.234.567,89"
     = Raise (Exception_ "ValueError"
                "could not convert string to float: '1.234.56789'")
  /\ parse_money "2025-01-01"
     = Raise (Exception_ "ValueError"
                "could not convert string to float: '2025-01-01'").
Proof.
  split; [|split; [|split]].
  - apply (proj1 (parse_money_raises_iff "N/A")). left. reflexivity.
  - apply (proj1 (parse_money_raises_iff " -$1,234.56 ")). right. reflexivity.
  - apply (proj2 (parse_money_raises_iff "1.234.567,89")); [discriminate | reflexivity].
  - apply (proj2 (parse_money_raises_iff "2025-01-01")); [discriminate | reflexivity].
Defined.

(** X20.  [clean_account_name] drops the first word.  For a first word
    [number] without white space, a separator [sep] of white space and a
    [name] that neither starts nor ends with white space (none of them
    empty), the result on [pre + number + sep + name + post] is [name], for
    any white space [pre] and [post] around; the name may itself contain
    spaces ("Credit Card"). *)
Theorem clean_account_name_drops_first_word (pre number sep name post : string) :
  all_space pre = true -> all_space sep = true -> all_space post = true ->
  no_space number = true ->
  number <> "" -> sep <> "" -> name <> "" ->
  strip name = name ->
  clean_account_name (pre +:+ number +:+ sep +:+ name +:+ post) = name.
Proof.
  intros Hpre Hsep Hpost Hnumber Hn0 Hs0 Hm0 Hname.
  apply strip_fixed in Hname as [Hleft Hright].
  unfold clean_account_name.
  destruct (String.eqb_spec (pre +:+ number +:+ sep +:+ name +:+ post) "") as [He|_].
  { apply append_eq_empty in He as [_ He].
    apply append_eq_empty in He as [He _]. contradiction. }
  assert (Hstrip : strip (pre +:+ number +:+ sep +:+ name +:+ post)
                   = number +:+ sep +:+ name).
  { unfold strip. rewrite (lstrip_app_space pre _ Hpre).
    rewrite (lstrip_no_space number _ Hnumber Hn0).
    rewrite <- (append_assoc sep name post), <- (append_assoc number _ post).
    rewrite (rstrip_app_space _ post Hpost).
    rewrite <- (append_assoc number sep name).
    apply (rstrip_app_kept _ name Hm0 Hright). }
  rewrite Hstrip. unfold split_maxsplit_1.
  rewrite (lstrip_no_space number _ Hnumber Hn0).
  assert (Hword : word (number +:+ sep +:+ name) = (number, sep +:+ name)).
  { apply word_app; [exact Hnumber|]. right.
    destruct sep as [|c sep']; [contradiction|].
    exists c, (sep' +:+ name). split; [reflexivity|].
    unfold all_space in Hsep. cbn in Hsep. now apply andb_true_iff in Hsep as [Hc _]. }
  destruct number as [|d number']; [contradiction|].
  rewrite append_cons in Hword |- *. rewrite Hword.
  rewrite (lstrip_app_space sep name Hsep), Hleft.
  destruct name; [contradiction | reflexivity].
Qed.

Lemma clean_account_name_drops_first_word_witness :
  clean_account_name (" " +:+ "4539082039396288" +:+ "  " +:+ "Credit Card" +:+ " ")
  = "Credit Card".
Proof.
  apply (clean_account_name_drops_first_word " " "4539082039396288" "  "
           "Credit Card" " "); try reflexivity; discriminate.
Defined.

(** X21.  A name of one word is returned as it was given, surrounding
    white space included: when the stripped input holds no white space the
    result is the input itself, not the stripped input. *)
Theorem clean_account_name_single_word (account_name : string) :
  no_space (strip account_name) = true ->
  clean_account_name account_name = account_name.
Proof.
  intros Hword. unfold clean_account_name.
  destruct (String.eqb_spec account_name "") as [->|_]; [reflexivity|].
  unfold split_maxsplit_1.
  destruct (strip account_name) as [|c t] eqn:Hs; [reflexivity|].
  assert (Hl : lstrip (String c t) = String c t).
  { rewrite <- (append_empty_r (String c t)).
    apply lstrip_no_space; [exact Hword | discriminate]. }
  rewrite Hl.
  assert (Hw : word (String c t) = (String c t, "")).
  { rewrite <- (append_empty_r (String c t)) at 1.
    apply word_app; [exact Hword | now left]. }
  rewrite Hw. reflexivity.
Qed.

Lemma clean_account_name_single_word_witness :
  clean_account_name "  Savings  " = "  Savings  ".
Proof.
  apply (clean_account_name_single_word "  Savings  "). reflexivity.
Defined.

End UtilsProperties.

(* ===================================================================== *)
(** ** Further properties of the reconciliation *)
(* ===================================================================== *)

Section ReconciliationProperties.
Import Pandas DataframeHelpers ApiValidate ApiValidateAccounts ReconcilePredicates.
Local Open Scope Q_scope.

(** X22.  [calculate_net_amount] on a frame that holds the credit and the
    debit column once each, of equal length and without text: the call
    returns the frame with, under [result_col], one value per row, the
    credit minus the debit where both are numbers and a missing value where
    either is missing. *)
Theorem calculate_net_amount_rows
    (df : DataFrame) (credit_col debit_col result_col : string)
    (credits debits : list cell) :
  column df credit_col = Some credits ->
  column df debit_col = Some debits ->
  length credits = length debits ->
  no_text credits -> no_text debits ->
  exists net,
    calculate_net_amount df credit_col debit_col result_col
    = Return (setitem df result_col net)
    /\ length net = length credits
    /\ forall i c d, credits !! i = Some c -> debits !! i = Some d ->
         net !! i = Some (difference c d).
Proof.
  intros Hc Hd Hlen Htc Htd.
  destruct (sub_columns_total credits debits Hlen Htc Htd) as (net & Hnet & Hl).
  exists net. split; [|split; [exact Hl|]].
  - unfold calculate_net_amount, set_difference. now rewrite Hc, Hd, Hnet.
  - intros i c d Hic Hid.
    destruct (sub_columns_lookup _ _ _ i c d Hnet Hic Hid) as (v & Hv & Hsub).
    now rewrite Hv, (sub_cells_difference _ _ _ Hsub).
Qed.

Lemma calculate_net_amount_rows_witness :
  exists net,
    calculate_net_amount ledger "credit" "debit" "net_amount"
    = Return (setitem ledger "net_amount" net)
    /\ length net = 3%nat
    /\ forall i c d,
         [Num 20; NA; Num 3] !! i = Some c ->
         [Num 5; Num 7; Num (1 # 2)] !! i = Some d ->
         net !! i = Some (difference c d).
Proof.
  apply (calculate_net_amount_rows ledger "credit" "debit" "net_amount"
           [Num 20; NA; Num 3] [Num 5; Num 7; Num (1 # 2)]).
  - reflexivity.
  - reflexivity.
  - reflexivity.
  - repeat constructor; discriminate.
  - repeat constructor; discriminate.
Defined.



(** X24.  Where [_reconcile_accounts] does not reconcile.  If the API
    frame has no [account_id] column (as the empty frame returned after a
    failed retrieval), the call raises [KeyError] whatever the web data.
    Otherwise, if no web column names the account (lowercased, it would
    contain "account" and "id" or "number"), the call merges nothing and
    returns the API rows with every row tagged "No web data for comparison"
    under [web_match_status]. *)
Theorem reconcile_accounts_without_key
    (to_str : cell -> string) (not_in_index : list string -> string)
    (merge : DataFrame -> DataFrame -> string -> outcome DataFrame)
    (api_df web_df : DataFrame) :
  (has_column api_df "account_id" = false ->
   _reconcile_accounts to_str not_in_index merge api_df web_df
   = Raise (Exception_ "KeyError" "'account_id'"))
  /\ (has_column api_df "account_id" = true ->
      (forall label, In label (columns web_df) -> ~ names_account label) ->
      exists out,
        _reconcile_accounts to_str not_in_index merge api_df web_df = Return out
        /\ index_length out = index_length api_df
        /\ has_column out "web_match_status" = true
        /\ (forall tags, In ("web_match_status", tags) (data out) ->
              tags = replicate (index_length api_df)
                               (Str "No web data for comparison"))
        /\ (forall c, c <> "web_match_status" -> c <> "account_id" ->
              column out c = column api_df c)).
Proof.
  split.
  - intros Hno. unfold _reconcile_accounts. now rewrite Hno.
  - intros Hkey Hnone. unfold _reconcile_accounts. rewrite Hkey. cbn [negb].
    rewrite (has_column_normalize_account web_df Hnone).
    eexists. split; [reflexivity|].
    destruct (setitem_scalar_tagged (astype_str to_str api_df "account_id")
                "web_match_status" (Str "No web data for comparison"))
      as [Hhas Htags].
    split; [reflexivity|]. split; [exact Hhas|]. split.
    + intros tags Hin. now rewrite (Htags tags Hin).
    + intros c Hc Hk. unfold setitem_scalar.
      rewrite column_setitem_other by exact Hc.
      unfold column, astype_str; cbn [data].
      assert (Hsame : forall l : list (string * list cell),
                List.filter (fun p => String.eqb (fst p) c)
                  (map (fun p => if String.eqb (fst p) "account_id"
                                 then (fst p, map (fun v => Str (to_str v)) (snd p))
                                 else p) l)
                = List.filter (fun p => String.eqb (fst p) c) l).
      { induction l as [|p rest IH]; cbn; [reflexivity|].
        destruct (String.eqb_spec (fst p) "account_id") as [Hp|Hp]; cbn [fst].
        - destruct (String.eqb_spec (fst p) c) as [Hpc|_]; [congruence | exact IH].
        - destruct (String.eqb (fst p) c); now rewrite IH. }
      now rewrite Hsame.
Qed.

Lemma reconcile_accounts_without_key_witness :
  _reconcile_accounts plain_str not_in_index merge_same_keys no_frame web_balances
  = Raise (Exception_ "KeyError" "'account_id'")
  /\ exists out,
       _reconcile_accounts plain_str not_in_index merge_same_keys
                           api_balances web_without_key = Return out
       /\ index_length out = 2%nat
       /\ has_column out "web_match_status" = true
       /\ (forall tags, In ("web_match_status", tags) (data out) ->
             tags = replicate 2 (Str "No web data for comparison"))
       /\ (forall c, c <> "web_match_status" -> c <> "account_id" ->
             column out c = column api_balances c).
Proof.
  split.
  - apply (proj1 (reconcile_accounts_without_key plain_str not_in_index
                    merge_same_keys no_frame web_balances)).
    reflexivity.
  - apply (proj2 (reconcile_accounts_without_key plain_str not_in_index
                    merge_same_keys api_balances web_without_key)).
    + reflexivity.
    + intros label Hin [Haccount _]. apply contains_spec in Haccount.
      cbn in Hin. destruct Hin as [<-|[<-|[]]]; vm_compute in Haccount;
        discriminate Haccount.
Defined.

(** X25.  The status of a reconciled account in [_reconcile_accounts].
    When both sides name the account, the selections and the merge succeed,
    and the merged frame (web columns renamed) holds [balance] and
    [balance_web] once each, then for every row [i]: whenever the call
    returns, the frame it returns has a [match_status] column whose value at
    [i] is "Data Missing" unless both balances are numbers, "Match" if they
    differ by less than 0.01, and "Variance" otherwise.  The available
    balances play no part in the status. *)
Theorem reconcile_accounts_status
    (to_str : cell -> string) (not_in_index : list string -> string)
    (merge : DataFrame -> DataFrame -> string -> outcome DataFrame)
    (api_df web_df api_part web_part merged out : DataFrame) (i : nat)
    (balances web_balances : list cell) (balance web_balance : cell) :
  has_column api_df "account_id" = true ->
  has_column (normalize_column_names web_df mapping_rules) "account_id" = true ->
  select not_in_index (astype_str to_str api_df "account_id")
         ["account_id"; "account_name"; "balance"; "available_balance"]
  = Return api_part ->
  select not_in_index
         (astype_str to_str (normalize_column_names web_df mapping_rules)
                     "account_id")
         ["account_id"; "total"; "available"]
  = Return web_part ->
  merge api_part web_part "account_id" = Return merged ->
  column (rename {[ "total" := "balance_web";
                    "available" := "available_balance_web" ]} merged) "balance"
  = Some balances ->
  column (rename {[ "total" := "balance_web";
                    "available" := "available_balance_web" ]} merged) "balance_web"
  = Some web_balances ->
  (i < index_length merged)%nat ->
  balances !! i = Some balance -> web_balances !! i = Some web_balance ->
  _reconcile_accounts to_str not_in_index merge api_df web_df = Return out ->
  has_column out "match_status" = true
  /\ forall statuses, In ("match_status", statuses) (data out) ->
       statuses !! i
       = Some (Str (expected_status VARIANCE_TOLERANCE balance web_balance)).
Proof.
  intros Hka Hkw Hsa Hsw Hmerge Hb Hw Hi Hib Hiw.
  unfold _reconcile_accounts. rewrite Hka, Hkw. cbn [negb].
  unfold bind. rewrite Hsa, Hsw, Hmerge.
  set (m0 := rename _ merged) in *.
  destruct (calculate_variance_frame m0 _ _ "balance_variance")
    as [m1|] eqn:H1; [|discriminate].
  destruct (calculate_variance_frame m1 _ _ "available_variance")
    as [m2|] eqn:H2; [|discriminate].
  intros Hout.
  apply calculate_variance_frame_inv in H2 as (v2 & _ & ->).
  apply (status_column_after_variance m0 "balance" "balance_web" "balance_variance"
           m1 (setitem m1 "available_variance" v2) out VARIANCE_TOLERANCE i
           balance web_balance H1).
  - now apply column_setitem_other.
  - exact Hout.
  - exact Hi.
  - left. rewrite (row_get_column _ _ _ _ Hb). now rewrite (nth_lookup_cell _ _ _ Hib).
  - left. rewrite (row_get_column _ _ _ _ Hw). now rewrite (nth_lookup_cell _ _ _ Hiw).
Qed.

Lemma reconcile_accounts_status_witness :
  exists out,
    _reconcile_accounts plain_str not_in_index merge_same_keys
                        api_balances web_balances = Return out
    /\ has_column out "match_status" = true
    /\ forall statuses, In ("match_status", statuses) (data out) ->
         statuses !! 1%nat
         = Some (Str (expected_status VARIANCE_TOLERANCE
                        (Num (2505 # 10)) (Num 250))).
Proof.
  eexists. split; [vm_compute; reflexivity|].
  eapply (reconcile_accounts_status plain_str not_in_index merge_same_keys
            api_balances web_balances _ _ _ _ 1%nat
            [Num 100; Num (2505 # 10)] [Num 100; Num 250]).
  - reflexivity.
  - vm_compute. reflexivity.
  - vm_compute. reflexivity.
  - vm_compute. reflexivity.
  - vm_compute. reflexivity.
  - vm_compute. reflexivity.
  - vm_compute. reflexivity.
  - vm_compute. lia.
  - reflexivity.
  - reflexivity.
  - vm_compute. reflexivity.
Defined.

(** X26.  The summary of one side's transactions.  On a frame with rows
    and the four required columns, [_summarize_api_transactions] asks pandas
    for the sums of [debit] and [credit] and the count of [transaction_id]
    per [account_id]; when that grouping returns the two sums once each
    (of equal length, without text, and no column already named
    [total_debits] or [total_credits]), the summary holds them as
    [total_debits] and [total_credits], a [net_amount] that is credits minus
    debits row by row (missing where either is), and "Transaction Summary"
    as [data_source] of every row. *)
Theorem summarize_api_transactions_net_amount
    (groupby_agg : DataFrame -> string -> list (string * string) -> outcome DataFrame)
    (api_df grouped : DataFrame) (credits debits : list cell) :
  empty api_df = false ->
  (forall col, In col ["account_id"; "debit"; "credit"; "transaction_id"] ->
     has_column api_df col = true) ->
  groupby_agg api_df "account_id"
              [("debit", "sum"); ("credit", "sum"); ("transaction_id", "count")]
  = Return grouped ->
  column grouped "credit" = Some credits ->
  column grouped "debit" = Some debits ->
  has_column grouped "total_credits" = false ->
  has_column grouped "total_debits" = false ->
  length credits = length debits ->
  no_text credits -> no_text debits ->
  exists out net,
    _summarize_api_transactions groupby_agg api_df = Return out
    /\ index_length out = index_length grouped
    /\ column out "total_credits" = Some credits
    /\ column out "total_debits" = Some debits
    /\ has_column out "net_amount" = true
    /\ (forall vs, In ("net_amount", vs) (data out) -> vs = net)
    /\ (forall i c d, credits !! i = Some c -> debits !! i = Some d ->
          net !! i = Some (difference c d))
    /\ has_column out "data_source" = true
    /\ (forall vs, In ("data_source", vs) (data out) ->
          vs = replicate (index_length grouped) (Str "Transaction Summary")).
Proof.
  intros Hrows Hcols Hgroup Hc Hd Hnc Hnd Hlen Htc Htd.
  set (summary :=
         {| index_length := index_length grouped;
            data := map (fun p =>
                      (if String.eqb (fst p) "transaction_id" then "transaction_count"
                       else if String.eqb (fst p) "debit" then "total_debits"
                       else if String.eqb (fst p) "credit" then "total_credits"
                       else fst p, snd p)) (data grouped) |}).
  assert (Hlabel : forall old new,
            (forall c, In c (columns grouped) ->
               ((if String.eqb c "transaction_id" then "transaction_count"
                 else if String.eqb c "debit" then "total_debits"
                 else if String.eqb c "credit" then "total_credits"
                 else c) = new <-> c = old)) ->
            column summary new = column grouped old).
  { intros old new Hr.
    apply (column_relabel
             (fun c => if String.eqb c "transaction_id" then "transaction_count"
                       else if String.eqb c "debit" then "total_debits"
                       else if String.eqb c "credit" then "total_credits"
                       else c) grouped (index_length grouped) old new Hr). }
  assert (Habsent : forall c name, In c (columns grouped) ->
            has_column grouped name = false -> c <> name).
  { intros c name Hin Hno ->. unfold has_column in Hno.
    assert (existsb (String.eqb name) (columns grouped) = true); [|congruence].
    apply existsb_exists. exists name. split; [exact Hin | apply String.eqb_refl]. }
  assert (Hsc : column summary "total_credits" = Some credits).
  { rewrite <- Hc. apply Hlabel. intros c Hin.
    pose proof (Habsent c _ Hin Hnc).
    destruct (String.eqb_spec c "transaction_id") as [->|N1];
      [split; discriminate|].
    destruct (String.eqb_spec c "debit") as [->|N2]; [split; discriminate|].
    destruct (String.eqb_spec c "credit") as [->|N3]; tauto. }
  assert (Hsd : column summary "total_debits" = Some debits).
  { rewrite <- Hd. apply Hlabel. intros c Hin.
    pose proof (Habsent c _ Hin Hnd).
    destruct (String.eqb_spec c "transaction_id") as [->|N1];
      [split; discriminate|].
    destruct (String.eqb_spec c "debit") as [->|N2]; [tauto|].
    destruct (String.eqb_spec c "credit") as [->|N3]; [split; congruence | tauto]. }
  destruct (sub_columns_total credits debits Hlen Htc Htd) as (net & Hnet & _).
  exists (setitem_scalar (setitem summary "net_amount" net) "data_source"
                         (Str "Transaction Summary")), net.
  split; [|split; [reflexivity|]].
  - unfold _summarize_api_transactions. rewrite Hrows.
    cbn [List.filter].
    rewrite !Hcols by (cbn; tauto). cbn [negb length Nat.eqb].
    unfold group_and_sum_by_account.
    change (dict_set (fold_left (fun d col => dict_set d col "sum")
                                ["debit"; "credit"] []) "transaction_id" "count")
      with [("debit", "sum"); ("credit", "sum"); ("transaction_id", "count")].
    rewrite Hgroup. cbn [bind]. unfold bind at 1.
    rewrite summary_labels. fold summary.
    unfold calculate_net_amount, set_difference.
    rewrite Hsc, Hsd, Hnet. reflexivity.
  - unfold setitem_scalar.
    split; [now rewrite !column_setitem_other by discriminate|].
    split; [now rewrite !column_setitem_other by discriminate|].
    split.
    { apply has_column_setitem_kept.
      apply (proj1 (proj2 (proj2 (setitem_spec summary "net_amount" net)))). }
    split.
    { intros vs Hin. apply setitem_other_in in Hin; [|discriminate].
      now apply setitem_labelled in Hin. }
    split.
    { intros i c d Hic Hid.
      destruct (sub_columns_lookup _ _ _ i c d Hnet Hic Hid) as (v & Hv & Hsub).
      now rewrite Hv, (sub_cells_difference _ _ _ Hsub). }
    split.
    { apply (proj1 (proj2 (proj2 (setitem_spec _ "data_source" _)))). }
    intros vs Hin. now apply setitem_labelled in Hin.
Qed.

Lemma summarize_api_transactions_net_amount_witness :
  exists out net,
    _summarize_api_transactions groupby_single_rows api_by_account = Return out
    /\ index_length out = 2%nat
    /\ column out "total_credits" = Some [Num 0; Num 20]
    /\ column out "total_debits" = Some [Num 5; Num 7]
    /\ has_column out "net_amount" = true
    /\ (forall vs, In ("net_amount", vs) (data out) -> vs = net)
    /\ (forall i c d, [Num 0; Num 20] !! i = Some c -> [Num 5; Num 7] !! i = Some d ->
          net !! i = Some (difference c d))
    /\ has_column out "data_source" = true
    /\ (forall vs, In ("data_source", vs) (data out) ->
          vs = replicate 2 (Str "Transaction Summary")).
Proof.
  apply (summarize_api_transactions_net_amount groupby_single_rows api_by_account
           {| index_length := 2;
              data := [("account_id", [Str "800002"; Str "800003"]);
                       ("debit", [Num 5; Num 7]);
                       ("credit", [Num 0; Num 20]);
                       ("transaction_id", [Num 1; Num 1])] |}
           [Num 0; Num 20] [Num 5; Num 7]).
  - reflexivity.
  - intros col [<-|[<-|[<-|[<-|[]]]]]; reflexivity.
  - reflexivity.
  - reflexivity.
  - reflexivity.
  - reflexivity.
  - reflexivity.
  - reflexivity.
  - repeat constructor; discriminate.
  - repeat constructor; discriminate.
Defined.

End ReconciliationProperties.

(* ===================================================================== *)
(** ** Properties of the account retrieval *)
(* ===================================================================== *)

Section RetrieveProperties.
Import RetryHandler RunPredicates Client Pandas ApiValidate ApiValidateAccounts.
Import ApiRetrieve.
Local Open Scope Q_scope.

(** X27.  The account list fails on every attempt.  With [api.accounts]
    a call decorated by [with_api_retry] ([max_retries >= 0]): if every
    attempt ends in status 500, a connect error or a timeout,
    [_retrieve_api_accounts] returns the empty frame (no rows, no columns)
    and asks for no account details; if every attempt ends in a generic
    request error, the [TypeError] of the engine leaves
    [_retrieve_api_accounts].  The empty frame cannot be reconciled:
    [_reconcile_accounts] raises [KeyError] on it, whatever the web data. *)
Theorem retrieve_api_accounts_when_list_fails
    {W : Type} (time_sleep : Q -> W -> W) (random_random : W -> Q * W)
    (max_retries : Z) (backoff_factor max_backoff : Q) (jitter : bool)
    (accounts_body : W -> outcome json * W)
    (api_get_account_details : string -> W -> outcome json * W)
    (str_of : json -> string) (cell_of : json -> cell) (w : W) :
  (0 <= max_retries)%Z ->
  (always_transient accounts_body ->
   exists w',
     _retrieve_api_accounts
       (fun w0 => fst (with_api_retry time_sleep random_random max_retries
                         backoff_factor max_backoff jitter accounts_body
                         "accounts" w0))
       api_get_account_details str_of cell_of w
     = (Return no_frame, w'))
  /\ (always_request_error accounts_body ->
      exists message w',
        _retrieve_api_accounts
          (fun w0 => fst (with_api_retry time_sleep random_random max_retries
                            backoff_factor max_backoff jitter accounts_body
                            "accounts" w0))
          api_get_account_details str_of cell_of w
        = (Raise (TypeError message), w'))
  /\ (forall (to_str : cell -> string) (not_in_index : list string -> string)
             (merge : DataFrame -> DataFrame -> string -> outcome DataFrame)
             (web_df : DataFrame),
        _reconcile_accounts to_str not_in_index merge no_frame web_df
        = Raise (Exception_ "KeyError" "'account_id'")).
Proof.
  intros Hmax. split; [|split].
  - intros Hall.
    destruct (with_api_retry_transient_exhausts time_sleep random_random max_retries
                backoff_factor max_backoff jitter accounts_body "accounts" w
                Hmax Hall) as (m & n & last & c & cause & w' & k & Hrun).
    exists w'. unfold _retrieve_api_accounts. now rewrite Hrun.
  - intros Hall.
    destruct (wrapper_loop_request_error time_sleep random_random max_retries
                backoff_factor max_backoff jitter accounts_body "accounts"
                (wrapper_fuel max_retries) 0%Z None w no_stats Hall)
      as (message & w' & k & Hrun & _); [lia | unfold wrapper_fuel; lia |].
    exists message, w'. unfold _retrieve_api_accounts, with_api_retry, wrapper.
    now rewrite Hrun.
  - reflexivity.
Qed.

Lemma retrieve_api_accounts_when_list_fails_witness :
  (exists w',
     _retrieve_api_accounts
       (fun w0 => fst (with_api_retry (fun _ w => w) (fun w => (0, w)) 3 2 32 true
                         list_unavailable "accounts" w0))
       details_for plain_json_str plain_cell tt
     = (Return no_frame, w'))
  /\ (exists message w',
        _retrieve_api_accounts
          (fun w0 => fst (with_api_retry (fun _ w => w) (fun w => (0, w)) 3 2 32 true
                            list_broken "accounts" w0))
          details_for plain_json_str plain_cell tt
        = (Raise (TypeError message), w')).
Proof.
  split.
  - apply (proj1 (retrieve_api_accounts_when_list_fails (fun _ w => w)
                    (fun w => (0, w)) 3 2 32 true list_unavailable details_for
                    plain_json_str plain_cell tt ltac:(lia))).
    intros w0. do 2 eexists. split; [reflexivity|]. split; [reflexivity | discriminate].
  - apply (proj1 (proj2 (retrieve_api_accounts_when_list_fails (fun _ w => w)
                    (fun w => (0, w)) 3 2 32 true list_broken details_for
                    plain_json_str plain_cell tt ltac:(lia)))).
    intros w0. do 2 eexists. reflexivity.
Defined.

(** X28.  No listed account is dropped silently.  When the account list
    arrives and [_retrieve_api_accounts] returns, the frame has exactly one
    row for every listed item that yields a non-empty account id (text, or a
    dict through [accountId], [id] or [account_id]), in the order of the
    list, whether its details could be fetched or an [APIError] led to the
    basic entry; with at least one such item the frame has the six columns
    [account_id], ..., [api_source], and with none it is the empty frame. *)
Theorem retrieve_api_accounts_rows
    {W : Type} (api_accounts : W -> outcome json * W)
    (api_get_account_details : string -> W -> outcome json * W)
    (str_of : json -> string) (cell_of : json -> cell)
    (w w1 w' : W) (accounts_list : json) (df : DataFrame) :
  api_accounts w = (Return accounts_list, w1) ->
  _retrieve_api_accounts api_accounts api_get_account_details str_of cell_of w
  = (Return df, w') ->
  let ids := listed_ids str_of (elements accounts_list) in
  Pandas.len df = length ids
  /\ (ids <> [] ->
      columns df = record_keys /\ column df "account_id" = Some (map Str ids))
  /\ (ids = [] -> df = no_frame).
Proof.
  intros Hlist. unfold _retrieve_api_accounts. rewrite Hlist.
  destruct (Client.len accounts_list); [|discriminate].
  destruct (details_loop _ _ _ _ _ _) as [[out|e] w2] eqn:Hloop; [|discriminate].
  intros [= <- <-].
  set (ids := listed_ids str_of (elements accounts_list)).
  destruct (details_loop_ids _ _ _ _ _ _ _ _ Hloop ltac:(constructor))
    as [Hkeys Hids].
  cbn [map app] in Hids. fold ids in Hids.
  assert (Hlen : length out = length ids).
  { rewrite <- (length_map (field "account_id") out), Hids. apply length_map. }
  destruct out as [|first rest].
  - destruct ids; [|discriminate Hlen].
    split; [reflexivity|]. split; [intros H; now destruct H | reflexivity].
  - apply Forall_cons in Hkeys as Hfirst. destruct Hfirst as [Hfirst _].
    unfold frame_of_records. rewrite Hfirst. split; [exact Hlen|]. split.
    + intros _. split; [reflexivity|].
      unfold column, record_keys. cbn [data map List.filter fst String.eqb Ascii.eqb
                                        Bool.eqb snd].
      now rewrite <- Hids.
    + intros He. rewrite He in Hlen. discriminate Hlen.
Qed.

Lemma retrieve_api_accounts_rows_witness :
  exists df,
    _retrieve_api_accounts listed_accounts details_for plain_json_str plain_cell tt
    = (Return df, tt)
    /\ Pandas.len df = 2%nat
    /\ (["800002"; "800003"] <> [] ->
        columns df = record_keys
        /\ column df "account_id" = Some [Str "800002"; Str "800003"])
    /\ ((["800002"; "800003"] : list string) = [] -> df = no_frame).
Proof.
  eexists. split; [vm_compute; reflexivity|].
  apply (retrieve_api_accounts_rows listed_accounts details_for plain_json_str
           plain_cell tt tt tt
           (JArr [JStr "800002";
                  JObj [("Name", JStr "Checking"); ("id", JStr "800003")];
                  JObj [("Name", JStr "Closed")]; JNum 5])).
  - reflexivity.
  - vm_compute. reflexivity.
Defined.

(** X29.  Failed transaction calls leave no trace.  On a frame without
    rows [_retrieve_api_transactions] returns the empty frame and calls
    nothing.  On accounts with an [account_id] column, if the transactions
    call fails for every account with an [APIError] other than an
    authentication error (a 404, exhausted retries, ...), it still returns
    the empty frame and raises nothing: the result is the one for accounts
    that have no transactions. *)
Theorem retrieve_api_transactions_swallows_failures
    {W : Type} (api_transactions : string -> W -> outcome json * W)
    (to_str : cell -> string) (series_str : list (string * cell) -> string)
    (cell_of : json -> cell) (accounts_df : DataFrame) (w : W) :
  (index_length accounts_df = 0%nat ->
   _retrieve_api_transactions api_transactions to_str series_str cell_of accounts_df w
   = (Return no_frame, w))
  /\ (has_column accounts_df "account_id" = true ->
      (forall account_id w0, exists e w1,
         api_transactions account_id w0 = (Raise e, w1)
         /\ is_api_error e = true /\ class_of e <> "APIAuthenticationError") ->
      exists w',
        _retrieve_api_transactions api_transactions to_str series_str cell_of
                                   accounts_df w
        = (Return no_frame, w')).
Proof.
  split.
  - intros H0. unfold _retrieve_api_transactions. now rewrite H0.
  - intros Hkey Hfail. unfold _retrieve_api_transactions.
    destruct (accounts_loop_all_fail api_transactions to_str series_str cell_of
                (map (row accounts_df) (seq 0 (index_length accounts_df))) [] w)
      as [w' Hrun].
    + apply List.Forall_forall. intros r Hin.
      apply in_map_iff in Hin as (i & <- & _). now apply row_get_present.
    + exact Hfail.
    + exists w'. now rewrite Hrun.
Qed.

Lemma retrieve_api_transactions_swallows_failures_witness :
  _retrieve_api_transactions transactions_unavailable plain_str plain_series
                             plain_cell no_frame tt
  = (Return no_frame, tt)
  /\ exists w',
       _retrieve_api_transactions transactions_unavailable plain_str plain_series
                                  plain_cell api_balances tt
       = (Return no_frame, w').
Proof.
  split.
  - apply (proj1 (retrieve_api_transactions_swallows_failures
                    transactions_unavailable plain_str plain_series plain_cell
                    no_frame tt)).
    reflexivity.
  - apply (proj2 (retrieve_api_transactions_swallows_failures
                    transactions_unavailable plain_str plain_series plain_cell
                    api_balances tt)).
    + reflexivity.
    + intros account_id w0. do 2 eexists.
      split; [reflexivity|]. split; [reflexivity | discriminate].
Defined.

End RetrieveProperties.
